(** * hugoify-bluesky-rss-feed: the pubDate rewriting pipeline of cmd/blueskyrss/main.go

    The program downloads an RSS feed, decodes it with encoding/xml into the
    structs [rss], [channel], [item] and [guid], rewrites every item's
    pubDate with [time.Parse] / [Time.Format], and encodes the result into a
    file.  This development embeds

    - the part of Go's [time] package that the two constant layouts of
      main.go exercise ([GoTime]),
    - the tag-driven decoding and encoding of the four structs by
      encoding/xml, over element trees ([GoXml]),
    - [main] itself, as a function of the process environment, the HTTP
      endpoint and the file system, with the calls it makes recorded in a
      trace ([Main]).  *)

From Stdlib Require Import ZArith Lia String Ascii List Bool.
From stdpp Require Import base list strings gmap.

Local Open Scope string_scope.
Local Open Scope Z_scope.

(* stdpp keeps [String.append] folded; the proofs below compute with it. *)
#[local] Arguments String.append !s1 s2 : simpl nomatch.

(** ** Byte strings

    A Go string is a sequence of bytes; [string] (a list of 8-bit [ascii])
    is exactly that. *)

Definition byte_of (c : ascii) : Z := Z.of_N (N_of_ascii c).

Fixpoint take_s (n : nat) (s : string) : string :=
  match n, s with
  | S n', String c s' => String c (take_s n' s')
  | _, _ => EmptyString
  end.

Fixpoint drop_s (n : nat) (s : string) : string :=
  match n, s with
  | S n', String _ s' => drop_s n' s'
  | _, _ => s
  end.

Definition len (s : string) : Z := Z.of_nat (String.length s).

(** The decimal digit for [d] in [0..9]. *)
Definition digit_char (d : Z) : ascii := ascii_of_N (Z.to_N (48 + d)).

Module GoTime.

(** *** Scanning helpers of time/format.go *)

Definition isDigitC (c : ascii) : bool := (48 <=? byte_of c) && (byte_of c <=? 57).

(** [isDigit(s, i)]: the string has a decimal digit at index [i]. *)
Definition isDigit (s : string) (i : nat) : bool :=
  match String.get i s with
  | Some c => isDigitC c
  | None => false
  end.

Definition digitVal (c : ascii) : Z := byte_of c - 48.

(** [getnum(s, fixed)]: a one- or two-digit number; with [fixed] exactly two
    digits.  [None] is the error [errBad]. *)
Definition getnum (s : string) (fixed : bool) : option (Z * string) :=
  if negb (isDigit s 0) then None
  else if negb (isDigit s 1) then
    if fixed then None
    else match s with
         | String c0 s1 => Some (digitVal c0, s1)
         | EmptyString => None
         end
  else match s with
       | String c0 (String c1 s2) => Some (digitVal c0 * 10 + digitVal c1, s2)
       | _ => None
       end.

(** [leadingInt]: the leading run of digits as a number, and the rest; fails
    when the number leaves the 63-bit range. *)
Fixpoint leadingInt_from (x : Z) (s : string) : option (Z * string) :=
  match s with
  | String c s' =>
    if negb (isDigitC c) then Some (x, s)
    else if (2 ^ 63) / 10 <? x then None
    else let x' := x * 10 + digitVal c in
         if 2 ^ 63 <? x' then None else leadingInt_from x' s'
  | EmptyString => Some (x, s)
  end.

Definition leadingInt (s : string) : option (Z * string) := leadingInt_from 0 s.

(** [atoi]: an optional sign and digits, nothing else. *)
Definition atoi (s : string) : option Z :=
  let '(neg, s1) :=
    match s with
    | String c s' =>
      if Ascii.eqb c "-" then (true, s')
      else if Ascii.eqb c "+" then (false, s')
      else (false, s)
    | EmptyString => (false, s)
    end in
  match leadingInt s1 with
  | Some (q, EmptyString) => Some (if neg : bool then - q else q)
  | _ => None
  end.

(** [match(s1, s2)]: equality of two strings of the same length up to the
    case of ASCII letters. *)
Definition match_byte (c1 c2 : ascii) : bool :=
  if Ascii.eqb c1 c2 then true
  else
    let l1 := Z.lor (byte_of c1) 32 in
    let l2 := Z.lor (byte_of c2) 32 in
    negb ((negb (l1 =? l2)) || (l1 <? 97) || (122 <? l1)).

Fixpoint match_ (s1 s2 : string) : bool :=
  match s1, s2 with
  | String c1 r1, String c2 r2 => match_byte c1 c2 && match_ r1 r2
  | EmptyString, _ => true
  | String _ _, EmptyString => false
  end.

(** [lookup(tab, val)]: index of the first table entry that is a prefix of
    [val] up to case, and the rest of [val]. *)
Fixpoint lookup_from (i : Z) (tab : list string) (val : string)
  : option (Z * string) :=
  match tab with
  | v :: tab' =>
    if (len v <=? len val) && match_ (take_s (String.length v) val) v
    then Some (i, drop_s (String.length v) val)
    else lookup_from (i + 1) tab' val
  | [] => None
  end.

Definition lookup (tab : list string) (val : string) : option (Z * string) :=
  lookup_from 0 tab val.

Definition shortMonthNames : list string :=
  ["Jan"; "Feb"; "Mar"; "Apr"; "May"; "Jun";
   "Jul"; "Aug"; "Sep"; "Oct"; "Nov"; "Dec"].

Definition space : ascii := " "%char.

(** [cutspace]: drop leading spaces. *)
Fixpoint cutspace (s : string) : string :=
  match s with
  | String c s' => if Ascii.eqb c space then cutspace s' else s
  | EmptyString => s
  end.

(** [skip(value, prefix)]: remove the literal [prefix] from [value], a space
    of the prefix standing for a run of spaces.  The recursion is on the
    prefix; after a space the prefix continues at its next non-space byte. *)
Fixpoint skip (value prefix : string) : option string :=
  match prefix with
  | EmptyString => Some value
  | String p prefix' =>
    if Ascii.eqb p space then
      match value with
      | String v _ =>
        if negb (Ascii.eqb v space) then None
        else skip_spaces (cutspace value) prefix'
      | EmptyString => skip_spaces value prefix'
      end
    else
      match value with
      | String v value' => if Ascii.eqb v p then skip value' prefix' else None
      | EmptyString => None
      end
  end
with skip_spaces (value prefix : string) : option string :=
  match prefix with
  | EmptyString => Some value
  | String p prefix' =>
    if Ascii.eqb p space then skip_spaces value prefix'
    else
      match value with
      | String v value' => if Ascii.eqb v p then skip value' prefix' else None
      | EmptyString => None
      end
  end.

(** *** Calendar arithmetic of time/time.go

    Seconds are counted from the absolute epoch, 1 January of the year
    [absoluteZeroYear], which lies before every representable date, so the
    counts below are non-negative; Unix time is a fixed shift away. *)

Definition secondsPerMinute : Z := 60.
Definition secondsPerHour : Z := 60 * secondsPerMinute.
Definition secondsPerDay : Z := 24 * secondsPerHour.
Definition daysPer400Years : Z := 365 * 400 + 97.
Definition daysPer100Years : Z := 365 * 100 + 24.
Definition daysPer4Years : Z := 365 * 4 + 1.

Definition absoluteZeroYear : Z := -292277022399.
Definition internalYear : Z := 1.
Definition absoluteToInternal : Z :=
  (absoluteZeroYear - internalYear) * 31556952.
Definition unixToInternal : Z :=
  (1969 * 365 + 1969 / 4 - 1969 / 100 + 1969 / 400) * secondsPerDay.
Definition internalToUnix : Z := - unixToInternal.
Definition internalToAbsolute : Z := - absoluteToInternal.

Definition January : Z := 1.
Definition February : Z := 2.
Definition March : Z := 3.

Definition isLeap (year : Z) : bool :=
  (Z.rem year 4 =? 0) && (negb (Z.rem year 100 =? 0) || (Z.rem year 400 =? 0)).

(** [daysBefore[m]]: days of a non-leap year before month [m+1]. *)
Definition daysBeforeTab : list Z :=
  [0; 31; 59; 90; 120; 151; 181; 212; 243; 273; 304; 334; 365].

Definition daysBefore (m : Z) : Z := nth (Z.to_nat m) daysBeforeTab 0.

Definition daysIn (m year : Z) : Z :=
  if (m =? February) && isLeap year then 29
  else daysBefore m - daysBefore (m - 1).

(** [daysSinceEpoch(year)]: days from the absolute epoch to 1 January of
    [year]. *)
Definition daysSinceEpoch (year : Z) : Z :=
  let y := year - absoluteZeroYear in
  let n400 := y / 400 in
  let y1 := y - 400 * n400 in
  let d1 := daysPer400Years * n400 in
  let n100 := y1 / 100 in
  let y2 := y1 - 100 * n100 in
  let d2 := d1 + daysPer100Years * n100 in
  let n4 := y2 / 4 in
  let y3 := y2 - 4 * n4 in
  let d3 := d2 + daysPer4Years * n4 in
  d3 + 365 * y3.

(** [norm(hi, lo, base)]: carry [lo] into [hi] until [0 <= lo < base]. *)
Definition norm (hi lo base : Z) : Z * Z :=
  let '(hi1, lo1) :=
    if lo <? 0 then
      let n := Z.quot (- lo - 1) base + 1 in (hi - n, lo + n * base)
    else (hi, lo) in
  if base <=? lo1 then
    let n := Z.quot lo1 base in (hi1 + n, lo1 - n * base)
  else (hi1, lo1).

(** A [Time]: the instant as Unix seconds and nanoseconds, and the offset
    east of UTC of its location.  [Parse] gives its result either the fixed
    zone of the parsed offset or the local zone when that has the same
    offset at the instant; the layouts here print the offset only, never the
    zone's name, so the offset is all of the location that is kept. *)
Record Time := mkTime { unixSec : Z; nsecOf : Z; offsetOf : Z }.

(** [Date(year, month, day, hour, min, sec, nsec, UTC)]. *)
Definition Date (year month day hour min sec nsec : Z) : Time :=
  let '(year, m) := norm year (month - 1) 12 in
  let month := m + 1 in
  let '(sec, nsec) := norm sec nsec 1000000000 in
  let '(min, sec) := norm min sec 60 in
  let '(hour, min) := norm hour min 60 in
  let '(day, hour) := norm day hour 24 in
  let d := daysSinceEpoch year in
  let d := d + daysBefore (month - 1) in
  let d := if isLeap year && (March <=? month) then d + 1 else d in
  let d := d + (day - 1) in
  let abs := d * secondsPerDay in
  let abs := abs + (hour * secondsPerHour + min * secondsPerMinute + sec) in
  let unix := abs + (absoluteToInternal + internalToUnix) in
  mkTime unix nsec 0.

(** [t.addSec(d)] and [t.setLoc] with a zone of offset [off]. *)
Definition addSec (t : Time) (d : Z) : Time :=
  mkTime (unixSec t + d) (nsecOf t) (offsetOf t).

Definition setLoc (t : Time) (off : Z) : Time :=
  mkTime (unixSec t) (nsecOf t) off.

(** [t.locabs()]: the offset and the seconds since the absolute epoch of the
    wall clock in the time's location. *)
Definition locabs (t : Time) : Z * Z :=
  (offsetOf t, unixSec t + offsetOf t + (unixToInternal + internalToAbsolute)).

(** [absDate(abs, true)]: year, month, day and zero-based day of the year. *)
Definition absDate (abs : Z) : Z * Z * Z * Z :=
  let d := abs / secondsPerDay in
  let n := d / daysPer400Years in
  let y := 400 * n in
  let d := d - daysPer400Years * n in
  let n := d / daysPer100Years in
  let n := n - Z.shiftr n 2 in
  let y := y + 100 * n in
  let d := d - daysPer100Years * n in
  let n := d / daysPer4Years in
  let y := y + 4 * n in
  let d := d - daysPer4Years * n in
  let n := d / 365 in
  let n := n - Z.shiftr n 2 in
  let y := y + n in
  let d := d - 365 * n in
  let year := y + absoluteZeroYear in
  let yday := d in
  let day := yday in
  if isLeap year && (day =? 31 + 29 - 1) then (year, February, 29, yday)
  else
    let day := if isLeap year && (31 + 29 - 1 <? day) then day - 1 else day in
    let month := day / 31 in
    let end_ := daysBefore (month + 1) in
    let '(month, begin) :=
      if end_ <=? day then (month + 1, end_) else (month, daysBefore month) in
    (year, month + 1, day - begin + 1, yday).

(** The two halves of [absDate]: the year and the day of the year from the
    day count, and the month and day of the month from the day of the
    year. *)
Definition yearPart (d : Z) : Z * Z :=
  let n := d / daysPer400Years in
  let y := 400 * n in
  let d := d - daysPer400Years * n in
  let n := d / daysPer100Years in
  let n := n - Z.shiftr n 2 in
  let y := y + 100 * n in
  let d := d - daysPer100Years * n in
  let n := d / daysPer4Years in
  let y := y + 4 * n in
  let d := d - daysPer4Years * n in
  let n := d / 365 in
  let n := n - Z.shiftr n 2 in
  let y := y + n in
  let d := d - 365 * n in
  (y, d).

Definition monthDayPart (leap : bool) (yday : Z) : Z * Z :=
  let day := yday in
  if leap && (day =? 31 + 29 - 1) then (February, 29)
  else
    let day := if leap && (31 + 29 - 1 <? day) then day - 1 else day in
    let month := day / 31 in
    let end_ := daysBefore (month + 1) in
    let '(month, begin) :=
      if end_ <=? day then (month + 1, end_) else (month, daysBefore month) in
    (month + 1, day - begin + 1).

(** The zero-based day of the year of a date, as [Date] adds it up. *)
Definition ydayOf (leap : bool) (month day : Z) : Z :=
  daysBefore (month - 1) + (if leap && (March <=? month) then 1 else 0) + (day - 1).

(** The time at which the wall clock of a zone [offset] seconds east of UTC
    reads the given date and time of day. *)
Definition civilTime (year month day hour min sec offset : Z) : Time :=
  mkTime ((daysSinceEpoch year + ydayOf (isLeap year) month day) * secondsPerDay
          + (hour * secondsPerHour + min * secondsPerMinute + sec)
          + (absoluteToInternal + internalToUnix) - offset)
         0 offset.

(** [absClock(abs)]: hour, minute and second within the day. *)
Definition absClock (abs : Z) : Z * Z * Z :=
  let sec := abs mod secondsPerDay in
  let hour := sec / secondsPerHour in
  let sec := sec - hour * secondsPerHour in
  let min := sec / secondsPerMinute in
  let sec := sec - min * secondsPerMinute in
  (hour, min, sec).

(** *** Layouts

    [nextStdChunk] cuts a layout into literal prefixes and standard chunks.
    Only the chunks of the two layouts of main.go are modelled; each layout
    is given by the chunks [nextStdChunk] finds in it. *)

Inductive Std :=
| stdLongYear     (* 2006 *)
| stdMonth        (* Jan *)
| stdZeroMonth    (* 01 *)
| stdZeroDay      (* 02 *)
| stdHour         (* 15 *)
| stdZeroMinute   (* 04 *)
| stdZeroSecond   (* 05 *)
| stdNumTZ        (* -0700 *)
| stdNumColonTZ.  (* -07:00 *)

Record Chunk := mkChunk { prefix : string; std : Std; stdstr : string }.

Record Layout := mkLayout {
  layoutText : string;
  chunks : list Chunk;
  suffix : string           (* the literal text after the last chunk *)
}.

(** Line 98 of main.go. *)
Definition sourceLayout : Layout :=
  mkLayout "02 Jan 2006 15:04 -0700"
    [mkChunk "" stdZeroDay "02"; mkChunk " " stdMonth "Jan";
     mkChunk " " stdLongYear "2006"; mkChunk " " stdHour "15";
     mkChunk ":" stdZeroMinute "04"; mkChunk " " stdNumTZ "-0700"]
    "".

(** Line 106 of main.go. *)
Definition targetLayout : Layout :=
  mkLayout "2006-01-02T15:04:05-07:00"
    [mkChunk "" stdLongYear "2006"; mkChunk "-" stdZeroMonth "01";
     mkChunk "-" stdZeroDay "02"; mkChunk "T" stdHour "15";
     mkChunk ":" stdZeroMinute "04"; mkChunk ":" stdZeroSecond "05";
     mkChunk "" stdNumColonTZ "-07:00"]
    "".

(** *** Parse *)

Record ParseError := mkParseError {
  peLayout : string;
  peValue : string;
  peLayoutElem : string;
  peValueElem : string;
  peMessage : string
}.

Definition dquote : ascii := ascii_of_nat 34.
Definition backslash : ascii := ascii_of_nat 92.

Definition lowerhex (d : Z) : ascii :=
  if d <? 10 then digit_char d else ascii_of_N (Z.to_N (97 + (d - 10))).

(** [quote]: the value between double quotes, with quotes and backslashes
    escaped and bytes outside printable ASCII as [\xHH]. *)
Fixpoint quote_body (s : string) : string :=
  match s with
  | EmptyString => EmptyString
  | String c s' =>
    let b := byte_of c in
    if (128 <=? b) || (b <? 32) then
      String backslash (String "x" (String (lowerhex (Z.shiftr b 4))
        (String (lowerhex (Z.land b 15)) (quote_body s'))))
    else if Ascii.eqb c dquote || Ascii.eqb c backslash then
      String backslash (String c (quote_body s'))
    else String c (quote_body s')
  end.

Definition quote (s : string) : string :=
  String dquote (quote_body s ++ String dquote EmptyString)%string.

(** The fields [Parse] collects, with the values it starts from. *)
Record Fields := mkFields {
  f_year : Z; f_month : Z; f_day : Z;
  f_hour : Z; f_min : Z; f_sec : Z; f_nsec : Z;
  f_zoneOffset : Z
}.

Definition initFields : Fields := mkFields 0 (-1) (-1) 0 0 0 0 (-1).

Definition commaOrPeriod (c : ascii) : bool :=
  Ascii.eqb c "." || Ascii.eqb c ",".

(** Number of leading bytes of [s] from index [n] on that are digits, plus
    [n]: the loop [for ; n < len(value) && isDigit(value, n); n++]. *)
Fixpoint digitsEnd (s : string) : nat :=
  match s with
  | String c s' => if isDigitC c then S (digitsEnd s') else O
  | EmptyString => O
  end.

(** [parseNanoseconds(value, nbytes)], for a value that starts with a comma
    or period: the result, or a range error, or [errBad]. *)
Definition parseNanoseconds (value : string) (nbytes : nat)
  : Z * string * bool :=
  match value with
  | String c _ =>
    if negb (commaOrPeriod c) then (0, "", true)
    else
      let nbytes := if (10 <? Z.of_nat nbytes) then 10%nat else nbytes in
      let value := take_s nbytes value in
      match atoi (drop_s 1 value) with
      | None => (0, "", true)
      | Some ns =>
        if ns <? 0 then (ns, "fractional second", false)
        else (ns * 10 ^ (10 - Z.of_nat nbytes), "", false)
      end
  | EmptyString => (0, "", true)
  end.

(** The outcome of one chunk: the fields, the rest of the value, the range
    error string (empty for none) and whether [err] is set. *)
Definition StepOut : Type := Fields * string * string * bool.

Definition set_year (f : Fields) (v : Z) : Fields :=
  mkFields v (f_month f) (f_day f) (f_hour f) (f_min f) (f_sec f) (f_nsec f) (f_zoneOffset f).
Definition set_month (f : Fields) (v : Z) : Fields :=
  mkFields (f_year f) v (f_day f) (f_hour f) (f_min f) (f_sec f) (f_nsec f) (f_zoneOffset f).
Definition set_day (f : Fields) (v : Z) : Fields :=
  mkFields (f_year f) (f_month f) v (f_hour f) (f_min f) (f_sec f) (f_nsec f) (f_zoneOffset f).
Definition set_hour (f : Fields) (v : Z) : Fields :=
  mkFields (f_year f) (f_month f) (f_day f) v (f_min f) (f_sec f) (f_nsec f) (f_zoneOffset f).
Definition set_min (f : Fields) (v : Z) : Fields :=
  mkFields (f_year f) (f_month f) (f_day f) (f_hour f) v (f_sec f) (f_nsec f) (f_zoneOffset f).
Definition set_sec (f : Fields) (v : Z) : Fields :=
  mkFields (f_year f) (f_month f) (f_day f) (f_hour f) (f_min f) v (f_nsec f) (f_zoneOffset f).
Definition set_nsec (f : Fields) (v : Z) : Fields :=
  mkFields (f_year f) (f_month f) (f_day f) (f_hour f) (f_min f) (f_sec f) v (f_zoneOffset f).
Definition set_zoneOffset (f : Fields) (v : Z) : Fields :=
  mkFields (f_year f) (f_month f) (f_day f) (f_hour f) (f_min f) (f_sec f) (f_nsec f) v.

(** The numeric zone of [stdNumTZ] ([colon = false], sign and four digits)
    and [stdNumColonTZ] ([colon = true], with a colon between hours and
    minutes). *)
Definition parseNumTZ (colon : bool) (f : Fields) (value : string) : StepOut :=
  let need := if colon then 6%nat else 5%nat in
  if len value <? Z.of_nat need then (f, value, "", true)
  else if colon && negb (match String.get 3 value with
                         | Some c => Ascii.eqb c ":"
                         | None => false
                         end)
  then (f, value, "", true)
  else
    let sign := take_s 1 value in
    let hour := take_s 2 (drop_s 1 value) in
    let min := take_s 2 (drop_s (if colon then 4 else 3) value) in
    let seconds := "00" in
    let value := drop_s need value in
    let '(hr, err) :=
      match getnum hour true with
      | Some (n, _) => (n, false)
      | None => (0, true)
      end in
    let '(mm, err) :=
      if err then (0, err)
      else match getnum min true with
           | Some (n, _) => (n, false)
           | None => (0, true)
           end in
    let '(ss, err) :=
      if err then (0, err)
      else match getnum seconds true with
           | Some (n, _) => (n, false)
           | None => (0, true)
           end in
    let range := if 24 <? hr then "time zone offset hour" else "" in
    let range := if 60 <? mm then "time zone offset minute" else range in
    let range := if 60 <? ss then "time zone offset second" else range in
    let zoneOffset := (hr * 60 + mm) * 60 + ss in
    match sign with
    | String c _ =>
      if Ascii.eqb c "+" then (set_zoneOffset f zoneOffset, value, range, err)
      else if Ascii.eqb c "-" then (set_zoneOffset f (- zoneOffset), value, range, err)
      else (set_zoneOffset f zoneOffset, value, range, true)
    | EmptyString => (f, value, range, true)
    end.

(** One case of the [switch std & stdMask] of [parse]. *)
Definition parseStd (s : Std) (f : Fields) (value : string) : StepOut :=
  match s with
  | stdLongYear =>
    if (len value <? 4) || negb (isDigit value 0) then (f, value, "", true)
    else
      let p := take_s 4 value in
      let value := drop_s 4 value in
      match atoi p with
      | Some y => (set_year f y, value, "", false)
      | None => (set_year f 0, value, "", true)
      end
  | stdMonth =>
    match lookup shortMonthNames value with
    | Some (m, value) => (set_month f (m + 1), value, "", false)
    | None => (set_month f (-1 + 1), value, "", true)
    end
  | stdZeroMonth =>
    match getnum value true with
    | Some (m, value) =>
      (set_month f m, value,
       if (m <=? 0) || (12 <? m) then "month" else "", false)
    | None => (set_month f 0, value, "", true)
    end
  | stdZeroDay =>
    match getnum value true with
    | Some (d, value) => (set_day f d, value, "", false)
    | None => (set_day f 0, value, "", true)
    end
  | stdHour =>
    match getnum value false with
    | Some (h, value) =>
      (set_hour f h, value, if (h <? 0) || (24 <=? h) then "hour" else "", false)
    | None => (set_hour f 0, value, "", true)
    end
  | stdZeroMinute =>
    match getnum value true with
    | Some (m, value) =>
      (set_min f m, value, if (m <? 0) || (60 <=? m) then "minute" else "", false)
    | None => (set_min f 0, value, "", true)
    end
  | stdZeroSecond =>
    match getnum value true with
    | None => (set_sec f 0, value, "", true)
    | Some (sc, value) =>
      let f := set_sec f sc in
      if (sc <? 0) || (60 <=? sc) then (f, value, "second", false)
      else
        match value with
        | String c0 rest =>
          if (2 <=? len value) && commaOrPeriod c0 && isDigit value 1 then
            (* no fractional second follows in either layout *)
            let n := S (digitsEnd rest) in
            let '(ns, range, err) := parseNanoseconds value n in
            (set_nsec f ns, drop_s n value, range, err)
          else (f, value, "", false)
        | EmptyString => (f, value, "", false)
        end
    end
  | stdNumTZ => parseNumTZ false f value
  | stdNumColonTZ => parseNumTZ true f value
  end.

(** The loop of [parse] over the chunks of the layout: skip the literal
    prefix, parse the chunk, stop at the first error. *)
Fixpoint parseChunks (l : Layout) (avalue : string) (cs : list Chunk)
    (f : Fields) (value : string) : ParseError + Fields :=
  match cs with
  | [] =>
    match skip value (suffix l) with
    | None => inl (mkParseError (layoutText l) avalue (suffix l) value "")
    | Some value =>
      if negb (len value =? 0)
      then inl (mkParseError (layoutText l) avalue "" value
                  (": extra text: " ++ quote value))
      else inr f
    end
  | c :: cs' =>
    match skip value (prefix c) with
    | None => inl (mkParseError (layoutText l) avalue (prefix c) value "")
    | Some hold =>
      let '(f', value', range, err) := parseStd (std c) f hold in
      if negb (String.eqb range "")
      then inl (mkParseError (layoutText l) avalue (stdstr c) value'
                  (": " ++ range ++ " out of range"))
      else if err
      then inl (mkParseError (layoutText l) avalue (stdstr c) hold "")
      else parseChunks l avalue cs' f' value'
    end
  end.

(** [time.Parse(layout, value)]: after the loop, default the month and day,
    validate the day of the month and build the time; with a parsed offset
    the wall clock is moved to UTC and the offset kept as the location. *)
Definition Parse (l : Layout) (value : string) : ParseError + Time :=
  match parseChunks l value (chunks l) initFields value with
  | inl e => inl e
  | inr f =>
    let month := if f_month f <? 0 then January else f_month f in
    let day := if f_day f <? 0 then 1 else f_day f in
    if (day <? 1) || (daysIn month (f_year f) <? day)
    then inl (mkParseError (layoutText l) value "" "" ": day out of range")
    else
      let t := Date (f_year f) month day (f_hour f) (f_min f) (f_sec f) (f_nsec f) in
      if negb (f_zoneOffset f =? -1)
      then inr (setLoc (addSec t (- f_zoneOffset f)) (f_zoneOffset f))
      else inr t
  end.

(** *** Format *)

Definition twoDigits (u : Z) : string :=
  String (digit_char (u / 10)) (String (digit_char (u mod 10)) EmptyString).

(** Decimal digits of [u > 0], most significant first, in front of [acc]. *)
Fixpoint decimal_from (fuel : nat) (u : Z) (acc : string) : string :=
  match fuel with
  | O => acc
  | S fuel' =>
    if u <=? 0 then acc
    else decimal_from fuel' (u / 10) (String (digit_char (u mod 10)) acc)
  end.

Definition decimal (u : Z) : string :=
  if u =? 0 then "0" else decimal_from (S (Z.to_nat (Z.log2 u))) u EmptyString.

Fixpoint zeros (n : nat) : string :=
  match n with
  | O => EmptyString
  | S n' => String "0" (zeros n')
  end.

(** [appendInt(b, x, width)], as the bytes it appends: a minus sign for a
    negative [x], then the digits padded with zeros to [width]. *)
Definition appendInt (x : Z) (width : Z) : string :=
  let u := Z.abs x in
  let sign := if x <? 0 then "-" else "" in
  let body :=
    if (width =? 2) && (u <? 100) then twoDigits u
    else if (width =? 4) && (u <? 10000)
    then (twoDigits (u / 100) ++ twoDigits (u mod 100))%string
    else
      let ds := decimal u in
      (zeros (Z.to_nat (width - len ds)) ++ ds)%string in
  (sign ++ body)%string.

Definition shortMonthName (month : Z) : string :=
  nth (Z.to_nat (month - 1)) shortMonthNames "".

(** The numeric zone of [Format], with or without the colon. *)
Definition formatNumTZ (colon : bool) (offset : Z) : string :=
  let zone := Z.quot offset 60 in
  let '(sign, zone) := if zone <? 0 then ("-", - zone) else ("+", zone) in
  (sign ++ appendInt (Z.quot zone 60) 2 ++ (if colon then ":" else "")
        ++ appendInt (Z.rem zone 60) 2)%string.

(** One case of the [switch std & stdMask] of [appendFormat]. *)
Definition formatStd (s : Std) (year month day hour min sec offset : Z) : string :=
  match s with
  | stdLongYear => appendInt year 4
  | stdMonth => shortMonthName month
  | stdZeroMonth => appendInt month 2
  | stdZeroDay => appendInt day 2
  | stdHour => appendInt hour 2
  | stdZeroMinute => appendInt min 2
  | stdZeroSecond => appendInt sec 2
  | stdNumTZ => formatNumTZ false offset
  | stdNumColonTZ => formatNumTZ true offset
  end.

(** [t.Format(layout)]: the date and clock of the wall time in the time's
    location, chunk by chunk. *)
Definition Format (t : Time) (l : Layout) : string :=
  let '(offset, abs) := locabs t in
  let '(year, month, day, _) := absDate abs in
  let '(hour, min, sec) := absClock abs in
  (String.concat ""
     (map (fun c => prefix c ++ formatStd (std c) year month day hour min sec offset)
          (chunks l))
   ++ suffix l)%string.

Fixpoint spaces (n : nat) : string :=
  match n with
  | O => EmptyString
  | S n' => String space (spaces n')
  end.

(** A pubDate as the source layout spells it: day, month name, year, hour
    and minute and numeric zone, with [1 + k] spaces where the layout has
    a space, followed by [rest]. *)
Definition source_text (k1 k2 k3 k4 : nat) (day month year hour min offset : Z)
    (rest : string) : string :=
  (appendInt day 2 ++ String space (spaces k1 ++ shortMonthName month ++
   String space (spaces k2 ++ appendInt year 4 ++
   String space (spaces k3 ++ appendInt hour 2 ++ String ":" (appendInt min 2 ++
   String space (spaces k4 ++ formatNumTZ false offset ++ rest))))))%string.

(** Every byte of the string is a decimal digit. *)
Fixpoint all_digits (s : string) : bool :=
  match s with
  | String c s' => isDigitC c && all_digits s'
  | EmptyString => true
  end.

(** The text [Format] gives under the target layout to a date, a clock and
    an offset. *)
Definition target_string (year month day hour min sec offset : Z) : string :=
  (appendInt year 4 ++ String "-" (appendInt month 2 ++ String "-" (
   appendInt day 2 ++ String "T" (appendInt hour 2 ++ String ":" (
   appendInt min 2 ++ String ":" (appendInt sec 2 ++ formatNumTZ true offset))))))%string.

End GoTime.

(** ** encoding/xml on the structs of main.go

    A document is the sequence of tokens [Decoder.Token] yields, with each
    element's tokens grouped under it: an element tree.  The byte syntax
    (escaping, name spaces by prefix, line ends) lies below this model; the
    strict decoder refuses input whose tags do not nest.  A processing
    instruction with the target [xml] is the XML declaration, which stands
    before the root; the decoder checks the version and the encoding it
    declares (see [declaration_error]). *)

Module GoXml.

Record Name := mkName { Space : string; Local : string }.

Record Attr := mkAttr { attrName : Name; attrValue : string }.

#[warnings="-register-all"]
Inductive Node :=
| Element (name : Name) (attr : list Attr) (children : list Node)
| CharData (data : string)
| Comment (data : string)
| ProcInst (target inst : string)
| Directive (data : string).

(** The structs of main.go, lines 38 to 61.  Rocq wants distinct projection
    names, so each field carries its struct's name. *)

Record guid := mkGuid {
  guid_IsPermaLink : string;     (* xml:"isPermaLink,attr" *)
  guid_Value : string            (* xml:",chardata" *)
}.

Record item := mkItem {
  item_Link : string;            (* xml:"link" *)
  item_Description : string;     (* xml:"description" *)
  item_PubDate : string;         (* xml:"pubDate" *)
  item_Guid : guid               (* xml:"guid" *)
}.

Record channel := mkChannel {
  channel_Description : string;  (* xml:"description" *)
  channel_Link : string;         (* xml:"link" *)
  channel_Title : string;        (* xml:"title" *)
  channel_Items : list item      (* xml:"item" *)
}.

Record rss := mkRss {
  rss_XMLName : Name;            (* xml:"rss" *)
  rss_Version : string;          (* xml:"version,attr" *)
  rss_Channel : channel          (* xml:"channel" *)
}.

Definition zero_guid : guid := mkGuid "" "".
Definition zero_item : item := mkItem "" "" "" zero_guid.
Definition zero_channel : channel := mkChannel "" "" "" [].
Definition zero_rss : rss := mkRss (mkName "" "") "" zero_channel.

(** *** Unmarshal

    For a string field the character data directly inside the element is
    collected and elements inside it are skipped. *)
Fixpoint chardata (children : list Node) : string :=
  match children with
  | [] => ""
  | CharData t :: rest => (t ++ chardata rest)%string
  | _ :: rest => chardata rest
  end.

(** Attributes are assigned in document order to the attribute field of the
    same local name, so the last one stays. *)
Definition unmarshal_guid (g : guid) (attr : list Attr) (children : list Node)
  : guid :=
  let g :=
    fold_left
      (fun g a =>
         if String.eqb (Local (attrName a)) "isPermaLink"
         then mkGuid (attrValue a) (guid_Value g) else g)
      attr g in
  mkGuid (guid_IsPermaLink g) (chardata children).

(** A child element goes to the element field of the same local name; the
    fields have no name space of their own, so any name space matches.
    Everything else is skipped. *)
Definition unmarshal_item_child (it : item) (n : Node) : item :=
  match n with
  | Element name attr children =>
    if String.eqb (Local name) "link"
    then mkItem (chardata children) (item_Description it) (item_PubDate it) (item_Guid it)
    else if String.eqb (Local name) "description"
    then mkItem (item_Link it) (chardata children) (item_PubDate it) (item_Guid it)
    else if String.eqb (Local name) "pubDate"
    then mkItem (item_Link it) (item_Description it) (chardata children) (item_Guid it)
    else if String.eqb (Local name) "guid"
    then mkItem (item_Link it) (item_Description it) (item_PubDate it)
           (unmarshal_guid (item_Guid it) attr children)
    else it
  | _ => it
  end.

Definition unmarshal_item (it : item) (children : list Node) : item :=
  fold_left unmarshal_item_child children it.

(** An [item] element appends a fresh item to the slice. *)
Definition unmarshal_channel_child (c : channel) (n : Node) : channel :=
  match n with
  | Element name attr children =>
    if String.eqb (Local name) "description"
    then mkChannel (chardata children) (channel_Link c) (channel_Title c) (channel_Items c)
    else if String.eqb (Local name) "link"
    then mkChannel (channel_Description c) (chardata children) (channel_Title c) (channel_Items c)
    else if String.eqb (Local name) "title"
    then mkChannel (channel_Description c) (channel_Link c) (chardata children) (channel_Items c)
    else if String.eqb (Local name) "item"
    then mkChannel (channel_Description c) (channel_Link c) (channel_Title c)
           (channel_Items c ++ [unmarshal_item zero_item children])
    else c
  | _ => c
  end.

Definition unmarshal_channel (c : channel) (children : list Node) : channel :=
  fold_left unmarshal_channel_child children c.

Definition unmarshal_rss_child (r : rss) (n : Node) : rss :=
  match n with
  | Element name attr children =>
    if String.eqb (Local name) "channel"
    then mkRss (rss_XMLName r) (rss_Version r)
           (unmarshal_channel (rss_Channel r) children)
    else r
  | _ => r
  end.

Inductive DecodeError :=
| EOF                                   (* no element in the input *)
| UnmarshalError (msg : string)
| UnsupportedVersion (version : string) (* only version 1.0 is supported *)
| NoCharsetReader (encoding : string).  (* encoding declared but
                                            Decoder.CharsetReader is nil *)

(** *** The XML declaration

    [Decoder.Token] looks into every processing instruction with the target
    [xml]: it refuses a declared version other than 1.0, and, as main.go
    sets no [CharsetReader], a declared encoding other than UTF-8. *)

Fixpoint HasPrefix (s prefix : string) : bool :=
  match prefix, s with
  | EmptyString, _ => true
  | String p prefix', String c s' => Ascii.eqb c p && HasPrefix s' prefix'
  | String _ _, EmptyString => false
  end.

(** [strings.Index]: where [substr] first occurs in [s]. *)
Fixpoint Index (s substr : string) : option nat :=
  if HasPrefix s substr then Some O
  else match s with
       | EmptyString => None
       | String _ s' => option_map S (Index s' substr)
       end.

(** [strings.IndexByte]. *)
Fixpoint IndexByte (s : string) (c : ascii) : option nat :=
  match s with
  | EmptyString => None
  | String x s' => if Ascii.eqb x c then Some O else option_map S (IndexByte s' c)
  end.

Definition squote : ascii := ascii_of_nat 39.

(** The loop of [procInst]: [param] already ends in the equals sign; [sub]
    is what is left of the string.  Each round finds the next [param]; when
    a quote follows it, the value runs to the next quote of that kind, and
    otherwise the search goes on behind the byte that followed. *)
Fixpoint procInst_loop (fuel : nat) (param sub : string) : string :=
  match fuel with
  | O => ""
  | S fuel' =>
    if len sub <=? 0 then ""
    else
      match Index sub param with
      | None => ""
      | Some k =>
        let at_ := (String.length param + k)%nat in
        match String.get at_ sub with
        | None => ""
        | Some c =>
          let rest := drop_s (S at_) sub in
          if Ascii.eqb c squote || Ascii.eqb c GoTime.dquote then
            match IndexByte rest c with
            | None => ""
            | Some j => take_s j rest
            end
          else procInst_loop fuel' param rest
        end
      end
  end.

(** [procInst(param, s)]: the value of [param="..."] or [param='...'] in
    the declaration, empty when there is none. *)
Definition procInst (param s : string) : string :=
  procInst_loop (S (String.length s)) (param ++ "=")%string s.

(** [strings.EqualFold] against a text of ASCII bytes none of which has a
    fold partner outside ASCII, as [utf-8] is: byte by byte, equal or a
    letter in its two cases. *)
Fixpoint EqualFold (s t : string) : bool :=
  match s, t with
  | EmptyString, EmptyString => true
  | String a s', String b t' =>
    let sr := Z.min (byte_of a) (byte_of b) in
    let tr := Z.max (byte_of a) (byte_of b) in
    ((tr =? sr) || ((65 <=? sr) && (sr <=? 90) && (tr =? sr + 32)))
    && EqualFold s' t'
  | _, _ => false
  end.

(** The check of a processing instruction, [None] when it passes. *)
Definition declaration_error (target inst : string) : option DecodeError :=
  if String.eqb target "xml" then
    let ver := procInst "version" inst in
    if negb (String.eqb ver "") && negb (String.eqb ver "1.0")
    then Some (UnsupportedVersion ver)
    else
      let enc := procInst "encoding" inst in
      if negb (String.eqb enc "") && negb (String.eqb enc "utf-8")
         && negb (String.eqb enc "UTF-8") && negb (EqualFold enc "utf-8")
      then Some (NoCharsetReader enc)
      else None
  else None.

(** The root: its local name must be that of the [XMLName] tag; the name
    found, name space included, is stored in [XMLName]. *)
Definition unmarshal_rss (r : rss) (name : Name) (attr : list Attr)
    (children : list Node) : DecodeError + rss :=
  if negb (String.eqb (Local name) "rss")
  then inl (UnmarshalError
              ("expected element type <rss> but have <" ++ Local name ++ ">"))
  else
    let r := mkRss name (rss_Version r) (rss_Channel r) in
    let r :=
      fold_left
        (fun r a =>
           if String.eqb (Local (attrName a)) "version"
           then mkRss (rss_XMLName r) (attrValue a) (rss_Channel r) else r)
        attr r in
    inr (fold_left unmarshal_rss_child children r).

(** [decoder.Decode(&rss)]: read tokens up to the first start element and
    unmarshal it; a token that [Decoder.Token] refuses on the way ends the
    decoding with its error. *)
Fixpoint Decode (r : rss) (body : list Node) : DecodeError + rss :=
  match body with
  | [] => inl EOF
  | Element name attr children :: _ => unmarshal_rss r name attr children
  | ProcInst target inst :: rest =>
    match declaration_error target inst with
    | Some err => inl err
    | None => Decode r rest
    end
  | _ :: rest => Decode r rest
  end.

(** The first element of a token sequence: the start element [Decode] skips
    to. *)
Fixpoint first_element (body : list Node) : option (Name * list Attr * list Node) :=
  match body with
  | [] => None
  | Element name attr children :: _ => Some (name, attr, children)
  | _ :: rest => first_element rest
  end.

(** The error of the first processing instruction [Decoder.Token] refuses,
    if there is one. *)
Fixpoint first_refusal (body : list Node) : option DecodeError :=
  match body with
  | [] => None
  | ProcInst target inst :: rest =>
    match declaration_error target inst with
    | Some err => Some err
    | None => first_refusal rest
    end
  | _ :: rest => first_refusal rest
  end.

(** The children lists of the [item] elements among the children of a
    channel, in document order. *)
Definition item_elements (children : list Node) : list (list Node) :=
  omap (λ n, match n with
             | Element name _ cs =>
                 if String.eqb (Local name) "item" then Some cs else None
             | _ => None
             end) children.

(** A node is an element of the given local name. *)
Definition named (local : string) (n : Node) : bool :=
  match n with
  | Element name _ _ => String.eqb (Local name) local
  | _ => false
  end.

(** The children lists of the [item] elements of a document: those of the
    [channel] elements of its first element, in document order. *)
Definition doc_item_elements (doc : list Node) : list (list Node) :=
  match first_element doc with
  | Some (_, _, children) =>
    flat_map (λ n, match n with
                   | Element name _ cs =>
                       if String.eqb (Local name) "channel"
                       then item_elements cs else []
                   | _ => []
                   end) children
  | None => []
  end.

(** *** Marshal, with [Indent(prefix = empty, indent = two spaces)]

    A start tag, and an end tag that follows a child element, go on a line
    of their own, indented by their depth; the white space is character data
    of the enclosing element.  An empty string leaves no character data. *)

Definition newline : ascii := ascii_of_nat 10.

Fixpoint indentation (depth : nat) : string :=
  match depth with
  | O => ""
  | S d => ("  " ++ indentation d)%string
  end.

Definition indent (depth : nat) : Node :=
  CharData (String newline (indentation depth)).

Definition text (s : string) : list Node :=
  if String.eqb s "" then [] else [CharData s].

Definition tag (local : string) : Name := mkName "" local.

Definition marshal_string (local : string) (s : string) : Node :=
  Element (tag local) [] (text s).

Definition marshal_guid (g : guid) : Node :=
  Element (tag "guid") [mkAttr (tag "isPermaLink") (guid_IsPermaLink g)]
    (text (guid_Value g)).

Definition marshal_item (depth : nat) (it : item) : Node :=
  Element (tag "item") []
    [indent (S depth); marshal_string "link" (item_Link it);
     indent (S depth); marshal_string "description" (item_Description it);
     indent (S depth); marshal_string "pubDate" (item_PubDate it);
     indent (S depth); marshal_guid (item_Guid it);
     indent depth].

Definition marshal_channel (depth : nat) (c : channel) : Node :=
  Element (tag "channel") []
    ([indent (S depth); marshal_string "description" (channel_Description c);
      indent (S depth); marshal_string "link" (channel_Link c);
      indent (S depth); marshal_string "title" (channel_Title c)]
     ++ flat_map (fun it => [indent (S depth); marshal_item (S depth) it])
                 (channel_Items c)
     ++ [indent depth]).

(** The root takes its name from the [XMLName] tag, not from the field. *)
Definition marshal_rss (r : rss) : Node :=
  Element (tag "rss") [mkAttr (tag "version") (rss_Version r)]
    [indent 1; marshal_channel 1 (rss_Channel r); indent 0].

(** [encoder.Encode(rss)] writes the one element. *)
Definition Encode (r : rss) : list Node := [marshal_rss r].

End GoXml.

(** ** main.go *)

Module Main.
Import GoTime GoXml.

(** What [http.Get] returns: a transport error, or a response with its
    status code and body. *)
Inductive HttpResult :=
| HttpError (err : string)
| HttpResponse (StatusCode : Z) (Body : list Node).

(** The surroundings of one run: the process environment, the answer of the
    network to a GET, and for each path whether [os.Create] and the write of
    the encoder fail there. *)
Record World := mkWorld {
  environ : gmap string string;
  network : string -> HttpResult;
  createError : string -> option string;
  writeError : string -> option string
}.

(** An error value handed to the logger's [%v]. *)
Inductive error :=
| ErrTransport (err : string)
| ErrDecode (err : DecodeError)
| ErrParse (err : ParseError)
| ErrOS (err : string).

Inductive Arg :=
| ArgInt (n : Z)
| ArgError (e : error).

(** The calls a run makes, in order. *)
Inductive Event :=
| LookupEnv (key : string)
| Get (url : string)
| Create (path : string)
| Write (path : string) (doc : list Node)
| CloseFile (path : string)
| CloseBody
| Fatal (format : string) (args : list Arg)   (* log.Fatal, log.Fatalf *)
| Exit (code : Z).

(** The state a run changes: the files, and the trace of calls so far.  A
    file is known by the path string that [os.Create] is given; paths are
    not resolved, so the model speaks of the file under that name only, not
    under another name the file system may have for it (a relative
    spelling, a link). *)
Record State := mkState {
  files : gmap string (list Node);
  trace : list Event
}.

(** A computation of [main]: it returns a value, or the process has exited
    with a code. *)
Inductive Res (A : Type) :=
| Ret (a : A)
| Exited (code : Z).
Arguments Ret {A} a.
Arguments Exited {A} code.

Definition M (A : Type) : Type := State -> Res A * State.

Definition ret {A} (a : A) : M A := fun st => (Ret a, st).

Definition bind {A B} (m : M A) (k : A -> M B) : M B :=
  fun st =>
    match m st with
    | (Ret a, st') => k a st'
    | (Exited code, st') => (Exited code, st')
    end.

#[global] Instance M_ret : MRet M := @ret.
#[global] Instance M_bind : MBind M := fun A B k m => bind m k.

Definition emit (e : Event) : M unit :=
  fun st => (Ret tt, mkState (files st) (trace st ++ [e])).

Definition store (path : string) (doc : list Node) : M unit :=
  fun st => (Ret tt, mkState (<[path := doc]> (files st)) (trace st)).

(** [os.Exit]: the process ends; deferred calls do not run. *)
Definition exit {A} (code : Z) : M A :=
  fun st => (Exited code, mkState (files st) (trace st ++ [Exit code])).

(** [log.Fatal] and [log.Fatalf]: print, then [os.Exit(1)]. *)
Definition Fatalf {A} (format : string) (args : list Arg) : M A :=
  emit (Fatal format args) ;; exit 1.

(** A run-time panic (an index out of range) ends the process with code 2. *)
Definition panic {A} : M A := exit 2.

Definition LookupEnv_ (w : World) (key : string) : M (option string) :=
  emit (LookupEnv key) ;; ret (environ w !! key).

Definition Get_ (w : World) (url : string) : M HttpResult :=
  emit (Get url) ;; ret (network w url).

(** [os.Create]: the file is created, or truncated when it exists. *)
Definition Create_ (w : World) (path : string) : M (option string) :=
  emit (Create path) ;;
  match createError w path with
  | Some err => ret (Some err)
  | None => store path [] ;; ret None
  end.

(** [encoder.Encode] into the file.  When the write fails the file holds
    what reached it, left here as the empty file [os.Create] made. *)
Definition Encode_ (w : World) (path : string) (r : rss) : M (option string) :=
  match writeError w path with
  | Some err => ret (Some err)
  | None =>
    emit (Write path (Encode r)) ;; store path (Encode r) ;; ret None
  end.

Definition StatusOK : Z := 200.

Definition set_PubDate (it : item) (s : string) : item :=
  mkItem (item_Link it) (item_Description it) s (item_Guid it).

Definition set_Items (r : rss) (items : list item) : rss :=
  mkRss (rss_XMLName r) (rss_Version r)
    (mkChannel (channel_Description (rss_Channel r)) (channel_Link (rss_Channel r))
       (channel_Title (rss_Channel r)) items).

(** Lines 96 to 108: the loop over the indices of [rss.Channel.Items], which
    rewrites the items in place. *)
Fixpoint transform (indices : list nat) (r : rss) : M rss :=
  match indices with
  | [] => ret r
  | i :: rest =>
    match channel_Items (rss_Channel r) !! i with
    | None => panic
    | Some it =>
      match Parse sourceLayout (item_PubDate it) with
      | inl err =>
        Fatalf "Failed to parse the pubDate field: %v" [ArgError (ErrParse err)]
      | inr pubDate =>
        transform rest
          (set_Items r
             (<[i := set_PubDate it (Format pubDate targetLayout)]>
                (channel_Items (rss_Channel r))))
      end
    end
  end.

(** Lines 63 to 124. *)
Definition main (w : World) : M unit :=
  url ← LookupEnv_ w "INPUT_URL";
  match url with
  | None => Fatalf "The url input is required." []
  | Some url =>
  path ← LookupEnv_ w "INPUT_PATH";
  match path with
  | None => Fatalf "The path input is required." []
  | Some path =>
  resp ← Get_ w url;
  match resp with
  | HttpError err =>
    Fatalf "Failed to download the RSS feed: %v" [ArgError (ErrTransport err)]
  | HttpResponse StatusCode Body =>
  if negb (StatusCode =? StatusOK)
  then Fatalf "Failed to download RSS feed. Status code: %d" [ArgInt StatusCode]
  else
  match Decode zero_rss Body with
  | inl err => Fatalf "Failed to parse the RSS feed: %v" [ArgError (ErrDecode err)]
  | inr rss0 =>
  rss1 ← transform (seq 0 (length (channel_Items (rss_Channel rss0)))) rss0;
  created ← Create_ w path;
  match created with
  | Some err => Fatalf "Failed to create the file: %v" [ArgError (ErrOS err)]
  | None =>
  written ← Encode_ w path rss1;
  match written with
  | Some err => Fatalf "Failed to write the RSS feed: %v" [ArgError (ErrOS err)]
  | None =>
    (* the deferred calls, last first *)
    emit (CloseFile path) ;; emit CloseBody
  end end end end end end.

(** The loop's effect on the slice, item by item: the rewritten items, or the
    parse error of the first item that has one. *)
Definition rewrite_item (it : item) : ParseError + item :=
  match Parse sourceLayout (item_PubDate it) with
  | inl err => inl err
  | inr pubDate => inr (set_PubDate it (Format pubDate targetLayout))
  end.

Fixpoint rewrite_items (items : list item) : ParseError + list item :=
  match items with
  | [] => inr []
  | it :: rest =>
    match rewrite_item it with
    | inl err => inl err
    | inr it' =>
      match rewrite_items rest with
      | inl err => inl err
      | inr rest' => inr (it' :: rest')
      end
    end
  end.

Definition fatal_state (st : State) (err : ParseError) : State :=
  mkState (files st)
    ((trace st ++ [Fatal "Failed to parse the pubDate field: %v" [ArgError (ErrParse err)]])
       ++ [Exit 1])%list.

(** An item and its rewritten form. *)
Definition rewritten (it it' : item) : Prop :=
  ∃ t, Parse sourceLayout (item_PubDate it) = inr t
       ∧ it' = set_PubDate it (Format t targetLayout).

(** The two environment reads every run past line 72 has made. *)
Definition pre_get : list Event := [LookupEnv "INPUT_URL"; LookupEnv "INPUT_PATH"].

(** The paths handed to [os.Create], and the writes, of a trace. *)
Definition creates (tr : list Event) : list string :=
  omap (λ e, match e with Create path => Some path | _ => None end) tr.

Definition writes (tr : list Event) : list (string * list Node) :=
  omap (λ e, match e with Write path doc => Some (path, doc) | _ => None end) tr.

(** The GET requests of a trace. *)
Definition gets (tr : list Event) : list string :=
  omap (λ e, match e with Get url => Some url | _ => None end) tr.

(** The diagnostics of a trace. *)
Definition fatals (tr : list Event) : list (string * list Arg) :=
  omap (λ e, match e with Fatal format args => Some (format, args) | _ => None end) tr.

(** A run from the files [fs]: the exit code, the files and the trace. *)
Definition run (w : World) (fs : gmap string (list Node))
  : Z * gmap string (list Node) * list Event :=
  match main w (mkState fs []) with
  | (Ret _, st) => (0, files st, (trace st ++ [Exit 0])%list)
  | (Exited code, st) => (code, files st, trace st)
  end.

End Main.

(** ** Sample inputs *)

Module Samples.
Import GoXml Main.

Definition both_inputs : gmap string string :=
  {[ "INPUT_URL" := "https://bsky.example/feed"; "INPUT_PATH" := "feed.xml" ]}.

Definition post (pubDate : string) : item :=
  mkItem "https://bsky.example/post/1" "hello" pubDate (mkGuid "false" "at://post/1").

Definition feed (items : list item) : rss :=
  mkRss (mkName "" "rss") "2.0"
    (mkChannel "posts" "https://bsky.example" "feed" items).

(** A world that serves [feed items] with the given status. *)
Definition serving (env : gmap string string) (status : Z) (items : list item)
  : World :=
  mkWorld env (fun _ => HttpResponse status (Encode (feed items)))
    (fun _ => None) (fun _ => None).

Definition old_file : gmap string (list Node) :=
  {[ "feed.xml" := [CharData "previous run"] ]}.

(** The feed of the two scenarios of the specification, served with 200,
    and the trace of the run that rewrites it. *)
Definition two_posts : list item :=
  [post "02 Jan 2025 09:15 +0000"; post "15 Aug 2024 23:59 -0500"].

Definition two_posts_rewritten : list item :=
  [post "2025-01-02T09:15:00+00:00"; post "2024-08-15T23:59:00-05:00"].

Definition good_world : World := serving both_inputs 200 two_posts.

Definition good_trace : list Event :=
  [LookupEnv "INPUT_URL"; LookupEnv "INPUT_PATH"; Get "https://bsky.example/feed";
   Create "feed.xml"; Write "feed.xml" (Encode (feed two_posts_rewritten));
   CloseFile "feed.xml"; CloseBody; Exit 0].

Definition good_files : gmap string (list Node) :=
  {[ "feed.xml" := Encode (feed two_posts_rewritten) ]}.

(** A feed whose root is in a name space (declared by an [xmlns]
    attribute), with no items. *)
Definition namespaced_body : list Node :=
  [Element (mkName "http://purl.org/rss/2.0/" "rss")
     [mkAttr (mkName "" "xmlns") "http://purl.org/rss/2.0/";
      mkAttr (mkName "" "version") "2.0"]
     [Element (mkName "http://purl.org/rss/2.0/" "channel") []
        [Element (mkName "http://purl.org/rss/2.0/" "title") [] [CharData "feed"]]]].

(** A world without network, and one where the path cannot be created. *)
Definition offline : World :=
  mkWorld both_inputs (fun _ => HttpError "dial tcp: no route to host")
    (fun _ => None) (fun _ => None).

Definition read_only : World :=
  mkWorld both_inputs (fun _ => HttpResponse 200 (Encode (feed two_posts)))
    (fun _ => Some "open feed.xml: permission denied") (fun _ => None).

(** A body that is an HTML page, not a feed. *)
Definition html_body : list Node :=
  [Directive "DOCTYPE html"; CharData " ";
   Element (mkName "" "html") [] [CharData "not found"]].

End Samples.

(** * Properties *)

Import GoTime GoXml Main.

Local Open Scope list_scope.

(** ** The loop of main.go as a map over the slice *)

Lemma set_Items_set_Items (r : rss) (a b : list item) :
  set_Items (set_Items r a) b = set_Items r b.
Proof. reflexivity. Qed.

Lemma set_Items_same (r : rss) : set_Items r (channel_Items (rss_Channel r)) = r.
Proof. destruct r as [n v [d l t its]]; reflexivity. Qed.

(** With the items before index [length done] already rewritten, the rest of
    the loop rewrites [todo] or exits at its first bad item. *)
Lemma transform_from (r : rss) (todo done : list item) (st : State) :
  transform (seq (length done) (length todo)) (set_Items r (done ++ todo)) st =
  match rewrite_items todo with
  | inr todo' => (Ret (set_Items r (done ++ todo')), st)
  | inl err => (Exited 1, fatal_state st err)
  end.
Proof.
  revert done; induction todo as [|it todo IH]; intros done.
  - reflexivity.
  - cbn [length seq transform rewrite_items].
    cbn [set_Items rss_Channel channel_Items].
    rewrite list_lookup_middle by reflexivity.
    unfold rewrite_item.
    destruct (Parse sourceLayout (item_PubDate it)) as [err|t]; [reflexivity|].
    rewrite set_Items_set_Items.
    replace (<[length done := set_PubDate it (Format t targetLayout)]> (done ++ it :: todo))
      with ((done ++ [set_PubDate it (Format t targetLayout)]) ++ todo).
    2:{ rewrite insert_app_r_alt by lia. rewrite Nat.sub_diag. cbn.
        rewrite <- app_assoc. reflexivity. }
    specialize (IH (done ++ [set_PubDate it (Format t targetLayout)])).
    rewrite length_app in IH. cbn [length] in IH.
    rewrite Nat.add_1_r in IH. rewrite IH.
    destruct (rewrite_items todo); [reflexivity|].
    rewrite <- app_assoc. reflexivity.
Qed.

Lemma transform_all (r : rss) (st : State) :
  transform (seq 0 (length (channel_Items (rss_Channel r)))) r st =
  match rewrite_items (channel_Items (rss_Channel r)) with
  | inr items' => (Ret (set_Items r items'), st)
  | inl err => (Exited 1, fatal_state st err)
  end.
Proof.
  pose proof (transform_from r (channel_Items (rss_Channel r)) [] st) as H.
  cbn [length app] in H. rewrite set_Items_same in H. exact H.
Qed.

(** ** The runs of main *)

(** Every run, by the branch of main.go that ends it. *)
Lemma run_cases (w : World) (fs : gmap string (list Node)) :
  run w fs =
  match environ w !! "INPUT_URL" with
  | None =>
    (1, fs, [LookupEnv "INPUT_URL"; Fatal "The url input is required." []; Exit 1])
  | Some url =>
  match environ w !! "INPUT_PATH" with
  | None => (1, fs, pre_get ++ [Fatal "The path input is required." []; Exit 1])
  | Some path =>
  match network w url with
  | HttpError err =>
    (1, fs, pre_get ++ [Get url;
       Fatal "Failed to download the RSS feed: %v" [ArgError (ErrTransport err)]; Exit 1])
  | HttpResponse code body =>
  if negb (code =? StatusOK)
  then (1, fs, pre_get ++ [Get url;
          Fatal "Failed to download RSS feed. Status code: %d" [ArgInt code]; Exit 1])
  else
  match Decode zero_rss body with
  | inl err =>
    (1, fs, pre_get ++ [Get url;
       Fatal "Failed to parse the RSS feed: %v" [ArgError (ErrDecode err)]; Exit 1])
  | inr r =>
  match rewrite_items (channel_Items (rss_Channel r)) with
  | inl err =>
    (1, fs, pre_get ++ [Get url;
       Fatal "Failed to parse the pubDate field: %v" [ArgError (ErrParse err)]; Exit 1])
  | inr items' =>
  match createError w path with
  | Some err =>
    (1, fs, pre_get ++ [Get url; Create path;
       Fatal "Failed to create the file: %v" [ArgError (ErrOS err)]; Exit 1])
  | None =>
  match writeError w path with
  | Some err =>
    (1, <[path := []]> fs, pre_get ++ [Get url; Create path;
       Fatal "Failed to write the RSS feed: %v" [ArgError (ErrOS err)]; Exit 1])
  | None =>
    (0, <[path := Encode (set_Items r items')]> fs,
     pre_get ++ [Get url; Create path; Write path (Encode (set_Items r items'));
                 CloseFile path; CloseBody; Exit 0])
  end end end end end end end.
Proof.
  unfold run, main, mbind, M_bind, bind, LookupEnv_, Fatalf, mbind, M_bind, bind,
    emit, exit, ret. cbn [files trace app].
  destruct (environ w !! "INPUT_URL") as [url|]; [|reflexivity].
  destruct (environ w !! "INPUT_PATH") as [path|]; [|reflexivity].
  unfold Get_, mbind, M_bind, bind, emit, ret. cbn [files trace app].
  destruct (network w url) as [err|code body]; [reflexivity|].
  destruct (negb (code =? StatusOK)); [reflexivity|].
  destruct (Decode zero_rss body) as [err|r]; [reflexivity|].
  rewrite transform_all.
  destruct (rewrite_items (channel_Items (rss_Channel r))) as [err|items'];
    [reflexivity|].
  unfold Create_, Encode_, store, mbind, M_bind, bind, emit, ret.
  cbn [files trace app].
  destruct (createError w path) as [err|]; [reflexivity|].
  cbn [files trace app].
  destruct (writeError w path) as [err|]; [reflexivity|].
  cbn [files trace app]. rewrite insert_insert_eq. reflexivity.
Qed.

Ltac not_in_trace :=
  let H := fresh in
  intros H;
  repeat (apply elem_of_cons in H as [H|H]; [discriminate H|]);
  apply elem_of_nil in H; exact H.

(** ** Configuration and transport errors *)

(** C9: when INPUT_URL is absent the run exits with code 1 after that one
    lookup and its diagnostic; when only INPUT_PATH is absent it exits after
    the two lookups.  Either way no GET is made and no file is created or
    written, and the files are as before. *)
Theorem missing_input_exits_before_get (w : World) (fs : gmap string (list Node)) :
  environ w !! "INPUT_URL" = None ∨ environ w !! "INPUT_PATH" = None →
  run w fs =
    (1, fs,
     match environ w !! "INPUT_URL" with
     | None => [LookupEnv "INPUT_URL"; Fatal "The url input is required." []; Exit 1]
     | Some _ => [LookupEnv "INPUT_URL"; LookupEnv "INPUT_PATH";
                  Fatal "The path input is required." []; Exit 1]
     end)
  ∧ (∀ url, Get url ∉ (run w fs).2)
  ∧ (∀ path, Create path ∉ (run w fs).2)
  ∧ (∀ path doc, Write path doc ∉ (run w fs).2).
Proof.
  intros H. rewrite run_cases.
  destruct (environ w !! "INPUT_URL") as [url|] eqn:Eurl.
  - destruct H as [H|H]; [discriminate H|]. rewrite H. cbn.
    repeat split; intros; not_in_trace.
  - cbn. repeat split; intros; not_in_trace.
Qed.

Lemma missing_input_exits_before_get_witness :
  run (Samples.serving {[ "INPUT_URL" := "https://bsky.example/feed" ]} 200 [])
      Samples.old_file
  = (1, Samples.old_file,
     [LookupEnv "INPUT_URL"; LookupEnv "INPUT_PATH";
      Fatal "The path input is required." []; Exit 1]).
Proof.
  refine (proj1 (missing_input_exits_before_get
    (Samples.serving {[ "INPUT_URL" := "https://bsky.example/feed" ]} 200 [])
    Samples.old_file _)).
  right. vm_compute. reflexivity.
Defined.

(** C8: a response whose status is not 200 ends the run with code 1 and the
    diagnostic that carries the status code, right after the GET: nothing is
    decoded, no file is created or written, the files are as before. *)
Theorem non_200_status_is_fatal (w : World) (fs : gmap string (list Node))
    (url path : string) (code : Z) (body : list Node) :
  environ w !! "INPUT_URL" = Some url →
  environ w !! "INPUT_PATH" = Some path →
  network w url = HttpResponse code body →
  code ≠ 200 →
  run w fs =
    (1, fs,
     [LookupEnv "INPUT_URL"; LookupEnv "INPUT_PATH"; Get url;
      Fatal "Failed to download RSS feed. Status code: %d" [ArgInt code];
      Exit 1])
  ∧ (∀ p, Create p ∉ (run w fs).2)
  ∧ (∀ p doc, Write p doc ∉ (run w fs).2).
Proof.
  intros Hu Hp Hn Hc. rewrite run_cases, Hu, Hp, Hn.
  replace (code =? StatusOK) with false
    by (symmetry; apply Z.eqb_neq; exact Hc).
  cbn. repeat split; intros; not_in_trace.
Qed.

Lemma non_200_status_is_fatal_witness :
  run (Samples.serving Samples.both_inputs 404 []) Samples.old_file
  = (1, Samples.old_file,
     [LookupEnv "INPUT_URL"; LookupEnv "INPUT_PATH"; Get "https://bsky.example/feed";
      Fatal "Failed to download RSS feed. Status code: %d" [ArgInt 404];
      Exit 1]).
Proof.
  refine (proj1 (non_200_status_is_fatal
    (Samples.serving Samples.both_inputs 404 []) Samples.old_file
    "https://bsky.example/feed" "feed.xml" 404 (Encode (Samples.feed []))
    _ _ _ _)).
  - vm_compute. reflexivity.
  - vm_compute. reflexivity.
  - reflexivity.
  - lia.
Defined.

(** ** What the loop does to the items *)

Lemma rewrite_items_inr (l l' : list item) :
  rewrite_items l = inr l' → Forall2 rewritten l l'.
Proof.
  revert l'; induction l as [|it l IH]; intros l' H; cbn in H.
  - injection H as <-. constructor.
  - unfold rewrite_item in H.
    destruct (Parse sourceLayout (item_PubDate it)) as [e|t] eqn:Ep; [discriminate H|].
    destruct (rewrite_items l) as [e|l1]; [discriminate H|].
    injection H as <-. constructor; [|apply IH; reflexivity].
    exists t. split; [exact Ep|reflexivity].
Qed.

(** When some item does not parse, the loop stops at the first such item. *)
Lemma rewrite_items_bad (l : list item) (i : nat) (it : item) (e : ParseError) :
  l !! i = Some it →
  Parse sourceLayout (item_PubDate it) = inl e →
  ∃ j it' e', (j ≤ i)%nat ∧ l !! j = Some it'
              ∧ Parse sourceLayout (item_PubDate it') = inl e'
              ∧ rewrite_items l = inl e'.
Proof.
  revert i; induction l as [|a l IH]; intros i Hi He; [discriminate Hi|].
  cbn [rewrite_items]. unfold rewrite_item.
  destruct (Parse sourceLayout (item_PubDate a)) as [ea|ta] eqn:Ea.
  - exists 0%nat, a, ea. repeat split; [lia|exact Ea].
  - destruct i as [|i]; [injection Hi as ->; congruence|].
    destruct (IH i Hi He) as (j & it' & e' & Hj & Hl & Hp & Hr).
    exists (S j), it', e'. rewrite Hr. repeat split; [lia|exact Hl|exact Hp].
Qed.

(** A successful run, read backwards: both inputs were set, the GET answered
    200, the body decoded, every item parsed, and the file at the path holds
    the encoding of the feed with the rewritten items. *)
Lemma run_success (w : World) (fs fs' : gmap string (list Node)) (tr : list Event) :
  run w fs = (0, fs', tr) →
  ∃ url path body r items',
    environ w !! "INPUT_URL" = Some url
    ∧ environ w !! "INPUT_PATH" = Some path
    ∧ network w url = HttpResponse 200 body
    ∧ Decode zero_rss body = inr r
    ∧ rewrite_items (channel_Items (rss_Channel r)) = inr items'
    ∧ fs' = <[path := Encode (set_Items r items')]> fs.
Proof.
  rewrite run_cases. intros H.
  destruct (environ w !! "INPUT_URL") as [url|]; [|discriminate H].
  destruct (environ w !! "INPUT_PATH") as [path|]; [|discriminate H].
  destruct (network w url) as [err|code body] eqn:En; [discriminate H|].
  destruct (code =? StatusOK) eqn:Ec; [|discriminate H].
  apply Z.eqb_eq in Ec. subst code. cbn [negb] in H.
  destruct (Decode zero_rss body) as [err|r] eqn:Ed; [discriminate H|].
  destruct (rewrite_items (channel_Items (rss_Channel r))) as [err|items'] eqn:Er;
    [discriminate H|].
  destruct (createError w path); [discriminate H|].
  destruct (writeError w path); [discriminate H|].
  injection H as <- _.
  exists url, path, body, r, items'. repeat split; assumption || reflexivity.
Qed.

(** ** Date-parse errors *)

(** C4: when the pubDate of some item of the decoded feed does not parse
    under the source layout, the run exits with code 1 right after the GET,
    with the diagnostic that carries the parse error of the first such item;
    the loop has ended before line 110, so no file is created or written and
    the files are as before. *)
Theorem bad_pubDate_is_fatal (w : World) (fs : gmap string (list Node))
    (url path : string) (body : list Node) (r : rss) (i : nat) (it : item)
    (e : ParseError) :
  environ w !! "INPUT_URL" = Some url →
  environ w !! "INPUT_PATH" = Some path →
  network w url = HttpResponse 200 body →
  Decode zero_rss body = inr r →
  channel_Items (rss_Channel r) !! i = Some it →
  Parse sourceLayout (item_PubDate it) = inl e →
  ∃ j it' e',
    (j ≤ i)%nat
    ∧ channel_Items (rss_Channel r) !! j = Some it'
    ∧ Parse sourceLayout (item_PubDate it') = inl e'
    ∧ run w fs =
        (1, fs,
         [LookupEnv "INPUT_URL"; LookupEnv "INPUT_PATH"; Get url;
          Fatal "Failed to parse the pubDate field: %v" [ArgError (ErrParse e')];
          Exit 1])
    ∧ (∀ p, Create p ∉ (run w fs).2)
    ∧ (∀ p doc, Write p doc ∉ (run w fs).2).
Proof.
  intros Hu Hp Hn Hd Hi He.
  destruct (rewrite_items_bad _ _ _ _ Hi He) as (j & it' & e' & Hj & Hl & Hp' & Hr).
  exists j, it', e'. rewrite run_cases, Hu, Hp, Hn, Hd, Hr. cbn.
  repeat split; try assumption; intros; not_in_trace.
Qed.

Lemma bad_pubDate_is_fatal_witness :
  ∃ j it' e',
    (j ≤ 1)%nat
    ∧ [Samples.post "02 Jan 2025 09:15 +0000"; Samples.post "yesterday"] !! j = Some it'
    ∧ Parse sourceLayout (item_PubDate it') = inl e'
    ∧ run (Samples.serving Samples.both_inputs 200
             [Samples.post "02 Jan 2025 09:15 +0000"; Samples.post "yesterday"])
          Samples.old_file =
        (1, Samples.old_file,
         [LookupEnv "INPUT_URL"; LookupEnv "INPUT_PATH"; Get "https://bsky.example/feed";
          Fatal "Failed to parse the pubDate field: %v" [ArgError (ErrParse e')];
          Exit 1])
    ∧ (∀ p, Create p ∉
         (run (Samples.serving Samples.both_inputs 200
                 [Samples.post "02 Jan 2025 09:15 +0000"; Samples.post "yesterday"])
              Samples.old_file).2)
    ∧ (∀ p doc, Write p doc ∉
         (run (Samples.serving Samples.both_inputs 200
                 [Samples.post "02 Jan 2025 09:15 +0000"; Samples.post "yesterday"])
              Samples.old_file).2).
Proof.
  refine (bad_pubDate_is_fatal
    (Samples.serving Samples.both_inputs 200
       [Samples.post "02 Jan 2025 09:15 +0000"; Samples.post "yesterday"])
    Samples.old_file "https://bsky.example/feed" "feed.xml"
    (Encode (Samples.feed [Samples.post "02 Jan 2025 09:15 +0000"; Samples.post "yesterday"]))
    (Samples.feed [Samples.post "02 Jan 2025 09:15 +0000"; Samples.post "yesterday"])
    1 (Samples.post "yesterday")
    (mkParseError "02 Jan 2006 15:04 -0700" "yesterday" "02" "yesterday" "")
    _ _ _ _ _ _).
  - vm_compute. reflexivity.
  - vm_compute. reflexivity.
  - reflexivity.
  - vm_compute. reflexivity.
  - reflexivity.
  - vm_compute. reflexivity.
Defined.

(** C5: the loop of lines 96 to 108 turns the two pubDates of the
    specification's scenarios into the stated strings, whatever the other
    fields of the items and of the feed are. *)
Theorem spec_scenarios (r : rss) (l1 d1 l2 d2 : string) (g1 g2 : guid) (st : State) :
  transform (seq 0 2)
    (set_Items r [mkItem l1 d1 "02 Jan 2025 09:15 +0000" g1;
                  mkItem l2 d2 "15 Aug 2024 23:59 -0500" g2]) st
  = (Ret (set_Items r [mkItem l1 d1 "2025-01-02T09:15:00+00:00" g1;
                       mkItem l2 d2 "2024-08-15T23:59:00-05:00" g2]), st).
Proof.
  pose proof (transform_all
    (set_Items r [mkItem l1 d1 "02 Jan 2025 09:15 +0000" g1;
                  mkItem l2 d2 "15 Aug 2024 23:59 -0500" g2]) st) as H.
  cbn [set_Items rss_Channel channel_Items length] in H. rewrite H.
  vm_compute. reflexivity.
Qed.

(** ** Items without a publication date *)

Lemma unmarshal_item_cons (it : item) (n : Node) (children : list Node) :
  unmarshal_item it (n :: children) = unmarshal_item (unmarshal_item_child it n) children.
Proof. reflexivity. Qed.

(** Decoding an item leaves its pubDate empty when every [pubDate] child
    element has no character data, in particular when there is none. *)
Lemma unmarshal_item_no_pubDate (children : list Node) (it : item) :
  item_PubDate it = "" →
  (∀ name attr cs, Element name attr cs ∈ children →
     Local name = "pubDate" → chardata cs = "") →
  item_PubDate (unmarshal_item it children) = "".
Proof.
  revert it; induction children as [|n children IH]; intros it Hit Hch.
  - exact Hit.
  - rewrite unmarshal_item_cons. apply IH.
    + destruct n as [name attr cs| | | |]; try exact Hit.
      cbn [unmarshal_item_child].
      destruct (String.eqb (Local name) "link"); [exact Hit|].
      destruct (String.eqb (Local name) "description"); [exact Hit|].
      destruct (String.eqb (Local name) "pubDate") eqn:E.
      * cbn. apply (Hch name attr cs); [left|apply String.eqb_eq; exact E].
      * destruct (String.eqb (Local name) "guid"); exact Hit.
    + intros name attr cs Hin. apply (Hch name attr cs). right. exact Hin.
Qed.

(** C10: an item element whose pubDate children are absent or without text
    decodes to the empty pubDate; the empty string does not parse under the
    source layout; so a decoded feed with such an item ends the run with
    code 1 and the date-parse diagnostic, the files as before.  A feed
    without items passes the loop at once, and a feed with items has the
    pubDate of its first item parsed. *)
Theorem empty_pubDate_is_fatal (w : World) (fs : gmap string (list Node))
    (url path : string) (body : list Node) (r : rss) (i : nat) (it : item) :
  environ w !! "INPUT_URL" = Some url →
  environ w !! "INPUT_PATH" = Some path →
  network w url = HttpResponse 200 body →
  Decode zero_rss body = inr r →
  channel_Items (rss_Channel r) !! i = Some it →
  item_PubDate it = "" →
  (∃ e',
     run w fs =
       (1, fs,
        [LookupEnv "INPUT_URL"; LookupEnv "INPUT_PATH"; Get url;
         Fatal "Failed to parse the pubDate field: %v" [ArgError (ErrParse e')];
         Exit 1]))
  ∧ Parse sourceLayout "" =
      inl (mkParseError "02 Jan 2006 15:04 -0700" "" "02" "" "")
  ∧ (∀ children,
       (∀ name attr cs, Element name attr cs ∈ children →
          Local name = "pubDate" → chardata cs = "") →
       item_PubDate (unmarshal_item zero_item children) = "")
  ∧ (∀ r0 st, channel_Items (rss_Channel r0) = [] →
       transform (seq 0 (length (channel_Items (rss_Channel r0)))) r0 st = (Ret r0, st))
  ∧ (∀ r0 it0 rest st e0,
       channel_Items (rss_Channel r0) = it0 :: rest →
       Parse sourceLayout (item_PubDate it0) = inl e0 →
       transform (seq 0 (length (channel_Items (rss_Channel r0)))) r0 st
       = (Exited 1, fatal_state st e0)).
Proof.
  intros Hu Hp Hn Hd Hi He.
  assert (Hparse : Parse sourceLayout "" =
            inl (mkParseError "02 Jan 2006 15:04 -0700" "" "02" "" ""))
    by (vm_compute; reflexivity).
  split; [|split; [|split; [|split]]].
  - destruct (rewrite_items_bad _ _ _ _ Hi ltac:(rewrite He; exact Hparse))
      as (j & it' & e' & _ & _ & _ & Hr).
    exists e'. rewrite run_cases, Hu, Hp, Hn, Hd, Hr. reflexivity.
  - exact Hparse.
  - intros children Hch. apply unmarshal_item_no_pubDate; [reflexivity|exact Hch].
  - intros r0 st H0. rewrite transform_all, H0. cbn.
    rewrite <- H0, set_Items_same. reflexivity.
  - intros r0 it0 rest st e0 H0 He0. rewrite transform_all, H0.
    cbn [rewrite_items]. unfold rewrite_item. rewrite He0. reflexivity.
Qed.

Lemma empty_pubDate_is_fatal_witness :
  ∃ e',
    run (Samples.serving Samples.both_inputs 200 [Samples.post ""]) Samples.old_file =
      (1, Samples.old_file,
       [LookupEnv "INPUT_URL"; LookupEnv "INPUT_PATH"; Get "https://bsky.example/feed";
        Fatal "Failed to parse the pubDate field: %v" [ArgError (ErrParse e')];
        Exit 1]).
Proof.
  refine (proj1 (empty_pubDate_is_fatal
    (Samples.serving Samples.both_inputs 200 [Samples.post ""])
    Samples.old_file "https://bsky.example/feed" "feed.xml"
    (Encode (Samples.feed [Samples.post ""]))
    (Samples.feed [Samples.post ""]) 0 (Samples.post "")
    _ _ _ _ _ _)).
  - vm_compute. reflexivity.
  - vm_compute. reflexivity.
  - reflexivity.
  - vm_compute. reflexivity.
  - reflexivity.
  - reflexivity.
Defined.

(** ** Strings and digits *)

Lemma append_nil_r (s : string) : (s +:+ "") = s.
Proof. induction s as [|c s IH]; [reflexivity|]. simpl. f_equal. exact IH. Qed.

Lemma append_assoc (a b c : string) : ((a +:+ b) +:+ c) = (a +:+ (b +:+ c)).
Proof. induction a as [|x a IH]; [reflexivity|]. simpl. f_equal. exact IH. Qed.

Lemma length_append (a b : string) :
  String.length (a +:+ b) = (String.length a + String.length b)%nat.
Proof.
  induction a as [|x a IH]; [reflexivity|].
  simpl. f_equal. exact IH.
Qed.

Lemma byte_of_digit_char (d : Z) : 0 <= d <= 9 → byte_of (digit_char d) = 48 + d.
Proof.
  intros H. unfold byte_of, digit_char.
  rewrite N_ascii_embedding by lia. lia.
Qed.

Lemma isDigitC_digit_char (d : Z) : 0 <= d <= 9 → isDigitC (digit_char d) = true.
Proof.
  intros H. unfold isDigitC. rewrite byte_of_digit_char by exact H.
  apply andb_true_intro; split; apply Z.leb_le; lia.
Qed.

Lemma digitVal_digit_char (d : Z) : 0 <= d <= 9 → digitVal (digit_char d) = d.
Proof. intros H. unfold digitVal. rewrite byte_of_digit_char by exact H. lia. Qed.

Lemma isDigitC_not_space (c : ascii) : isDigitC c = true → Ascii.eqb c space = false.
Proof.
  intros H. apply Ascii.eqb_neq. intros ->. vm_compute in H. discriminate H.
Qed.

Lemma all_digits_append (a b : string) :
  all_digits (a +:+ b) = all_digits a && all_digits b.
Proof.
  induction a as [|x a IH]; cbn; [reflexivity|].
  rewrite IH, andb_assoc. reflexivity.
Qed.

Lemma all_digits_zeros (n : nat) : all_digits (zeros n) = true.
Proof. induction n as [|n IH]; cbn; [reflexivity|exact IH]. Qed.

Lemma all_digits_twoDigits (u : Z) : 0 <= u < 100 → all_digits (twoDigits u) = true.
Proof.
  intros H. cbn. rewrite !isDigitC_digit_char; [reflexivity| |].
  - pose proof (Z.mod_pos_bound u 10). lia.
  - split; [apply Z.div_pos; lia|]. apply Z.lt_succ_r, Z.div_lt_upper_bound; lia.
Qed.

Lemma all_digits_decimal_from (fuel : nat) (u : Z) (acc : string) :
  all_digits acc = true → all_digits (decimal_from fuel u acc) = true.
Proof.
  revert u acc; induction fuel as [|fuel IH]; intros u acc H; cbn; [exact H|].
  destruct (u <=? 0); [exact H|]. apply IH. cbn.
  rewrite isDigitC_digit_char, H; [reflexivity|].
  pose proof (Z.mod_pos_bound u 10). lia.
Qed.

Lemma all_digits_decimal (u : Z) : all_digits (decimal u) = true.
Proof.
  unfold decimal. destruct (u =? 0); [reflexivity|].
  apply all_digits_decimal_from. reflexivity.
Qed.

(** A non-negative number is printed as digits only, at least [width] of
    them. *)
Lemma appendInt_nonneg (x width : Z) :
  0 <= x →
  all_digits (appendInt x width) = true
  ∧ width <= len (appendInt x width).
Proof.
  intros Hx. unfold appendInt.
  replace (x <? 0) with false by (symmetry; apply Z.ltb_ge; exact Hx).
  rewrite Z.abs_eq by exact Hx.
  match goal with |- context [String.append "" ?b] => change (String.append "" b) with b end.
  destruct ((width =? 2) && (x <? 100)) eqn:E2.
  { apply andb_prop in E2 as [Hw Hu]. apply Z.eqb_eq in Hw. apply Z.ltb_lt in Hu.
    split; [apply all_digits_twoDigits; lia|]. subst width. unfold len. cbn. lia. }
  destruct ((width =? 4) && (x <? 10000)) eqn:E4.
  { apply andb_prop in E4 as [Hw Hu]. apply Z.eqb_eq in Hw. apply Z.ltb_lt in Hu.
    split.
    - rewrite all_digits_append, !all_digits_twoDigits; [reflexivity| |].
      + pose proof (Z.mod_pos_bound x 100). lia.
      + split; [apply Z.div_pos; lia|]. apply Z.div_lt_upper_bound; lia.
    - subst width. unfold len. rewrite length_append. cbn. lia. }
  split.
  - rewrite all_digits_append, all_digits_zeros, all_digits_decimal. reflexivity.
  - unfold len. rewrite length_append.
    assert (Hz : ∀ n, String.length (zeros n) = n)
      by (induction n as [|n IH]; cbn; [reflexivity|rewrite IH; reflexivity]).
    rewrite Hz. unfold len. lia.
Qed.

Lemma appendInt_negative (x width : Z) :
  x < 0 → ∃ rest, appendInt x width = String "-" rest.
Proof.
  intros Hx. unfold appendInt.
  replace (x <? 0) with true by (symmetry; apply Z.ltb_lt; exact Hx).
  cbn [String.append]. eexists. reflexivity.
Qed.

(** ** The text of the target layout *)

Lemma Format_target (t : Time) :
  Format t targetLayout =
  let '(y, m, d, _) := absDate (locabs t).2 in
  let '(h, mi, s) := absClock (locabs t).2 in
  target_string y m d h mi s (offsetOf t).
Proof.
  unfold Format, locabs. cbn [fst snd].
  destruct (absDate _) as [[[y m] d] yd].
  destruct (absClock _) as [[h mi] s].
  unfold target_string.
  cbn [targetLayout chunks suffix map prefix std formatStd String.concat].
  rewrite !append_assoc, append_nil_r. reflexivity.
Qed.

Lemma three_digits (s : string) :
  all_digits s = true → 3 <= len s →
  ∃ c0 c1 c2 rest,
    s = String c0 (String c1 (String c2 rest))
    ∧ isDigitC c0 = true ∧ isDigitC c1 = true ∧ isDigitC c2 = true.
Proof.
  intros Hd Hl.
  destruct s as [|c0 [|c1 [|c2 rest]]]; try (unfold len in Hl; cbn in Hl; lia).
  cbn in Hd. apply andb_prop in Hd as [H0 Hd]. apply andb_prop in Hd as [H1 Hd].
  apply andb_prop in Hd as [H2 _].
  exists c0, c1, c2, rest. repeat split; assumption.
Qed.

(** The source layout wants a space after the two digits of the day. *)
Lemma Parse_source_three_digits (c0 c1 c2 : ascii) (rest : string) :
  isDigitC c0 = true → isDigitC c1 = true → isDigitC c2 = true →
  ∃ e, Parse sourceLayout (String c0 (String c1 (String c2 rest))) = inl e.
Proof.
  intros H0 H1 H2. unfold Parse.
  cbn [sourceLayout chunks parseChunks prefix std skip parseStd].
  unfold getnum, isDigit. cbn [String.get]. rewrite H0, H1. cbn [negb].
  cbn [String.eqb negb skip prefix].
  change (Ascii.eqb " " space) with true. cbv iota.
  rewrite (isDigitC_not_space c2 H2). cbn [negb]. eexists. reflexivity.
Qed.

Lemma Parse_source_minus (rest : string) :
  ∃ e, Parse sourceLayout (String "-" rest) = inl e.
Proof. eexists. reflexivity. Qed.

(** No text of the target layout parses under the source layout. *)
Lemma Parse_source_target_string (y m d h mi s off : Z) :
  ∃ e, Parse sourceLayout (target_string y m d h mi s off) = inl e.
Proof.
  unfold target_string.
  destruct (Z.lt_ge_cases y 0) as [Hy|Hy].
  - destruct (appendInt_negative y 4 Hy) as [rest ->]. apply Parse_source_minus.
  - destruct (appendInt_nonneg y 4 Hy) as [Hd Hl].
    destruct (three_digits _ Hd ltac:(lia)) as (c0 & c1 & c2 & rest & -> & H0 & H1 & H2).
    apply Parse_source_three_digits; assumption.
Qed.

(** C7: whatever time is formatted under the target layout, the text does
    not parse under the source layout; so a feed that holds such a pubDate,
    as every feed the loop has rewritten does, makes the loop exit with the
    date-parse diagnostic instead of passing unchanged. *)
Theorem transformer_not_idempotent (t : Time) (r : rss) (i : nat) (it : item)
    (st : State) :
  channel_Items (rss_Channel r) !! i = Some it →
  item_PubDate it = Format t targetLayout →
  (∃ e, Parse sourceLayout (Format t targetLayout) = inl e)
  ∧ ∃ e', transform (seq 0 (length (channel_Items (rss_Channel r)))) r st
          = (Exited 1, fatal_state st e').
Proof.
  intros Hi Hp.
  assert (Hbad : ∃ e, Parse sourceLayout (Format t targetLayout) = inl e).
  { rewrite Format_target.
    destruct (absDate _) as [[[y m] d] yd]. destruct (absClock _) as [[h mi] s].
    apply Parse_source_target_string. }
  split; [exact Hbad|].
  destruct Hbad as [e He]. rewrite <- Hp in He.
  destruct (rewrite_items_bad _ _ _ _ Hi He) as (j & it' & e' & _ & _ & _ & Hr).
  exists e'. rewrite transform_all, Hr. reflexivity.
Qed.

Lemma transformer_not_idempotent_witness :
  (∃ e, Parse sourceLayout (Format (mkTime 1735809300 0 0) targetLayout) = inl e)
  ∧ ∃ e', transform (seq 0 2) (Samples.feed Samples.two_posts_rewritten) (mkState ∅ [])
          = (Exited 1, fatal_state (mkState ∅ []) e').
Proof.
  refine (transformer_not_idempotent (mkTime 1735809300 0 0)
            (Samples.feed Samples.two_posts_rewritten) 0
            (Samples.post "2025-01-02T09:15:00+00:00") (mkState ∅ []) _ _).
  - reflexivity.
  - vm_compute. reflexivity.
Defined.

(** ** Decoding what the encoder wrote *)

Lemma chardata_text (s : string) : chardata (text s) = s.
Proof.
  unfold text. destruct (String.eqb s "") eqn:E.
  - apply String.eqb_eq in E. subst s. reflexivity.
  - cbn. apply append_nil_r.
Qed.

Lemma unmarshal_marshal_guid (g0 g : guid) (name : Name) (attr : list Attr)
    (children : list Node) :
  marshal_guid g = Element name attr children →
  unmarshal_guid g0 attr children = g.
Proof.
  intros H. injection H as <- <- <-. destruct g as [p v].
  unfold unmarshal_guid. cbn -[text chardata]. rewrite chardata_text. reflexivity.
Qed.

Lemma unmarshal_marshal_item (depth : nat) (it0 it : item) (name : Name)
    (attr : list Attr) (children : list Node) :
  marshal_item depth it = Element name attr children →
  unmarshal_item it0 children = it.
Proof.
  intros H. injection H as <- <- <-. destruct it as [l d p [gp gv]].
  unfold unmarshal_item. cbn -[text chardata unmarshal_guid].
  rewrite !chardata_text.
  rewrite (unmarshal_marshal_guid _ (mkGuid gp gv) _ _ _ eq_refl). reflexivity.
Qed.

Lemma unmarshal_channel_item (depth : nat) (it : item) (c : channel) :
  unmarshal_channel_child c (marshal_item depth it)
  = mkChannel (channel_Description c) (channel_Link c) (channel_Title c)
      (channel_Items c ++ [it]).
Proof.
  unfold marshal_item.
  cbn [unmarshal_channel_child tag Local String.eqb Ascii.eqb Bool.eqb].
  rewrite (unmarshal_marshal_item depth zero_item it _ _ _ eq_refl). reflexivity.
Qed.

(** The item elements of a channel, with their indentation, append the
    items to the slice. *)
Lemma unmarshal_marshal_items (depth : nat) (items : list item) (c : channel) :
  fold_left unmarshal_channel_child
    (flat_map (λ it, [indent (S depth); marshal_item (S depth) it]) items) c
  = mkChannel (channel_Description c) (channel_Link c) (channel_Title c)
      (channel_Items c ++ items).
Proof.
  revert c; induction items as [|it items IH]; intros c.
  - cbn. rewrite app_nil_r. destruct c; reflexivity.
  - cbn [flat_map app fold_left].
    change (unmarshal_channel_child c (indent (S depth))) with c.
    rewrite unmarshal_channel_item, IH. cbn. rewrite <- app_assoc. reflexivity.
Qed.

Lemma unmarshal_marshal_channel (depth : nat) (c : channel) (name : Name)
    (attr : list Attr) (children : list Node) :
  marshal_channel depth c = Element name attr children →
  unmarshal_channel zero_channel children = c.
Proof.
  intros H. injection H as <- <- <-. destruct c as [d l t items].
  unfold unmarshal_channel.
  cbn [channel_Description channel_Link channel_Title channel_Items app fold_left].
  rewrite fold_left_app, unmarshal_marshal_items.
  cbn -[text chardata]. rewrite !chardata_text. reflexivity.
Qed.

Lemma unmarshal_rss_channel (depth : nat) (c : channel) (n : Name) (v : string) :
  unmarshal_rss_child (mkRss n v zero_channel) (marshal_channel depth c)
  = mkRss n v c.
Proof.
  unfold marshal_channel.
  cbn [unmarshal_rss_child tag Local String.eqb Ascii.eqb Bool.eqb
       rss_XMLName rss_Version rss_Channel].
  rewrite (unmarshal_marshal_channel depth c _ _ _ eq_refl). reflexivity.
Qed.

(** Decoding the encoding of a feed gives the feed back, with the root name
    the encoder wrote: [rss] in no name space. *)
Lemma Decode_Encode (r : rss) :
  Decode zero_rss (Encode r) = inr (mkRss (tag "rss") (rss_Version r) (rss_Channel r)).
Proof.
  destruct r as [n v c]. unfold Encode, marshal_rss.
  cbn [Decode]. unfold unmarshal_rss.
  cbn [tag Local String.eqb Ascii.eqb Bool.eqb negb fold_left attrName attrValue
       rss_Version rss_Channel rss_XMLName zero_rss].
  change (unmarshal_rss_child ?r (indent 1)) with r.
  rewrite unmarshal_rss_channel. reflexivity.
Qed.

(** ** What a successful run leaves in the file *)

(** The item elements the encoder writes decode, one by one and in order, to
    the items it was given. *)
Lemma doc_item_elements_Encode (r : rss) :
  map (unmarshal_item zero_item) (doc_item_elements (Encode r))
  = channel_Items (rss_Channel r).
Proof.
  destruct r as [n v [d l t items]].
  unfold doc_item_elements, Encode, marshal_rss.
  cbn [first_element flat_map indent marshal_channel tag Local String.eqb Ascii.eqb
       Bool.eqb rss_Channel channel_Items channel_Description channel_Link
       channel_Title app].
  rewrite app_nil_r. unfold item_elements.
  cbn [omap list_omap marshal_string indent tag Local String.eqb Ascii.eqb Bool.eqb app].
  induction items as [|it items IH]; [reflexivity|].
  cbn [flat_map app omap list_omap indent].
  unfold marshal_item at 1. cbn [tag Local String.eqb Ascii.eqb Bool.eqb map].
  rewrite (unmarshal_marshal_item 2 zero_item it _ _ _ eq_refl).
  f_equal. exact IH.
Qed.

(** C2: in a run that ends with code 0, the document left at INPUT_PATH,
    decoded again, has the version, the channel description, link and title
    and, item by item, the link, the description and the guid (value and
    isPermaLink) of the feed decoded from the response to the GET at
    INPUT_URL.  The feed handed to the encoder is the decoded one with
    nothing replaced but each item's pubDate. *)
Theorem only_pubDate_changes (w : World) (fs fs' : gmap string (list Node))
    (tr : list Event) :
  run w fs = (0, fs', tr) →
  ∃ url path body r doc r',
    environ w !! "INPUT_URL" = Some url
    ∧ environ w !! "INPUT_PATH" = Some path
    ∧ network w url = HttpResponse 200 body
    ∧ Decode zero_rss body = inr r
    ∧ fs' !! path = Some doc
    ∧ Decode zero_rss doc = inr r'
    ∧ rss_Version r' = rss_Version r
    ∧ channel_Description (rss_Channel r') = channel_Description (rss_Channel r)
    ∧ channel_Link (rss_Channel r') = channel_Link (rss_Channel r)
    ∧ channel_Title (rss_Channel r') = channel_Title (rss_Channel r)
    ∧ Forall2
        (λ it it', item_Link it' = item_Link it
                   ∧ item_Description it' = item_Description it
                   ∧ guid_Value (item_Guid it') = guid_Value (item_Guid it)
                   ∧ guid_IsPermaLink (item_Guid it') = guid_IsPermaLink (item_Guid it))
        (channel_Items (rss_Channel r)) (channel_Items (rss_Channel r'))
    ∧ ∃ items',
        doc = Encode (set_Items r items')
        ∧ Forall2 (λ it it', it' = set_PubDate it (item_PubDate it'))
            (channel_Items (rss_Channel r)) items'.
Proof.
  intros H.
  destruct (run_success _ _ _ _ H)
    as (url & path & body & r & items' & Hu & Hp & Hn & Hd & Hr & ->).
  apply rewrite_items_inr in Hr.
  eexists url, path, body, r, _, _.
  split; [exact Hu|]. split; [exact Hp|]. split; [exact Hn|]. split; [exact Hd|].
  split; [apply lookup_insert_eq|]. split; [apply Decode_Encode|].
  cbn [set_Items rss_Version rss_Channel channel_Description channel_Link
       channel_Title channel_Items].
  do 4 (split; [reflexivity|]). split.
  - eapply Forall2_impl; [exact Hr|]. intros it it' (t & _ & ->). repeat split.
  - exists items'. split; [reflexivity|].
    eapply Forall2_impl; [exact Hr|]. intros it it' (t & _ & ->). reflexivity.
Qed.

(** C3: in a run that ends with code 0, the document left at INPUT_PATH
    has as many item elements as the decoded feed has items, and the item
    element at each position decodes to the decoded item of that position
    with its pubDate rewritten; so does the feed that the whole document
    decodes to. *)
Theorem items_keep_number_and_order (w : World) (fs fs' : gmap string (list Node))
    (tr : list Event) :
  run w fs = (0, fs', tr) →
  ∃ url path body r doc r',
    environ w !! "INPUT_URL" = Some url
    ∧ environ w !! "INPUT_PATH" = Some path
    ∧ network w url = HttpResponse 200 body
    ∧ Decode zero_rss body = inr r
    ∧ fs' !! path = Some doc
    ∧ Decode zero_rss doc = inr r'
    ∧ length (doc_item_elements doc) = length (channel_Items (rss_Channel r))
    ∧ length (channel_Items (rss_Channel r')) = length (channel_Items (rss_Channel r))
    ∧ ∀ i it, channel_Items (rss_Channel r) !! i = Some it →
        ∃ cs it',
          doc_item_elements doc !! i = Some cs
          ∧ unmarshal_item zero_item cs = it'
          ∧ channel_Items (rss_Channel r') !! i = Some it'
          ∧ rewritten it it'.
Proof.
  intros H.
  destruct (run_success _ _ _ _ H)
    as (url & path & body & r & items' & Hu & Hp & Hn & Hd & Hr & ->).
  apply rewrite_items_inr in Hr.
  pose proof (doc_item_elements_Encode (set_Items r items')) as Hdoc.
  cbn [set_Items rss_Channel channel_Items] in Hdoc.
  eexists url, path, body, r, _, _.
  split; [exact Hu|]. split; [exact Hp|]. split; [exact Hn|]. split; [exact Hd|].
  split; [apply lookup_insert_eq|]. split; [apply Decode_Encode|].
  cbn [rss_Channel channel_Items set_Items].
  split; [|split].
  - rewrite <- (length_map (unmarshal_item zero_item)), Hdoc.
    symmetry. eapply Forall2_length; exact Hr.
  - symmetry. eapply Forall2_length; exact Hr.
  - intros i it Hi.
    destruct (Forall2_lookup_l _ _ _ _ _ Hr Hi) as (it' & Hi' & Hrw).
    assert (Hm : map (unmarshal_item zero_item)
                   (doc_item_elements (Encode (set_Items r items'))) !! i = Some it')
      by (rewrite Hdoc; exact Hi').
    rewrite list_lookup_fmap in Hm.
    destruct (doc_item_elements (Encode (set_Items r items')) !! i) as [cs|] eqn:Ecs;
      [|discriminate Hm].
    injection Hm as Hm. exists cs, it'. repeat split; assumption.
Qed.

Lemma good_run :
  run Samples.good_world Samples.old_file = (0, Samples.good_files, Samples.good_trace).
Proof. vm_compute. reflexivity. Qed.

Lemma only_pubDate_changes_witness :
  ∃ url path body r doc r',
    environ Samples.good_world !! "INPUT_URL" = Some url
    ∧ environ Samples.good_world !! "INPUT_PATH" = Some path
    ∧ network Samples.good_world url = HttpResponse 200 body
    ∧ Decode zero_rss body = inr r
    ∧ Samples.good_files !! path = Some doc
    ∧ Decode zero_rss doc = inr r'
    ∧ rss_Version r' = rss_Version r
    ∧ channel_Description (rss_Channel r') = channel_Description (rss_Channel r)
    ∧ channel_Link (rss_Channel r') = channel_Link (rss_Channel r)
    ∧ channel_Title (rss_Channel r') = channel_Title (rss_Channel r)
    ∧ Forall2
        (λ it it', item_Link it' = item_Link it
                   ∧ item_Description it' = item_Description it
                   ∧ guid_Value (item_Guid it') = guid_Value (item_Guid it)
                   ∧ guid_IsPermaLink (item_Guid it') = guid_IsPermaLink (item_Guid it))
        (channel_Items (rss_Channel r)) (channel_Items (rss_Channel r'))
    ∧ ∃ items',
        doc = Encode (set_Items r items')
        ∧ Forall2 (λ it it', it' = set_PubDate it (item_PubDate it'))
            (channel_Items (rss_Channel r)) items'.
Proof.
  apply (only_pubDate_changes Samples.good_world Samples.old_file
           Samples.good_files Samples.good_trace).
  vm_compute. reflexivity.
Defined.

Lemma items_keep_number_and_order_witness :
  ∃ url path body r doc r',
    environ Samples.good_world !! "INPUT_URL" = Some url
    ∧ environ Samples.good_world !! "INPUT_PATH" = Some path
    ∧ network Samples.good_world url = HttpResponse 200 body
    ∧ Decode zero_rss body = inr r
    ∧ Samples.good_files !! path = Some doc
    ∧ Decode zero_rss doc = inr r'
    ∧ length (doc_item_elements doc) = length (channel_Items (rss_Channel r))
    ∧ length (channel_Items (rss_Channel r')) = length (channel_Items (rss_Channel r))
    ∧ ∀ i it, channel_Items (rss_Channel r) !! i = Some it →
        ∃ cs it',
          doc_item_elements doc !! i = Some cs
          ∧ unmarshal_item zero_item cs = it'
          ∧ channel_Items (rss_Channel r') !! i = Some it'
          ∧ rewritten it it'.
Proof.
  apply (items_keep_number_and_order Samples.good_world Samples.old_file
           Samples.good_files Samples.good_trace).
  vm_compute. reflexivity.
Defined.

Lemma fold_version_XMLName (attr : list Attr) (r : rss) :
  rss_XMLName
    (fold_left
       (λ r a, if String.eqb (Local (attrName a)) "version"
               then mkRss (rss_XMLName r) (attrValue a) (rss_Channel r) else r)
       attr r)
  = rss_XMLName r.
Proof.
  revert r; induction attr as [|a attr IH]; intros r; [reflexivity|].
  cbn [fold_left]. rewrite IH.
  destruct (String.eqb (Local (attrName a)) "version"); reflexivity.
Qed.

Lemma fold_children_XMLName (children : list Node) (r : rss) :
  rss_XMLName (fold_left unmarshal_rss_child children r) = rss_XMLName r.
Proof.
  revert r; induction children as [|n children IH]; intros r; [reflexivity|].
  cbn [fold_left]. rewrite IH.
  destruct n as [name attr cs| | | |]; try reflexivity.
  cbn. destruct (String.eqb (Local name) "channel"); reflexivity.
Qed.

(** What decodes has a root whose local name is [rss], and keeps the root's
    name, name space included. *)
Lemma Decode_root_name (body : list Node) (r0 v : rss) :
  Decode r0 body = inr v → Local (rss_XMLName v) = "rss".
Proof.
  induction body as [|n body IH]; intros H; [discriminate H|].
  destruct n as [name attr cs| | |target inst|]; cbn [Decode] in H;
    try (apply IH; exact H).
  2:{ destruct (declaration_error target inst); [discriminate H|]. apply IH; exact H. }
  unfold unmarshal_rss in H.
  destruct (String.eqb (Local name) "rss") eqn:E; [|discriminate H].
  cbn [negb] in H. injection H as <-.
  rewrite fold_children_XMLName, fold_version_XMLName. cbn.
  apply String.eqb_eq. exact E.
Qed.

(** C6, as the code has it: for a body that decodes to [v] and whose items
    all parse, decoding the written document gives [v] with the rewritten
    items and with the root name the encoder writes, [rss] in no name space;
    version, channel description, link and title, and each item's link,
    description and guid are those of [v].  The written root is the element
    [rss] with the one attribute [version], and [rss] is also the local name
    of the root that was decoded. *)
Theorem decode_encode_decode (body : list Node) (v : rss) (items' : list item) :
  Decode zero_rss body = inr v →
  rewrite_items (channel_Items (rss_Channel v)) = inr items' →
  Decode zero_rss (Encode (set_Items v items'))
    = inr (mkRss (tag "rss") (rss_Version v)
             (mkChannel (channel_Description (rss_Channel v))
                (channel_Link (rss_Channel v)) (channel_Title (rss_Channel v)) items'))
  ∧ Local (rss_XMLName v) = "rss"
  ∧ Forall2
      (λ it it', item_Link it' = item_Link it
                 ∧ item_Description it' = item_Description it
                 ∧ item_Guid it' = item_Guid it
                 ∧ rewritten it it')
      (channel_Items (rss_Channel v)) items'
  ∧ ∃ children,
      Encode (set_Items v items')
      = [Element (tag "rss") [mkAttr (tag "version") (rss_Version v)] children].
Proof.
  intros Hd Hr. split; [|split; [|split]].
  - rewrite Decode_Encode. reflexivity.
  - eapply Decode_root_name; exact Hd.
  - eapply Forall2_impl; [apply rewrite_items_inr; exact Hr|].
    intros it it' Hrw. pose proof Hrw as (t & _ & ->). repeat split. exact Hrw.
  - eexists. reflexivity.
Qed.

Lemma decode_encode_decode_witness :
  Decode zero_rss (Encode (set_Items (Samples.feed Samples.two_posts)
                             Samples.two_posts_rewritten))
  = inr (Samples.feed Samples.two_posts_rewritten).
Proof.
  refine (proj1 (decode_encode_decode
    (Encode (Samples.feed Samples.two_posts)) (Samples.feed Samples.two_posts)
    Samples.two_posts_rewritten _ _)).
  - vm_compute. reflexivity.
  - vm_compute. reflexivity.
Defined.

(** The claim as stated fails on the root name: a root [rss] in a name space
    decodes with that name space in [XMLName], and the encoder writes the
    root in none. *)
Lemma decode_encode_decode_counterexample :
  ∃ v v'',
    Decode zero_rss Samples.namespaced_body = inr v
    ∧ rewrite_items (channel_Items (rss_Channel v)) = inr []
    ∧ Decode zero_rss (Encode (set_Items v [])) = inr v''
    ∧ rss_XMLName v'' ≠ rss_XMLName v.
Proof.
  eexists. eexists. split; [reflexivity|]. split; [reflexivity|].
  split; [reflexivity|]. cbn. discriminate.
Qed.

(** ** The calendar: [absDate] inverts [Date] *)

Lemma absDate_split (abs : Z) :
  absDate abs =
  let '(y, yday) := yearPart (abs / secondsPerDay) in
  let year := y + absoluteZeroYear in
  let '(month, day) := monthDayPart (isLeap year) yday in
  (year, month, day, yday).
Proof.
  unfold absDate, yearPart, monthDayPart. cbv zeta.
  destruct (isLeap _ && (_ =? 31 + 29 - 1)); [reflexivity|].
  destruct (daysBefore _ <=? _); reflexivity.
Qed.

(** Days since the absolute epoch, taken apart by cycles of 400, 100 and 4
    years; the last year of a 4-year cycle is the leap year, but for the
    last cycle of a century that does not end a 400-year cycle. *)
Lemma yearPart_cycles (n400 n100 n4 y3 yd : Z) :
  0 <= n400 → 0 <= n100 <= 3 → 0 <= n4 <= 24 → 0 <= y3 <= 3 →
  0 <= yd →
  yd < 365 + (if (y3 =? 3) && (negb (n4 =? 24) || (n100 =? 3)) then 1 else 0) →
  yearPart (146097 * n400 + 36524 * n100 + 1461 * n4 + 365 * y3 + yd)
  = (400 * n400 + 100 * n100 + 4 * n4 + y3, yd).
Proof.
  intros H400 H100 H4 H3 Hyd Hlt.
  assert (Hb : yd <= 364 ∨ (yd = 365 ∧ y3 = 3 ∧ (n4 <> 24 ∨ n100 = 3))).
  { destruct ((y3 =? 3) && (negb (n4 =? 24) || (n100 =? 3))) eqn:E; [|lia].
    destruct (Z.eq_dec yd 365) as [->|]; [right|lia].
    apply andb_prop in E as [E1 E2]. apply Z.eqb_eq in E1.
    apply orb_prop in E2 as [E2|E2].
    - apply negb_true_iff, Z.eqb_neq in E2. lia.
    - apply Z.eqb_eq in E2. lia. }
  clear Hlt.
  unfold yearPart, daysPer400Years, daysPer100Years, daysPer4Years.
  rewrite !Z.shiftr_div_pow2 by lia.
  change (365 * 400 + 97) with 146097. change (365 * 100 + 24) with 36524.
  change (365 * 4 + 1) with 1461. change (2 ^ 2) with 4.
  cbv zeta.
  set (d := 146097 * n400 + 36524 * n100 + 1461 * n4 + 365 * y3 + yd).
  assert (E1 : d / 146097 = n400)
    by (subst d; symmetry;
        apply (Z.div_unique _ _ _ (36524 * n100 + 1461 * n4 + 365 * y3 + yd)); lia).
  rewrite E1.
  replace (d - 146097 * n400) with (36524 * n100 + 1461 * n4 + 365 * y3 + yd)
    by (subst d; lia).
  clear E1 d. set (d := 36524 * n100 + 1461 * n4 + 365 * y3 + yd).
  assert (E2 : d / 36524 - d / 36524 / 4 = n100)
    by (subst d; Z.div_mod_to_equations; lia).
  rewrite E2.
  replace (d - 36524 * n100) with (1461 * n4 + 365 * y3 + yd) by (subst d; lia).
  clear E2 d. set (d := 1461 * n4 + 365 * y3 + yd).
  assert (E3 : d / 1461 = n4)
    by (subst d; symmetry; apply (Z.div_unique _ _ _ (365 * y3 + yd)); lia).
  rewrite E3.
  replace (d - 1461 * n4) with (365 * y3 + yd) by (subst d; lia).
  clear E3 d. set (d := 365 * y3 + yd).
  assert (E4 : d / 365 - d / 365 / 4 = y3)
    by (subst d; Z.div_mod_to_equations; lia).
  rewrite E4. f_equal; subst d; lia.
Qed.

(** A year of the common era in cycles. *)
Lemma year_cycles (year : Z) :
  0 <= year →
  ∃ n400 n100 n4 y3,
    0 <= n400 ∧ 0 <= n100 <= 3 ∧ 0 <= n4 <= 24 ∧ 0 <= y3 <= 3
    ∧ year - absoluteZeroYear = 400 * n400 + 100 * n100 + 4 * n4 + y3
    ∧ daysSinceEpoch year = 146097 * n400 + 36524 * n100 + 1461 * n4 + 365 * y3
    ∧ isLeap year = (y3 =? 3) && (negb (n4 =? 24) || (n100 =? 3)).
Proof.
  intros Hy. unfold daysSinceEpoch, isLeap.
  rewrite !Z.rem_mod_nonneg by lia.
  unfold daysPer400Years, daysPer100Years, daysPer4Years, absoluteZeroYear.
  change (365 * 400 + 97) with 146097. change (365 * 100 + 24) with 36524.
  change (365 * 4 + 1) with 1461.
  set (Y := year - -292277022399). cbv zeta.
  set (n400 := Y / 400). set (y1 := Y - 400 * n400).
  set (n100 := y1 / 100). set (y2 := y1 - 100 * n100).
  set (n4 := y2 / 4). set (y3 := y2 - 4 * n4).
  assert (H1 : 0 <= n400 ∧ 0 <= y1 < 400)
    by (subst y1 n400 Y; Z.div_mod_to_equations; lia).
  assert (H2 : 0 <= n100 <= 3 ∧ 0 <= y2 < 100)
    by (subst y2 n100; Z.div_mod_to_equations; lia).
  assert (H3 : 0 <= n4 <= 24 ∧ 0 <= y3 <= 3)
    by (subst y3 n4; Z.div_mod_to_equations; lia).
  exists n400, n100, n4, y3.
  split; [lia|]. split; [lia|]. split; [lia|]. split; [lia|].
  split; [subst y3 y2 y1; lia|]. split; [lia|].
  assert (E : year = 400 * (n400 - 730692556) + 100 * n100 + 4 * n4 + y3 + 1)
    by (subst y3 y2 y1 Y; lia).
  clearbody n400 n100 n4 y3. clear - E H1 H2 H3.
  assert (E4 : year mod 4 = (y3 + 1) mod 4).
  { rewrite E. replace (400 * (n400 - 730692556) + 100 * n100 + 4 * n4 + y3 + 1)
      with (y3 + 1 + (100 * (n400 - 730692556) + 25 * n100 + n4) * 4) by lia.
    apply Z.mod_add. lia. }
  assert (E100 : year mod 100 = (4 * n4 + y3 + 1) mod 100).
  { rewrite E. replace (400 * (n400 - 730692556) + 100 * n100 + 4 * n4 + y3 + 1)
      with (4 * n4 + y3 + 1 + (4 * (n400 - 730692556) + n100) * 100) by lia.
    apply Z.mod_add. lia. }
  assert (E400 : year mod 400 = (100 * n100 + 4 * n4 + y3 + 1) mod 400).
  { rewrite E. replace (400 * (n400 - 730692556) + 100 * n100 + 4 * n4 + y3 + 1)
      with (100 * n100 + 4 * n4 + y3 + 1 + (n400 - 730692556) * 400) by lia.
    apply Z.mod_add. lia. }
  rewrite E4, E100, E400. clear E E4 E100 E400.
  repeat match goal with
         | |- context [?a =? ?b] => destruct (Z.eqb_spec a b)
         end;
    cbn [andb orb negb]; try reflexivity; exfalso; Z.div_mod_to_equations; lia.
Qed.

(** Month and day of the month from the day of the year, for every date of
    a leap or common year. *)
Lemma monthDayPart_ydayOf (leap : bool) (m d : Z) :
  1 <= m <= 12 →
  1 <= d <= (if (m =? February) && leap then 29 else daysBefore m - daysBefore (m - 1)) →
  monthDayPart leap (ydayOf leap m d) = (m, d)
  ∧ 0 <= ydayOf leap m d < 365 + (if leap then 1 else 0).
Proof.
  intros Hm Hd.
  assert (Hm' : m = 1 ∨ m = 2 ∨ m = 3 ∨ m = 4 ∨ m = 5 ∨ m = 6 ∨ m = 7 ∨ m = 8
                ∨ m = 9 ∨ m = 10 ∨ m = 11 ∨ m = 12) by lia.
  clear Hm.
  destruct Hm' as [->|[->|[->|[->|[->|[->|[->|[->|[->|[->|[->| ->]]]]]]]]]]];
    destruct leap;
    match type of Hd with
    | _ <= _ <= ?l => let v := eval vm_compute in l in change l with v in Hd
    end;
    (assert (Hd' : In d (map Z.of_nat (seq 1 31)))
      by (apply in_map_iff; exists (Z.to_nat d); split; [lia|apply in_seq; lia]));
    cbn [seq map] in Hd';
    repeat (destruct Hd' as [<-|Hd'];
            [first [lia | vm_compute; split; [reflexivity|split; [discriminate|reflexivity]]]|]);
    contradiction.
Qed.

(** [absDate] gives back the date whose day count it is given, whatever the
    time of day. *)
Lemma absDate_civil (year m d secs : Z) :
  0 <= year → 1 <= m <= 12 → 1 <= d <= daysIn m year → 0 <= secs < secondsPerDay →
  absDate ((daysSinceEpoch year + ydayOf (isLeap year) m d) * secondsPerDay + secs)
  = (year, m, d, ydayOf (isLeap year) m d).
Proof.
  intros Hy Hm Hd Hs.
  destruct (monthDayPart_ydayOf (isLeap year) m d Hm Hd) as [Hmd Hyd].
  destruct (year_cycles year Hy) as (n400 & n100 & n4 & y3 & H400 & H100 & H4 & H3 & EY & ED & EL).
  rewrite absDate_split.
  replace (((daysSinceEpoch year + ydayOf (isLeap year) m d) * secondsPerDay + secs)
             / secondsPerDay)
    with (daysSinceEpoch year + ydayOf (isLeap year) m d)
    by (apply (Z.div_unique _ _ _ secs); unfold secondsPerDay in *; lia).
  rewrite ED, yearPart_cycles; try lia; [|rewrite <- EL; lia].
  rewrite <- EY. replace (year - absoluteZeroYear + absoluteZeroYear) with year by lia.
  cbv zeta. rewrite Hmd. reflexivity.
Qed.

Lemma absClock_civil (days h mi s : Z) :
  0 <= h < 24 → 0 <= mi < 60 → 0 <= s < 60 →
  absClock (days * secondsPerDay + (h * secondsPerHour + mi * secondsPerMinute + s))
  = (h, mi, s).
Proof.
  intros Hh Hm Hs. unfold absClock, secondsPerDay, secondsPerHour, secondsPerMinute.
  change (24 * (60 * 60)) with 86400. change (60 * 60) with 3600. cbv zeta.
  replace ((days * 86400 + (h * 3600 + mi * 60 + s)) mod 86400)
    with (h * 3600 + mi * 60 + s)
    by (apply (Z.mod_unique _ _ days); lia).
  replace ((h * 3600 + mi * 60 + s) / 3600) with h
    by (apply (Z.div_unique _ _ _ (mi * 60 + s)); lia).
  replace (h * 3600 + mi * 60 + s - h * 3600) with (mi * 60 + s) by lia.
  replace ((mi * 60 + s) / 60) with mi by (apply (Z.div_unique _ _ _ s); lia).
  f_equal. lia.
Qed.

(** ** What a pubDate that parses holds *)

Lemma norm_in_range (hi lo base : Z) : 0 <= lo < base → norm hi lo base = (hi, lo).
Proof.
  intros H. unfold norm.
  replace (lo <? 0) with false by (symmetry; apply Z.ltb_ge; lia).
  replace (base <=? lo) with false by (symmetry; apply Z.leb_gt; lia).
  reflexivity.
Qed.

Lemma Date_civil (year m d h mi s ns : Z) :
  1 <= m <= 12 → 0 <= h < 24 → 0 <= mi < 60 → 0 <= s < 60 → 0 <= ns < 1000000000 →
  Date year m d h mi s ns =
  mkTime ((daysSinceEpoch year + ydayOf (isLeap year) m d) * secondsPerDay
          + (h * secondsPerHour + mi * secondsPerMinute + s)
          + (absoluteToInternal + internalToUnix)) ns 0.
Proof.
  intros Hm Hh Hmi Hs Hns. unfold Date.
  rewrite (norm_in_range year (m - 1) 12) by lia.
  rewrite (norm_in_range s ns) by lia.
  rewrite (norm_in_range mi s) by lia.
  rewrite (norm_in_range h mi) by lia.
  rewrite (norm_in_range d h) by lia.
  replace (m - 1 + 1) with m by lia.
  unfold ydayOf. f_equal.
  destruct (isLeap year && (March <=? m)); lia.
Qed.
Lemma isDigitC_digitVal (c : ascii) : isDigitC c = true → 0 <= digitVal c <= 9.
Proof.
  unfold isDigitC, digitVal. intros H.
  apply andb_prop in H as [H1 H2]. apply Z.leb_le in H1, H2. lia.
Qed.

Lemma getnum_inv (s : string) (fixed : bool) (n : Z) (rest : string) :
  getnum s fixed = Some (n, rest) → 0 <= n <= 99.
Proof.
  unfold getnum, isDigit.
  destruct s as [|c0 s]; [discriminate|]. cbn [String.get].
  destruct (isDigitC c0) eqn:H0; [|discriminate]. cbn [negb].
  pose proof (isDigitC_digitVal c0 H0).
  destruct s as [|c1 s]; cbn [String.get negb].
  - destruct fixed; [discriminate|]. intros [= <- <-]. lia.
  - destruct (isDigitC c1) eqn:H1; cbn [negb].
    + pose proof (isDigitC_digitVal c1 H1). intros [= <- <-]. lia.
    + destruct fixed; [discriminate|]. intros [= <- <-]. lia.
Qed.

Lemma lookup_from_inv (tab : list string) (i m : Z) (val rest : string) :
  lookup_from i tab val = Some (m, rest) → i <= m < i + Z.of_nat (length tab).
Proof.
  revert i; induction tab as [|v tab IH]; intros i H; [discriminate H|].
  cbn [lookup_from] in H.
  destruct ((len v <=? len val) && match_ (take_s (String.length v) val) v).
  - injection H as <- <-. cbn [length]. lia.
  - apply IH in H. cbn [length]. lia.
Qed.
(** When [leadingInt] consumes the whole string, the string is all digits
    and the result extends the accumulator by one decimal place per byte. *)
Lemma leadingInt_from_all (s : string) (x q : Z) :
  0 <= x →
  leadingInt_from x s = Some (q, "") →
  all_digits s = true
  ∧ x * 10 ^ len s <= q < (x + 1) * 10 ^ len s.
Proof.
  revert x; induction s as [|c s IH]; intros x Hx H.
  - cbn in H. injection H as <-. split; [reflexivity|]. unfold len. cbn. lia.
  - cbn [leadingInt_from] in H.
    destruct (isDigitC c) eqn:Hc; cbn [negb] in H; [|discriminate H].
    destruct (2 ^ 63 / 10 <? x); [discriminate H|].
    destruct (2 ^ 63 <? x * 10 + digitVal c); [discriminate H|].
    pose proof (isDigitC_digitVal c Hc) as Hv.
    apply IH in H as [Hd Hq]; [|lia].
    split; [cbn; rewrite Hc, Hd; reflexivity|].
    unfold len in *. cbn [String.length]. rewrite Nat2Z.inj_succ, Z.pow_succ_r by lia.
    assert (0 < 10 ^ Z.of_nat (String.length s)) by (apply Z.pow_pos_nonneg; lia).
    nia.
Qed.

Lemma isDigitC_not_sign (c : ascii) :
  isDigitC c = true → Ascii.eqb c "-" = false ∧ Ascii.eqb c "+" = false.
Proof.
  intros H. split; apply Ascii.eqb_neq; intros ->; vm_compute in H; discriminate H.
Qed.

(** [atoi] of a string that starts with a digit: all digits, and a number
    below ten to the length. *)
Lemma atoi_digits_inv (c : ascii) (s : string) (y : Z) :
  isDigitC c = true →
  atoi (String c s) = Some y →
  all_digits (String c s) = true ∧ 0 <= y < 10 ^ len (String c s).
Proof.
  intros Hc H. unfold atoi in H. cbv beta iota in H.
  destruct (isDigitC_not_sign c Hc) as [E1 E2]. rewrite E1, E2 in H.
  unfold leadingInt in H.
  destruct (leadingInt_from 0 (String c s)) as [[q [|? ?]]|] eqn:E; try discriminate H.
  injection H as <-.
  apply leadingInt_from_all in E as [Hd Hq]; [|lia]. split; [exact Hd|lia].
Qed.
Lemma length_take_s (n : nat) (s : string) : (String.length (take_s n s) <= n)%nat.
Proof.
  revert s; induction n as [|n IH]; intros [|c s]; cbn; try lia.
  specialize (IH s). lia.
Qed.

(** *** What each chunk leaves in the fields when it parses *)

Lemma parseStd_LongYear_inv (f f1 : Fields) (v v1 : string) :
  parseStd stdLongYear f v = (f1, v1, "", false) →
  ∃ y, 0 <= y <= 9999 ∧ f1 = set_year f y.
Proof.
  cbn [parseStd]. unfold isDigit.
  destruct v as [|c v]; [cbn; discriminate|]. cbn [String.get].
  destruct (len (String c v) <? 4); [cbn; discriminate|].
  destruct (isDigitC c) eqn:Hc; [|cbn; discriminate]. cbn [orb negb].
  change (take_s 4 (String c v)) with (String c (take_s 3 v)).
  destruct (atoi (String c (take_s 3 v))) as [y|] eqn:E; [|discriminate].
  intros [= <- _]. exists y. split; [|reflexivity].
  apply atoi_digits_inv in E as [_ Hy]; [|exact Hc].
  assert (10 ^ len (String c (take_s 3 v)) <= 10 ^ 4).
  { apply Z.pow_le_mono_r; [lia|]. unfold len. cbn [String.length].
    pose proof (length_take_s 3 v). lia. }
  lia.
Qed.

Lemma parseStd_Month_inv (f f1 : Fields) (v v1 : string) :
  parseStd stdMonth f v = (f1, v1, "", false) →
  ∃ m, 1 <= m <= 12 ∧ f1 = set_month f m.
Proof.
  cbn [parseStd]. unfold lookup.
  destruct (lookup_from 0 shortMonthNames v) as [[m rest]|] eqn:E; [|discriminate].
  intros [= <- _]. apply lookup_from_inv in E. cbn [length shortMonthNames] in E.
  exists (m + 1). split; [lia|reflexivity].
Qed.

Lemma parseStd_ZeroMonth_inv (f f1 : Fields) (v v1 : string) :
  parseStd stdZeroMonth f v = (f1, v1, "", false) →
  ∃ m, 1 <= m <= 12 ∧ f1 = set_month f m.
Proof.
  cbn [parseStd].
  destruct (getnum v true) as [[m rest]|] eqn:E; [|discriminate].
  destruct (Z.leb_spec m 0); [cbn; discriminate|].
  destruct (Z.ltb_spec 12 m); [cbn; discriminate|]. cbn [orb].
  intros [= <- _]. exists m. split; [lia|reflexivity].
Qed.

Lemma parseStd_ZeroDay_inv (f f1 : Fields) (v v1 : string) :
  parseStd stdZeroDay f v = (f1, v1, "", false) →
  ∃ d, 0 <= d <= 99 ∧ f1 = set_day f d.
Proof.
  cbn [parseStd].
  destruct (getnum v true) as [[d rest]|] eqn:E; [|discriminate].
  intros [= <- _]. exists d. split; [eapply getnum_inv; exact E|reflexivity].
Qed.

Lemma parseStd_Hour_inv (f f1 : Fields) (v v1 : string) :
  parseStd stdHour f v = (f1, v1, "", false) →
  ∃ h, 0 <= h <= 23 ∧ f1 = set_hour f h.
Proof.
  cbn [parseStd].
  destruct (getnum v false) as [[h rest]|] eqn:E; [|discriminate].
  apply getnum_inv in E.
  destruct (Z.ltb_spec h 0); [cbn; discriminate|].
  destruct (Z.leb_spec 24 h); [cbn; discriminate|]. cbn [orb].
  intros [= <- _]. exists h. split; [lia|reflexivity].
Qed.

Lemma parseStd_ZeroMinute_inv (f f1 : Fields) (v v1 : string) :
  parseStd stdZeroMinute f v = (f1, v1, "", false) →
  ∃ mi, 0 <= mi <= 59 ∧ f1 = set_min f mi.
Proof.
  cbn [parseStd].
  destruct (getnum v true) as [[mi rest]|] eqn:E; [|discriminate].
  apply getnum_inv in E.
  destruct (Z.ltb_spec mi 0); [cbn; discriminate|].
  destruct (Z.leb_spec 60 mi); [cbn; discriminate|]. cbn [orb].
  intros [= <- _]. exists mi. split; [lia|reflexivity].
Qed.

(** A numeric zone that parses is a whole number of minutes, at most 24
    hours and 60 minutes either way. *)
Lemma parseNumTZ_inv (colon : bool) (f f1 : Fields) (v v1 : string) :
  parseNumTZ colon f v = (f1, v1, "", false) →
  ∃ hr mm, 0 <= hr <= 24 ∧ 0 <= mm <= 60
           ∧ (f1 = set_zoneOffset f ((hr * 60 + mm) * 60)
              ∨ f1 = set_zoneOffset f (- ((hr * 60 + mm) * 60))).
Proof.
  unfold parseNumTZ.
  destruct (len v <? _); [discriminate|].
  destruct (colon && negb _); [discriminate|].
  change (getnum "00" true) with (Some (0, "")).
  destruct (getnum (take_s 2 (drop_s 1 v)) true) as [[hr r1]|] eqn:Eh;
    cbv beta iota zeta.
  2:{ destruct (take_s 1 v) as [|c ?]; [discriminate|].
      destruct (Ascii.eqb c "+"); [discriminate|].
      destruct (Ascii.eqb c "-"); discriminate. }
  destruct (getnum (take_s 2 (drop_s (if colon then 4%nat else 3%nat) v)) true)
    as [[mm r2]|] eqn:Em;
    cbv beta iota zeta.
  2:{ destruct (take_s 1 v) as [|c ?]; [discriminate|].
      destruct (Ascii.eqb c "+"); [discriminate|].
      destruct (Ascii.eqb c "-"); discriminate. }
  apply getnum_inv in Eh, Em.
  change (60 <? 0) with false. cbv iota.
  destruct (take_s 1 v) as [|c ?]; [discriminate|].
  destruct (Z.ltb_spec 60 mm).
  { destruct (Ascii.eqb c "+"); [discriminate|].
    destruct (Ascii.eqb c "-"); discriminate. }
  destruct (Z.ltb_spec 24 hr).
  { destruct (Ascii.eqb c "+"); [discriminate|].
    destruct (Ascii.eqb c "-"); discriminate. }
  destruct (Ascii.eqb c "+").
  { intros [= <- _]. exists hr, mm. split; [lia|]. split; [lia|]. left.
    f_equal. lia. }
  destruct (Ascii.eqb c "-"); [|discriminate].
  intros [= <- _]. exists hr, mm. split; [lia|]. split; [lia|]. right.
  f_equal. lia.
Qed.

Lemma parseChunks_cons_inr (l : Layout) (av : string) (c : Chunk) (cs : list Chunk)
    (f f' : Fields) (v : string) :
  parseChunks l av (c :: cs) f v = inr f' →
  ∃ hold f1 v1,
    skip v (prefix c) = Some hold
    ∧ parseStd (std c) f hold = (f1, v1, "", false)
    ∧ parseChunks l av cs f1 v1 = inr f'.
Proof.
  cbn [parseChunks]. destruct (skip v (prefix c)) as [hold|] eqn:Es; [|discriminate].
  destruct (parseStd (std c) f hold) as [[[f1 v1] range] err] eqn:Ep.
  destruct (String.eqb_spec range ""); cbn [negb]; [|discriminate].
  destruct err; [discriminate|]. intros H. subst range.
  exists hold, f1, v1. split; [reflexivity|]. split; [exact Ep|exact H].
Qed.

Lemma parseChunks_nil_inr (l : Layout) (av : string) (f f' : Fields) (v : string) :
  parseChunks l av [] f v = inr f' → f' = f.
Proof.
  cbn [parseChunks]. destruct (skip v (suffix l)) as [rest|]; [|discriminate].
  destruct (negb (len rest =? 0)); [discriminate|]. intros [= <-]. reflexivity.
Qed.

(** A pubDate that parses under the source layout names a day of the
    calendar in the years 0 to 9999, a minute of that day, and an offset of
    whole minutes of at most 24 hours and 60 minutes; the time parsed is the
    one at which a clock at that offset reads that date and minute. *)
Lemma Parse_source_inv (s : string) (t : Time) :
  Parse sourceLayout s = inr t →
  ∃ y m d h mi hr mm off,
    0 <= y <= 9999 ∧ 1 <= m <= 12 ∧ 1 <= d <= daysIn m y
    ∧ 0 <= h <= 23 ∧ 0 <= mi <= 59
    ∧ 0 <= hr <= 24 ∧ 0 <= mm <= 60
    ∧ (off = (hr * 60 + mm) * 60 ∨ off = - ((hr * 60 + mm) * 60))
    ∧ t = civilTime y m d h mi 0 off.
Proof.
  unfold Parse. destruct (parseChunks _ _ _ _ _) as [e|f] eqn:E; [discriminate|].
  cbn [sourceLayout chunks] in E.
  apply parseChunks_cons_inr in E as (? & f1 & v1 & _ & Hd & E). cbn [std] in Hd.
  apply parseChunks_cons_inr in E as (? & f2 & v2 & _ & Hm & E). cbn [std] in Hm.
  apply parseChunks_cons_inr in E as (? & f3 & v3 & _ & Hy & E). cbn [std] in Hy.
  apply parseChunks_cons_inr in E as (? & f4 & v4 & _ & Hh & E). cbn [std] in Hh.
  apply parseChunks_cons_inr in E as (? & f5 & v5 & _ & Hmi & E). cbn [std] in Hmi.
  apply parseChunks_cons_inr in E as (? & f6 & v6 & _ & Hz & E). cbn [std] in Hz.
  apply parseChunks_nil_inr in E. subst f.
  apply parseStd_ZeroDay_inv in Hd as (d & Hd & ->).
  apply parseStd_Month_inv in Hm as (m & Hm & ->).
  apply parseStd_LongYear_inv in Hy as (y & Hy & ->).
  apply parseStd_Hour_inv in Hh as (h & Hh & ->).
  apply parseStd_ZeroMinute_inv in Hmi as (mi & Hmi & ->).
  cbn [parseStd] in Hz. apply parseNumTZ_inv in Hz as (hr & mm & Hhr & Hmm & Hz).
  assert (Hf : ∃ off, (off = (hr * 60 + mm) * 60 ∨ off = - ((hr * 60 + mm) * 60))
             ∧ f6 = set_zoneOffset
                      (set_min (set_hour (set_year (set_month (set_day initFields d) m) y) h) mi)
                      off).
  { destruct Hz as [->| ->]; eexists; (split; [|reflexivity]); [left|right]; reflexivity. }
  destruct Hf as (off & Hoff & ->). clear Hz.
  cbn [f_month f_day f_year f_hour f_min f_sec f_nsec f_zoneOffset
       set_zoneOffset set_min set_hour set_year set_month set_day initFields].
  replace (m <? 0) with false by (symmetry; apply Z.ltb_ge; lia).
  replace (d <? 0) with false by (symmetry; apply Z.ltb_ge; lia).
  destruct (Z.ltb_spec d 1); [discriminate|].
  destruct (Z.ltb_spec (daysIn m y) d); [discriminate|]. cbn [orb].
  replace (off =? -1) with false by (symmetry; apply Z.eqb_neq; lia).
  cbn [negb]. intros [= <-].
  exists y, m, d, h, mi, hr, mm, off.
  do 7 (split; [lia|]). split; [exact Hoff|].
  rewrite Date_civil by lia. unfold civilTime, setLoc, addSec.
  cbn [unixSec nsecOf offsetOf]. reflexivity.
Qed.

(** ** Formatting a calendar time *)

(** Under the target layout a time reads as its date, its time of day and
    its offset. *)
Lemma Format_civil (y m d h mi s off : Z) :
  0 <= y → 1 <= m <= 12 → 1 <= d <= daysIn m y →
  0 <= h <= 23 → 0 <= mi <= 59 → 0 <= s <= 59 →
  Format (civilTime y m d h mi s off) targetLayout = target_string y m d h mi s off.
Proof.
  intros Hy Hm Hd Hh Hmi Hs. rewrite Format_target.
  unfold locabs, civilTime. cbn [unixSec offsetOf snd].
  replace ((daysSinceEpoch y + ydayOf (isLeap y) m d) * secondsPerDay
           + (h * secondsPerHour + mi * secondsPerMinute + s)
           + (absoluteToInternal + internalToUnix) - off + off
           + (unixToInternal + internalToAbsolute))
    with ((daysSinceEpoch y + ydayOf (isLeap y) m d) * secondsPerDay
          + (h * secondsPerHour + mi * secondsPerMinute + s))
    by (unfold internalToUnix, internalToAbsolute; lia).
  rewrite absDate_civil, absClock_civil; try lia; [reflexivity|].
  unfold secondsPerDay, secondsPerHour, secondsPerMinute. lia.
Qed.

(** ** Parsing the text of the target layout *)

Lemma twoDigits_append (n : Z) (rest : string) :
  (twoDigits n +:+ rest) = String (digit_char (n / 10)) (String (digit_char (n mod 10)) rest).
Proof. reflexivity. Qed.

Lemma tens_units (n : Z) : 0 <= n < 100 → 0 <= n / 10 <= 9 ∧ 0 <= n mod 10 <= 9.
Proof. intros H. Z.div_mod_to_equations. lia. Qed.

Lemma getnum_twoDigits (n : Z) (rest : string) (fixed : bool) :
  0 <= n < 100 → getnum (twoDigits n +:+ rest) fixed = Some (n, rest).
Proof.
  intros H. destruct (tens_units n H) as [Ht Hu].
  rewrite twoDigits_append. unfold getnum, isDigit. cbn [String.get].
  rewrite !isDigitC_digit_char by assumption. cbn [negb].
  rewrite !digitVal_digit_char by assumption.
  do 2 f_equal. Z.div_mod_to_equations. lia.
Qed.

Lemma appendInt_2 (n : Z) : 0 <= n < 100 → appendInt n 2 = twoDigits n.
Proof.
  intros H. unfold appendInt.
  replace (n <? 0) with false by (symmetry; apply Z.ltb_ge; lia).
  rewrite Z.abs_eq by lia.
  replace (Z.abs n <? 100) with true by (symmetry; apply Z.ltb_lt; lia).
  replace (n <? 100) with true by (symmetry; apply Z.ltb_lt; lia).
  reflexivity.
Qed.

Lemma appendInt_4 (n : Z) :
  0 <= n < 10000 → appendInt n 4 = (twoDigits (n / 100) +:+ twoDigits (n mod 100)).
Proof.
  intros H. unfold appendInt.
  replace (n <? 0) with false by (symmetry; apply Z.ltb_ge; lia).
  rewrite Z.abs_eq by lia.
  replace (n <? 10000) with true by (symmetry; apply Z.ltb_lt; lia).
  reflexivity.
Qed.

Lemma leadingInt_from_digit (x d : Z) (s : string) :
  0 <= x <= 100000 → 0 <= d <= 9 →
  leadingInt_from x (String (digit_char d) s) = leadingInt_from (x * 10 + d) s.
Proof.
  intros Hx Hd. cbn [leadingInt_from].
  rewrite isDigitC_digit_char, digitVal_digit_char by exact Hd. cbn [negb].
  change (2 ^ 63 / 10) with 922337203685477580.
  change (2 ^ 63) with 9223372036854775808.
  replace (922337203685477580 <? x) with false by (symmetry; apply Z.ltb_ge; lia).
  replace (9223372036854775808 <? x * 10 + d) with false
    by (symmetry; apply Z.ltb_ge; lia).
  reflexivity.
Qed.

Lemma parseStd_LongYear_appendInt (f : Fields) (y : Z) (rest : string) :
  0 <= y <= 9999 →
  parseStd stdLongYear f (appendInt y 4 +:+ rest) = (set_year f y, rest, "", false).
Proof.
  intros Hy. rewrite appendInt_4 by lia.
  assert (H1 : 0 <= y / 100 < 100) by (Z.div_mod_to_equations; lia).
  assert (H2 : 0 <= y mod 100 < 100) by (Z.div_mod_to_equations; lia).
  destruct (tens_units _ H1) as [Ha Hb]. destruct (tens_units _ H2) as [Hc Hd].
  rewrite append_assoc, !twoDigits_append.
  cbn [parseStd]. unfold isDigit. cbn [String.get].
  rewrite (isDigitC_digit_char _ Ha).
  replace (len _ <? 4) with false
    by (symmetry; apply Z.ltb_ge; unfold len; cbn [String.length]; lia).
  cbn [orb negb take_s drop_s].
  unfold atoi.
  destruct (isDigitC_not_sign _ (isDigitC_digit_char _ Ha)) as [-> ->].
  unfold leadingInt.
  rewrite !leadingInt_from_digit by lia. cbn [leadingInt_from].
  do 3 f_equal. unfold set_year. f_equal. Z.div_mod_to_equations. lia.
Qed.

Lemma parseStd_ZeroMonth_appendInt (f : Fields) (m : Z) (rest : string) :
  1 <= m <= 12 →
  parseStd stdZeroMonth f (appendInt m 2 +:+ rest) = (set_month f m, rest, "", false).
Proof.
  intros H. rewrite appendInt_2 by lia. cbn [parseStd].
  rewrite getnum_twoDigits by lia.
  replace (m <=? 0) with false by (symmetry; apply Z.leb_gt; lia).
  replace (12 <? m) with false by (symmetry; apply Z.ltb_ge; lia).
  reflexivity.
Qed.

Lemma parseStd_ZeroDay_appendInt (f : Fields) (d : Z) (rest : string) :
  0 <= d <= 99 →
  parseStd stdZeroDay f (appendInt d 2 +:+ rest) = (set_day f d, rest, "", false).
Proof.
  intros H. rewrite appendInt_2 by lia. cbn [parseStd].
  rewrite getnum_twoDigits by lia. reflexivity.
Qed.

Lemma parseStd_Hour_appendInt (f : Fields) (h : Z) (rest : string) :
  0 <= h <= 23 →
  parseStd stdHour f (appendInt h 2 +:+ rest) = (set_hour f h, rest, "", false).
Proof.
  intros H. rewrite appendInt_2 by lia. cbn [parseStd].
  rewrite getnum_twoDigits by lia.
  replace (h <? 0) with false by (symmetry; apply Z.ltb_ge; lia).
  replace (24 <=? h) with false by (symmetry; apply Z.leb_gt; lia).
  reflexivity.
Qed.

Lemma parseStd_ZeroMinute_appendInt (f : Fields) (mi : Z) (rest : string) :
  0 <= mi <= 59 →
  parseStd stdZeroMinute f (appendInt mi 2 +:+ rest) = (set_min f mi, rest, "", false).
Proof.
  intros H. rewrite appendInt_2 by lia. cbn [parseStd].
  rewrite getnum_twoDigits by lia.
  replace (mi <? 0) with false by (symmetry; apply Z.ltb_ge; lia).
  replace (60 <=? mi) with false by (symmetry; apply Z.leb_gt; lia).
  reflexivity.
Qed.

(** Seconds followed by something other than a comma or period. *)
Lemma parseStd_ZeroSecond_appendInt (f : Fields) (s : Z) (c : ascii) (rest : string) :
  0 <= s <= 59 → commaOrPeriod c = false →
  parseStd stdZeroSecond f (appendInt s 2 +:+ String c rest)
  = (set_sec f s, String c rest, "", false).
Proof.
  intros H Hc. rewrite appendInt_2 by lia. cbn [parseStd].
  rewrite getnum_twoDigits by lia.
  replace (s <? 0) with false by (symmetry; apply Z.ltb_ge; lia).
  replace (60 <=? s) with false by (symmetry; apply Z.leb_gt; lia).
  cbn [orb]. rewrite Hc, andb_false_r. reflexivity.
Qed.

(** The numeric zone of the target layout for an offset of whole minutes
    below 25 hours: sign, hours, colon, minutes. *)
Lemma formatNumTZ_minutes (zm off : Z) :
  0 <= zm < 1500 → off = zm * 60 ∨ off = - (zm * 60) →
  formatNumTZ true off =
  String (if off <? 0 then "-"%char else "+"%char)
    (twoDigits (zm / 60) +:+ String ":" (twoDigits (zm mod 60))).
Proof.
  intros Hz Hoff. unfold formatNumTZ.
  assert (H1 : 0 <= zm / 60 < 100) by (Z.div_mod_to_equations; lia).
  assert (H2 : 0 <= zm mod 60 < 100) by (Z.div_mod_to_equations; lia).
  assert (Hq : Z.quot off 60 = zm ∧ 0 <= off ∨ Z.quot off 60 = - zm ∧ off < 0).
  { destruct Hoff as [->| ->].
    - left. rewrite Z.quot_mul by lia. lia.
    - destruct (Z.eq_dec zm 0) as [->|]; [left; split; [reflexivity|lia]|].
      right. rewrite <- Z.mul_opp_l, Z.quot_mul by lia. lia. }
  destruct Hq as [[-> Hs]|[-> Hs]].
  - replace (zm <? 0) with false by (symmetry; apply Z.ltb_ge; lia).
    replace (off <? 0) with false by (symmetry; apply Z.ltb_ge; lia).
    rewrite Z.quot_div_nonneg, Z.rem_mod_nonneg by lia.
    rewrite !appendInt_2 by lia. reflexivity.
  - replace (- zm <? 0) with true by (symmetry; apply Z.ltb_lt; lia).
    replace (off <? 0) with true by (symmetry; apply Z.ltb_lt; lia).
    rewrite Z.opp_involutive.
    rewrite Z.quot_div_nonneg, Z.rem_mod_nonneg by lia.
    rewrite !appendInt_2 by lia. reflexivity.
Qed.

Lemma parseNumTZ_minutes (f : Fields) (zm off : Z) :
  0 <= zm < 1500 → off = zm * 60 ∨ off = - (zm * 60) →
  parseNumTZ true f
    (String (if off <? 0 then "-"%char else "+"%char)
       (twoDigits (zm / 60) +:+ String ":" (twoDigits (zm mod 60))))
  = (set_zoneOffset f off, "", "", false).
Proof.
  intros Hz Hoff.
  assert (H1 : 0 <= zm / 60 <= 24) by (Z.div_mod_to_equations; lia).
  assert (H2 : 0 <= zm mod 60 < 60) by (Z.div_mod_to_equations; lia).
  rewrite twoDigits_append.
  change (String ":" (twoDigits (zm mod 60)))
    with (String ":" (twoDigits (zm mod 60) +:+ "")).
  rewrite twoDigits_append.
  unfold parseNumTZ.
  replace (len _ <? Z.of_nat 6) with false by reflexivity.
  cbn [String.get Ascii.eqb Bool.eqb negb andb take_s drop_s].
  change (String (digit_char (zm / 60 / 10)) (String (digit_char ((zm / 60) mod 10)) ""))
    with (twoDigits (zm / 60) +:+ "").
  change (String (digit_char (zm mod 60 / 10)) (String (digit_char ((zm mod 60) mod 10)) ""))
    with (twoDigits (zm mod 60) +:+ "").
  rewrite !getnum_twoDigits by lia.
  change (getnum "00" true) with (Some (0, "")).
  cbv beta iota zeta.
  replace (24 <? zm / 60) with false by (symmetry; apply Z.ltb_ge; lia).
  replace (60 <? zm mod 60) with false by (symmetry; apply Z.ltb_ge; lia).
  change (60 <? 0) with false. cbv iota.
  assert (Hzm : (zm / 60 * 60 + zm mod 60) * 60 + 0 = zm * 60)
    by (Z.div_mod_to_equations; lia).
  destruct (Z.ltb_spec off 0).
  - cbn [Ascii.eqb Bool.eqb]. rewrite Hzm. do 3 f_equal. f_equal. lia.
  - cbn [Ascii.eqb Bool.eqb]. rewrite Hzm. do 3 f_equal. f_equal. lia.
Qed.

(** The numeric zone that [Format] writes parses back to the offset. *)
Lemma parseNumTZ_formatNumTZ (f : Fields) (zm off : Z) :
  0 <= zm < 1500 → off = zm * 60 ∨ off = - (zm * 60) →
  parseNumTZ true f (formatNumTZ true off) = (set_zoneOffset f off, "", "", false).
Proof.
  intros Hz Hoff. rewrite (formatNumTZ_minutes zm off Hz Hoff).
  apply parseNumTZ_minutes; assumption.
Qed.

(** The text of the target layout for a date of the years 0 to 9999, a time
    of day and an offset of whole minutes below 25 hours parses, under the
    target layout, to the time it was written for. *)
Lemma Parse_target_string (y m d h mi s zm off : Z) :
  0 <= y <= 9999 → 1 <= m <= 12 → 1 <= d <= daysIn m y →
  0 <= h <= 23 → 0 <= mi <= 59 → 0 <= s <= 59 →
  0 <= zm < 1500 → off = zm * 60 ∨ off = - (zm * 60) →
  Parse targetLayout (target_string y m d h mi s off)
  = inr (civilTime y m d h mi s off).
Proof.
  intros Hy Hm Hd Hh Hmi Hs Hz Hoff.
  assert (Hd99 : d <= 99).
  { assert (daysIn m y <= 31); [|lia].
    assert (Hm' : m = 1 ∨ m = 2 ∨ m = 3 ∨ m = 4 ∨ m = 5 ∨ m = 6 ∨ m = 7 ∨ m = 8
                  ∨ m = 9 ∨ m = 10 ∨ m = 11 ∨ m = 12) by lia.
    unfold daysIn.
    destruct Hm' as [->|[->|[->|[->|[->|[->|[->|[->|[->|[->|[->| ->]]]]]]]]]]];
      destruct (isLeap y); vm_compute; discriminate. }
  unfold Parse, target_string.
  rewrite (formatNumTZ_minutes zm off Hz Hoff).
  cbn [targetLayout chunks parseChunks prefix std stdstr layoutText suffix].
  change (skip (appendInt y 4 +:+ ?r) "") with (Some (appendInt y 4 +:+ r)).
  cbv beta iota.
  rewrite parseStd_LongYear_appendInt by lia. cbn [String.eqb negb].
  change (skip (String "-" ?r) "-") with (Some r). cbv beta iota.
  rewrite parseStd_ZeroMonth_appendInt by lia. cbn [String.eqb negb].
  change (skip (String "-" ?r) "-") with (Some r). cbv beta iota.
  rewrite parseStd_ZeroDay_appendInt by lia. cbn [String.eqb negb].
  change (skip (String "T" ?r) "T") with (Some r). cbv beta iota.
  rewrite parseStd_Hour_appendInt by lia. cbn [String.eqb negb].
  change (skip (String ":" ?r) ":") with (Some r). cbv beta iota.
  rewrite parseStd_ZeroMinute_appendInt by lia. cbn [String.eqb negb].
  change (skip (String ":" ?r) ":") with (Some r). cbv beta iota.
  rewrite parseStd_ZeroSecond_appendInt;
    [|lia|destruct (off <? 0); reflexivity].
  cbn [String.eqb negb parseStd].
  change (skip (String ?c ?r) "") with (Some (String c r)). cbv beta iota.
  rewrite (parseNumTZ_minutes _ zm off Hz Hoff).
  cbn [String.eqb negb]. change (skip "" "") with (Some ""). cbv beta iota.
  change (len "" =? 0) with true. cbn [negb].
  cbn [f_month f_day f_year f_hour f_min f_sec f_nsec f_zoneOffset
       set_zoneOffset set_sec set_min set_hour set_year set_month set_day initFields].
  replace (m <? 0) with false by (symmetry; apply Z.ltb_ge; lia).
  replace (d <? 0) with false by (symmetry; apply Z.ltb_ge; lia).
  replace (d <? 1) with false by (symmetry; apply Z.ltb_ge; lia).
  replace (daysIn m y <? d) with false by (symmetry; apply Z.ltb_ge; lia).
  replace (off =? -1) with false by (symmetry; apply Z.eqb_neq; lia).
  cbn [orb negb]. rewrite Date_civil by lia. reflexivity.
Qed.

(** ** The rewritten pubDate *)

(** C1, as the code has it: when an item's pubDate parses under the source
    layout, the loop replaces it by the text [YYYY-MM-DDThh:mm:00+hh:mm] (or
    with [-]) of a date of the years 0 to 9999, a minute of the day and the
    parsed offset, the seconds being 00.  Unless the offset is 24 hours and
    60 minutes east or west, that text parses under the target layout, and
    to the very time the pubDate parsed to: the same instant at the same
    offset. *)
Theorem rewritten_pubDate_same_instant (it : item) (t : Time) :
  Parse sourceLayout (item_PubDate it) = inr t →
  rewrite_item it = inr (set_PubDate it (Format t targetLayout))
  ∧ (∃ y m d h mi,
       0 <= y <= 9999 ∧ 1 <= m <= 12 ∧ 1 <= d <= daysIn m y
       ∧ 0 <= h <= 23 ∧ 0 <= mi <= 59
       ∧ Format t targetLayout =
           (appendInt y 4 +:+ "-" +:+ appendInt m 2 +:+ "-" +:+ appendInt d 2 +:+ "T"
            +:+ appendInt h 2 +:+ ":" +:+ appendInt mi 2 +:+ ":00"
            +:+ formatNumTZ true (offsetOf t)))
  ∧ (Z.abs (offsetOf t) ≠ 90000 →
     Parse targetLayout (Format t targetLayout) = inr t).
Proof.
  intros H. split; [unfold rewrite_item; rewrite H; reflexivity|].
  apply Parse_source_inv in H
    as (y & m & d & h & mi & hr & mm & off & Hy & Hm & Hd & Hh & Hmi & Hhr & Hmm & Hoff & ->).
  rewrite Format_civil by lia. split.
  - exists y, m, d, h, mi. do 5 (split; [lia|]). reflexivity.
  - cbn [civilTime offsetOf]. intros Hne.
    apply (Parse_target_string y m d h mi 0 (hr * 60 + mm) off); lia.
Qed.

Lemma rewritten_pubDate_same_instant_witness :
  rewrite_item (Samples.post "15 Aug 2024 23:59 -0500")
    = inr (set_PubDate (Samples.post "15 Aug 2024 23:59 -0500")
             (Format (mkTime 1723784340 0 (-18000)) targetLayout))
  ∧ (∃ y m d h mi,
       0 <= y <= 9999 ∧ 1 <= m <= 12 ∧ 1 <= d <= daysIn m y
       ∧ 0 <= h <= 23 ∧ 0 <= mi <= 59
       ∧ Format (mkTime 1723784340 0 (-18000)) targetLayout =
           (appendInt y 4 +:+ "-" +:+ appendInt m 2 +:+ "-" +:+ appendInt d 2 +:+ "T"
            +:+ appendInt h 2 +:+ ":" +:+ appendInt mi 2 +:+ ":00"
            +:+ formatNumTZ true (offsetOf (mkTime 1723784340 0 (-18000)))))
  ∧ (Z.abs (offsetOf (mkTime 1723784340 0 (-18000))) ≠ 90000 →
     Parse targetLayout (Format (mkTime 1723784340 0 (-18000)) targetLayout)
     = inr (mkTime 1723784340 0 (-18000))).
Proof.
  apply (rewritten_pubDate_same_instant (Samples.post "15 Aug 2024 23:59 -0500")
           (mkTime 1723784340 0 (-18000))).
  vm_compute. reflexivity.
Defined.

(** The claim as stated fails at the offset [+2460], which the source
    layout's parse admits (hours up to 24, minutes up to 60): the rewritten
    pubDate carries [+25:00], which the target layout's parse refuses. *)
Lemma rewritten_pubDate_counterexample :
  ∃ t e,
    Parse sourceLayout "02 Jan 2025 09:15 +2460" = inr t
    ∧ Format t targetLayout = "2025-01-02T09:15:00+25:00"
    ∧ Parse targetLayout (Format t targetLayout) = inl e.
Proof.
  eexists. eexists. split; [vm_compute; reflexivity|].
  split; vm_compute; reflexivity.
Qed.
(** ** Further properties of main *)

(** X1: when the GET fails in transport the run exits with code 1 and the
    download diagnostic that carries the error; nothing is decoded, no file
    is created, the files are as before. *)
Theorem transport_error_is_fatal (w : World) (fs : gmap string (list Node))
    (url path err : string) :
  environ w !! "INPUT_URL" = Some url →
  environ w !! "INPUT_PATH" = Some path →
  network w url = HttpError err →
  run w fs =
    (1, fs,
     [LookupEnv "INPUT_URL"; LookupEnv "INPUT_PATH"; Get url;
      Fatal "Failed to download the RSS feed: %v" [ArgError (ErrTransport err)];
      Exit 1]).
Proof.
  intros Hu Hp Hn. rewrite run_cases, Hu, Hp, Hn. reflexivity.
Qed.

Lemma transport_error_is_fatal_witness :
  run Samples.offline Samples.old_file =
    (1, Samples.old_file,
     [LookupEnv "INPUT_URL"; LookupEnv "INPUT_PATH"; Get "https://bsky.example/feed";
      Fatal "Failed to download the RSS feed: %v"
        [ArgError (ErrTransport "dial tcp: no route to host")];
      Exit 1]).
Proof.
  apply (transport_error_is_fatal Samples.offline Samples.old_file
           "https://bsky.example/feed" "feed.xml" "dial tcp: no route to host").
  - vm_compute. reflexivity.
  - vm_compute. reflexivity.
  - reflexivity.
Defined.

(** A body with no element, or whose first element is not an [rss], does
    not decode: the decoder reaches the end, or that element, or before
    either a declaration it refuses. *)
Lemma Decode_without_rss_root (r : rss) (body : list Node) :
  (∀ name attr children,
     first_element body = Some (name, attr, children) → Local name ≠ "rss") →
  ∃ err, Decode r body = inl err.
Proof.
  induction body as [|n body IH]; intros Hroot; [eexists; reflexivity|].
  destruct n as [name attr cs| | |target inst|]; cbn [Decode first_element] in *;
    try (apply IH; exact Hroot).
  - unfold unmarshal_rss.
    destruct (String.eqb_spec (Local name) "rss") as [Heq|Hne].
    + exfalso. exact (Hroot _ _ _ eq_refl Heq).
    + cbn [negb]. eexists. reflexivity.
  - destruct (declaration_error target inst) as [err|]; [eexists; reflexivity|].
    apply IH; exact Hroot.
Qed.

(** X2: the body decodes exactly when it has an element and the first one
    has the local name [rss], in whatever name space; a 200 response whose
    body does not decode ends the run with code 1 and the feed-parse
    diagnostic, before any date is parsed or file created. *)
Theorem undecodable_body_is_fatal (w : World) (fs : gmap string (list Node))
    (url path : string) (body : list Node) :
  environ w !! "INPUT_URL" = Some url →
  environ w !! "INPUT_PATH" = Some path →
  network w url = HttpResponse 200 body →
  (∀ name attr children,
     first_element body = Some (name, attr, children) → Local name ≠ "rss") →
  ∃ err,
    Decode zero_rss body = inl err
    ∧ run w fs =
        (1, fs,
         [LookupEnv "INPUT_URL"; LookupEnv "INPUT_PATH"; Get url;
          Fatal "Failed to parse the RSS feed: %v" [ArgError (ErrDecode err)];
          Exit 1]).
Proof.
  intros Hu Hp Hn Hroot.
  assert (Hd : ∃ err, Decode zero_rss body = inl err)
    by (apply Decode_without_rss_root; exact Hroot).
  destruct Hd as [err Hd]. exists err. split; [exact Hd|].
  rewrite run_cases, Hu, Hp, Hn, Hd. reflexivity.
Qed.

Lemma undecodable_body_is_fatal_witness :
  ∃ err,
    Decode zero_rss Samples.html_body = inl err
    ∧ run (mkWorld Samples.both_inputs (λ _, HttpResponse 200 Samples.html_body)
             (λ _, None) (λ _, None)) Samples.old_file =
        (1, Samples.old_file,
         [LookupEnv "INPUT_URL"; LookupEnv "INPUT_PATH"; Get "https://bsky.example/feed";
          Fatal "Failed to parse the RSS feed: %v" [ArgError (ErrDecode err)];
          Exit 1]).
Proof.
  apply (undecodable_body_is_fatal
           (mkWorld Samples.both_inputs (λ _, HttpResponse 200 Samples.html_body)
              (λ _, None) (λ _, None))
           Samples.old_file "https://bsky.example/feed" "feed.xml" Samples.html_body).
  - vm_compute. reflexivity.
  - vm_compute. reflexivity.
  - reflexivity.
  - intros name attr children H. injection H as <- _ _. discriminate.
Defined.

(** X3: when the file cannot be created the run exits with code 1 and the
    create diagnostic; the feed was downloaded and every date parsed, but
    nothing is written and the files are as before. *)
Theorem create_error_is_fatal (w : World) (fs : gmap string (list Node))
    (url path : string) (body : list Node) (r : rss) (items' : list item)
    (err : string) :
  environ w !! "INPUT_URL" = Some url →
  environ w !! "INPUT_PATH" = Some path →
  network w url = HttpResponse 200 body →
  Decode zero_rss body = inr r →
  rewrite_items (channel_Items (rss_Channel r)) = inr items' →
  createError w path = Some err →
  run w fs =
    (1, fs,
     [LookupEnv "INPUT_URL"; LookupEnv "INPUT_PATH"; Get url; Create path;
      Fatal "Failed to create the file: %v" [ArgError (ErrOS err)];
      Exit 1])
  ∧ ∀ p doc, Write p doc ∉ (run w fs).2.
Proof.
  intros Hu Hp Hn Hd Hr Hc. rewrite run_cases, Hu, Hp, Hn, Hd, Hr, Hc. cbn.
  split; [reflexivity|]. intros; not_in_trace.
Qed.

Lemma create_error_is_fatal_witness :
  run Samples.read_only Samples.old_file =
    (1, Samples.old_file,
     [LookupEnv "INPUT_URL"; LookupEnv "INPUT_PATH"; Get "https://bsky.example/feed";
      Create "feed.xml";
      Fatal "Failed to create the file: %v"
        [ArgError (ErrOS "open feed.xml: permission denied")];
      Exit 1]).
Proof.
  refine (proj1 (create_error_is_fatal Samples.read_only Samples.old_file
           "https://bsky.example/feed" "feed.xml"
           (Encode (Samples.feed Samples.two_posts)) (Samples.feed Samples.two_posts)
           Samples.two_posts_rewritten "open feed.xml: permission denied"
           _ _ _ _ _ _)).
  - vm_compute. reflexivity.
  - vm_compute. reflexivity.
  - reflexivity.
  - vm_compute. reflexivity.
  - vm_compute. reflexivity.
  - reflexivity.
Defined.

(** Case analysis over the branches of main.go that end a run. *)
Ltac run_branches w :=
  rewrite run_cases;
  let url := fresh "url" in
  let path := fresh "path" in
  destruct (environ w !! "INPUT_URL") as [url|] eqn:?;
  [destruct (environ w !! "INPUT_PATH") as [path|] eqn:?;
   [destruct (network w url) as [?|? ?] eqn:?;
    [|destruct (negb (_ =? StatusOK)) eqn:?;
      [|destruct (Decode zero_rss _) as [?|?] eqn:?;
        [|destruct (rewrite_items _) as [?|?] eqn:?;
          [|destruct (createError w path) as [?|] eqn:?;
            [|destruct (writeError w path) as [?|] eqn:?]]]]]|]|].

(** X4: a run ends with code 0 or 1: the loop never indexes the slice out
    of range, so the run-time panic cannot occur. *)
Theorem exit_code_is_0_or_1 (w : World) (fs : gmap string (list Node)) :
  (run w fs).1.1 = 0 ∨ (run w fs).1.1 = 1.
Proof. run_branches w; cbn; auto. Qed.

(** X5: the deferred closes run only when main returns: a run with code 0
    ends by closing the file, then the response body, last deferred first;
    a run that ends in a fatal diagnostic closes neither. *)
Theorem closes_only_on_return (w : World) (fs : gmap string (list Node)) :
  match run w fs with
  | (0, _, tr) =>
      ∃ pre path, environ w !! "INPUT_PATH" = Some path
                  ∧ tr = pre ++ [CloseFile path; CloseBody; Exit 0]
                  ∧ (CloseBody ∉ pre) ∧ ∀ p, CloseFile p ∉ pre
  | (_, _, tr) => (CloseBody ∉ tr) ∧ ∀ p, CloseFile p ∉ tr
  end.
Proof.
  run_branches w; cbn; try (split; intros; not_in_trace).
  eexists [_; _; _; _; _], _. split; [reflexivity|]. split; [reflexivity|].
  split; intros; not_in_trace.
Qed.

(** X6: a run calls [os.Create] at most once, with the value of INPUT_PATH,
    and writes at most once, through the file so created: no create and no
    write of a run names any other path. *)
Theorem creates_and_writes_only_at_input_path (w : World)
    (fs : gmap string (list Node)) :
  (creates (run w fs).2 = [] ∧ writes (run w fs).2 = [])
  ∨ ∃ path,
      environ w !! "INPUT_PATH" = Some path
      ∧ creates (run w fs).2 = [path]
      ∧ (writes (run w fs).2 = [] ∨ ∃ doc, writes (run w fs).2 = [(path, doc)]).
Proof.
  run_branches w; cbn; auto; right; eexists; (split; [reflexivity|]);
    (split; [reflexivity|]); auto.
  right. eexists. reflexivity.
Qed.

(** X7: a run makes at most one GET, to the URL of INPUT_URL. *)
Theorem at_most_one_get (w : World) (fs : gmap string (list Node)) :
  gets (run w fs).2 = []
  ∨ ∃ url, environ w !! "INPUT_URL" = Some url ∧ gets (run w fs).2 = [url].
Proof.
  run_branches w; cbn; auto; right; eexists; split; reflexivity.
Qed.

(** X8: a run prints at most one diagnostic: none when it ends with code 0,
    and exactly one, right before the exit, when it ends with code 1. *)
Theorem one_diagnostic_per_failure (w : World) (fs : gmap string (list Node)) :
  match run w fs with
  | (0, _, tr) => fatals tr = []
  | (_, _, tr) =>
      ∃ pre format args,
        tr = pre ++ [Fatal format args; Exit 1] ∧ fatals tr = [(format, args)]
  end.
Proof.
  run_branches w; cbn [fst snd]; try reflexivity.
  all: try (eexists [_; _; _; _], _, _; split; reflexivity).
  all: try (eexists [_; _; _], _, _; split; reflexivity).
  all: try (eexists [_; _], _, _; split; reflexivity).
  all: try (eexists [_], _, _; split; reflexivity).
Qed.

(** X9: when both inputs are set, the GET answers 200 with a body that
    decodes, every pubDate parses and the file can be created and written,
    the run ends with code 0: the file at INPUT_PATH holds the encoding of
    the feed with the rewritten items, and the trace is the two lookups, the
    GET, the create, the write and the two closes. *)
Theorem all_stages_ok_succeeds (w : World) (fs : gmap string (list Node))
    (url path : string) (body : list Node) (r : rss) (items' : list item) :
  environ w !! "INPUT_URL" = Some url →
  environ w !! "INPUT_PATH" = Some path →
  network w url = HttpResponse 200 body →
  Decode zero_rss body = inr r →
  rewrite_items (channel_Items (rss_Channel r)) = inr items' →
  createError w path = None →
  writeError w path = None →
  run w fs =
    (0, <[path := Encode (set_Items r items')]> fs,
     [LookupEnv "INPUT_URL"; LookupEnv "INPUT_PATH"; Get url; Create path;
      Write path (Encode (set_Items r items')); CloseFile path; CloseBody; Exit 0])
  ∧ Forall2 rewritten (channel_Items (rss_Channel r)) items'.
Proof.
  intros Hu Hp Hn Hd Hr Hc Hw. split; [|apply rewrite_items_inr; exact Hr].
  rewrite run_cases, Hu, Hp, Hn, Hd, Hr, Hc, Hw. reflexivity.
Qed.

Lemma all_stages_ok_succeeds_witness :
  run Samples.good_world Samples.old_file =
    (0, <["feed.xml" := Encode (set_Items (Samples.feed Samples.two_posts)
                                  Samples.two_posts_rewritten)]> Samples.old_file,
     [LookupEnv "INPUT_URL"; LookupEnv "INPUT_PATH"; Get "https://bsky.example/feed";
      Create "feed.xml";
      Write "feed.xml" (Encode (set_Items (Samples.feed Samples.two_posts)
                                  Samples.two_posts_rewritten));
      CloseFile "feed.xml"; CloseBody; Exit 0])
  ∧ Forall2 rewritten (channel_Items (rss_Channel (Samples.feed Samples.two_posts)))
      Samples.two_posts_rewritten.
Proof.
  apply (all_stages_ok_succeeds Samples.good_world Samples.old_file
           "https://bsky.example/feed" "feed.xml"
           (Encode (Samples.feed Samples.two_posts)) (Samples.feed Samples.two_posts)
           Samples.two_posts_rewritten).
  - vm_compute. reflexivity.
  - vm_compute. reflexivity.
  - reflexivity.
  - vm_compute. reflexivity.
  - vm_compute. reflexivity.
  - reflexivity.
  - reflexivity.
Defined.

(** X10: a feed without items passes through: the run ends with code 0 and
    writes the encoding of the decoded feed as it is, which decodes again to
    a channel without items. *)
Theorem feed_without_items_passes (w : World) (fs : gmap string (list Node))
    (url path : string) (body : list Node) (r : rss) :
  environ w !! "INPUT_URL" = Some url →
  environ w !! "INPUT_PATH" = Some path →
  network w url = HttpResponse 200 body →
  Decode zero_rss body = inr r →
  channel_Items (rss_Channel r) = [] →
  createError w path = None →
  writeError w path = None →
  (run w fs).1 = (0, <[path := Encode r]> fs)
  ∧ ∃ r', Decode zero_rss (Encode r) = inr r' ∧ channel_Items (rss_Channel r') = [].
Proof.
  intros Hu Hp Hn Hd Hi Hc Hw. split.
  - rewrite run_cases, Hu, Hp, Hn, Hd, Hi, Hc, Hw. cbn.
    rewrite <- Hi, set_Items_same. reflexivity.
  - rewrite Decode_Encode. eexists. split; [reflexivity|exact Hi].
Qed.

Lemma feed_without_items_passes_witness :
  (run (Samples.serving Samples.both_inputs 200 []) Samples.old_file).1
    = (0, <["feed.xml" := Encode (Samples.feed [])]> Samples.old_file)
  ∧ ∃ r', Decode zero_rss (Encode (Samples.feed [])) = inr r'
          ∧ channel_Items (rss_Channel r') = [].
Proof.
  apply (feed_without_items_passes (Samples.serving Samples.both_inputs 200 [])
           Samples.old_file "https://bsky.example/feed" "feed.xml"
           (Encode (Samples.feed [])) (Samples.feed [])).
  - vm_compute. reflexivity.
  - vm_compute. reflexivity.
  - reflexivity.
  - vm_compute. reflexivity.
  - reflexivity.
  - reflexivity.
  - reflexivity.
Defined.

(** X11: a second run that is served what a first run wrote.  When the
    feed has items the second run ends with code 1 and the date-parse
    diagnostic for the first item, and changes no file; when it has none the
    second run writes the same document again. *)
Theorem rerun_on_own_output (w2 : World) (fs2 : gmap string (list Node))
    (url path : string) (r : rss) (items' : list item) :
  rewrite_items (channel_Items (rss_Channel r)) = inr items' →
  environ w2 !! "INPUT_URL" = Some url →
  environ w2 !! "INPUT_PATH" = Some path →
  network w2 url = HttpResponse 200 (Encode (set_Items r items')) →
  match items' with
  | [] =>
      createError w2 path = None → writeError w2 path = None →
      (run w2 fs2).1 = (0, <[path := Encode (set_Items r items')]> fs2)
  | it :: _ =>
      ∃ e, Parse sourceLayout (item_PubDate it) = inl e
           ∧ run w2 fs2 =
               (1, fs2,
                [LookupEnv "INPUT_URL"; LookupEnv "INPUT_PATH"; Get url;
                 Fatal "Failed to parse the pubDate field: %v" [ArgError (ErrParse e)];
                 Exit 1])
  end.
Proof.
  intros Hr Hu Hp Hn. apply rewrite_items_inr in Hr.
  rewrite run_cases, Hu, Hp, Hn, Decode_Encode.
  cbn [negb Z.eqb StatusOK Pos.eqb set_Items rss_Channel channel_Items rss_Version].
  destruct Hr as [|it it' its its' Hit Hrest].
  - intros Hc Hw. cbn [rewrite_items]. rewrite Hc, Hw. reflexivity.
  - destruct Hit as (t & _ & ->). cbn [set_PubDate item_PubDate].
    assert (Hbad : ∃ e, Parse sourceLayout (Format t targetLayout) = inl e).
    { rewrite Format_target.
      destruct (absDate _) as [[[y m] d] yd]. destruct (absClock _) as [[h mi] s].
      apply Parse_source_target_string. }
    destruct Hbad as [e He]. exists e. split; [exact He|].
    cbn [rewrite_items]. unfold rewrite_item. cbn [set_PubDate item_PubDate].
    rewrite He. reflexivity.
Qed.

Lemma rerun_on_own_output_witness :
  ∃ e, Parse sourceLayout (item_PubDate (Samples.post "2025-01-02T09:15:00+00:00")) = inl e
       ∧ run (Samples.serving Samples.both_inputs 200 Samples.two_posts_rewritten)
             Samples.good_files =
           (1, Samples.good_files,
            [LookupEnv "INPUT_URL"; LookupEnv "INPUT_PATH"; Get "https://bsky.example/feed";
             Fatal "Failed to parse the pubDate field: %v" [ArgError (ErrParse e)];
             Exit 1]).
Proof.
  apply (rerun_on_own_output
           (Samples.serving Samples.both_inputs 200 Samples.two_posts_rewritten)
           Samples.good_files "https://bsky.example/feed" "feed.xml"
           (Samples.feed Samples.two_posts) Samples.two_posts_rewritten).
  - vm_compute. reflexivity.
  - vm_compute. reflexivity.
  - vm_compute. reflexivity.
  - reflexivity.
Defined.

(** ** Further properties of the date parsing *)

Lemma cutspace_spaces (k : nat) (r : string) : cutspace (spaces k +:+ r) = cutspace r.
Proof. induction k as [|k IH]; [reflexivity|exact IH]. Qed.

(** A space of the layout takes a run of spaces of the value. *)
Lemma skip_space_run (k : nat) (r : string) :
  cutspace r = r → skip (String space (spaces k +:+ r)) " " = Some r.
Proof.
  intros Hr. cbn [skip].
  change (Ascii.eqb " " space) with true. change (Ascii.eqb space space) with true.
  cbn [negb skip_spaces cutspace].
  change (Ascii.eqb space space) with true. cbv iota.
  rewrite cutspace_spaces, Hr. reflexivity.
Qed.

Lemma cutspace_digit (d : Z) (r : string) :
  0 <= d <= 9 → cutspace (String (digit_char d) r) = String (digit_char d) r.
Proof.
  intros H. cbn [cutspace].
  rewrite (isDigitC_not_space _ (isDigitC_digit_char d H)). reflexivity.
Qed.

Lemma cutspace_appendInt_2 (n : Z) (r : string) :
  0 <= n < 100 → cutspace (appendInt n 2 +:+ r) = (appendInt n 2 +:+ r).
Proof.
  intros H. rewrite appendInt_2, twoDigits_append by lia.
  apply cutspace_digit. apply tens_units. exact H.
Qed.

Lemma cutspace_appendInt_4 (n : Z) (r : string) :
  0 <= n < 10000 → cutspace (appendInt n 4 +:+ r) = (appendInt n 4 +:+ r).
Proof.
  intros H. rewrite appendInt_4, append_assoc, twoDigits_append by lia.
  apply cutspace_digit. apply tens_units. Z.div_mod_to_equations. lia.
Qed.

Lemma len_three (a b c : ascii) (r : string) :
  (3 <=? len (String a (String b (String c r)))) = true.
Proof. apply Z.leb_le. unfold len. cbn [String.length]. lia. Qed.

(** The month names of the table are found, and a name is its own month. *)
Lemma parseStd_Month_name (f : Fields) (m : Z) (rest : string) :
  1 <= m <= 12 →
  parseStd stdMonth f (shortMonthName m +:+ rest) = (set_month f m, rest, "", false)
  ∧ cutspace (shortMonthName m +:+ rest) = (shortMonthName m +:+ rest).
Proof.
  intros Hm.
  assert (Hm' : m = 1 ∨ m = 2 ∨ m = 3 ∨ m = 4 ∨ m = 5 ∨ m = 6 ∨ m = 7 ∨ m = 8
                ∨ m = 9 ∨ m = 10 ∨ m = 11 ∨ m = 12) by lia.
  clear Hm.
  destruct Hm' as [->|[->|[->|[->|[->|[->|[->|[->|[->|[->|[->| ->]]]]]]]]]]];
    (split; [|reflexivity]);
    match goal with
    | |- context [shortMonthName ?k] =>
        let v := eval vm_compute in (shortMonthName k) in
        change (shortMonthName k) with v
    end;
    cbn [String.append parseStd]; unfold lookup, shortMonthNames;
    cbn [lookup_from String.length take_s drop_s];
    change (len "Jan") with 3; change (len "Feb") with 3; change (len "Mar") with 3;
    change (len "Apr") with 3; change (len "May") with 3; change (len "Jun") with 3;
    change (len "Jul") with 3; change (len "Aug") with 3; change (len "Sep") with 3;
    change (len "Oct") with 3; change (len "Nov") with 3; change (len "Dec") with 3;
    rewrite !len_three; reflexivity.
Qed.

(** The numeric zone without colon, as [Format] writes it, followed by any
    text. *)
Lemma formatNumTZ_plain_minutes (zm off : Z) :
  0 <= zm < 1500 → off = zm * 60 ∨ off = - (zm * 60) →
  formatNumTZ false off =
  String (if off <? 0 then "-"%char else "+"%char)
    (twoDigits (zm / 60) +:+ twoDigits (zm mod 60)).
Proof.
  intros Hz Hoff. unfold formatNumTZ.
  assert (H1 : 0 <= zm / 60 < 100) by (Z.div_mod_to_equations; lia).
  assert (H2 : 0 <= zm mod 60 < 100) by (Z.div_mod_to_equations; lia).
  assert (Hq : Z.quot off 60 = zm ∧ 0 <= off ∨ Z.quot off 60 = - zm ∧ off < 0).
  { destruct Hoff as [->| ->].
    - left. rewrite Z.quot_mul by lia. lia.
    - destruct (Z.eq_dec zm 0) as [->|]; [left; split; [reflexivity|lia]|].
      right. rewrite <- Z.mul_opp_l, Z.quot_mul by lia. lia. }
  destruct Hq as [[-> Hs]|[-> Hs]].
  - replace (zm <? 0) with false by (symmetry; apply Z.ltb_ge; lia).
    replace (off <? 0) with false by (symmetry; apply Z.ltb_ge; lia).
    rewrite Z.quot_div_nonneg, Z.rem_mod_nonneg by lia.
    rewrite !appendInt_2 by lia. reflexivity.
  - replace (- zm <? 0) with true by (symmetry; apply Z.ltb_lt; lia).
    replace (off <? 0) with true by (symmetry; apply Z.ltb_lt; lia).
    rewrite Z.opp_involutive.
    rewrite Z.quot_div_nonneg, Z.rem_mod_nonneg by lia.
    rewrite !appendInt_2 by lia. reflexivity.
Qed.

Lemma parseNumTZ_plain (f : Fields) (zm off : Z) (rest : string) :
  0 <= zm < 1500 → off = zm * 60 ∨ off = - (zm * 60) →
  parseNumTZ false f (formatNumTZ false off +:+ rest)
  = (set_zoneOffset f off, rest, "", false)
  ∧ cutspace (formatNumTZ false off +:+ rest) = (formatNumTZ false off +:+ rest).
Proof.
  intros Hz Hoff. rewrite (formatNumTZ_plain_minutes zm off Hz Hoff).
  split; [|destruct (off <? 0); reflexivity].
  assert (H1 : 0 <= zm / 60 <= 24) by (Z.div_mod_to_equations; lia).
  assert (H2 : 0 <= zm mod 60 < 60) by (Z.div_mod_to_equations; lia).
  cbn [String.append]. rewrite append_assoc, !twoDigits_append.
  unfold parseNumTZ.
  replace (len _ <? Z.of_nat 5) with false
    by (symmetry; apply Z.ltb_ge; unfold len; cbn [String.length]; lia).
  cbn [andb take_s drop_s].
  change (String (digit_char (zm / 60 / 10)) (String (digit_char ((zm / 60) mod 10)) ""))
    with (twoDigits (zm / 60) +:+ "").
  change (String (digit_char (zm mod 60 / 10)) (String (digit_char ((zm mod 60) mod 10)) ""))
    with (twoDigits (zm mod 60) +:+ "").
  rewrite !getnum_twoDigits by lia.
  change (getnum "00" true) with (Some (0, "")).
  cbv beta iota zeta.
  replace (24 <? zm / 60) with false by (symmetry; apply Z.ltb_ge; lia).
  replace (60 <? zm mod 60) with false by (symmetry; apply Z.ltb_ge; lia).
  change (60 <? 0) with false. cbv iota.
  assert (Hzm : (zm / 60 * 60 + zm mod 60) * 60 + 0 = zm * 60)
    by (Z.div_mod_to_equations; lia).
  destruct (Z.ltb_spec off 0).
  - cbn [Ascii.eqb Bool.eqb]. rewrite Hzm. do 3 f_equal. f_equal. lia.
  - cbn [Ascii.eqb Bool.eqb]. rewrite Hzm. do 3 f_equal. f_equal. lia.
Qed.

(** The chunks of the source layout on a text spelled as the layout has it:
    the fields are those spelled, and what follows the zone is left over. *)
Lemma parseChunks_source_text (av : string) (k1 k2 k3 k4 : nat)
    (d m y h mi zm off : Z) (rest : string) :
  0 <= d <= 99 → 1 <= m <= 12 → 0 <= y <= 9999 →
  0 <= h <= 23 → 0 <= mi <= 59 →
  0 <= zm < 1500 → off = zm * 60 ∨ off = - (zm * 60) →
  parseChunks sourceLayout av (chunks sourceLayout) initFields
    (source_text k1 k2 k3 k4 d m y h mi off rest)
  = if len rest =? 0
    then inr (mkFields y m d h mi 0 0 off)
    else inl (mkParseError "02 Jan 2006 15:04 -0700" av "" rest
                (": extra text: " +:+ quote rest)).
Proof.
  intros Hd Hm Hy Hh Hmi Hz Hoff. unfold source_text.
  cbn [sourceLayout chunks parseChunks prefix std stdstr layoutText suffix].
  change (skip (appendInt d 2 +:+ ?r) "") with (Some (appendInt d 2 +:+ r)).
  cbv beta iota.
  rewrite parseStd_ZeroDay_appendInt by lia. cbn [String.eqb negb].
  rewrite ?append_assoc.
  rewrite skip_space_run by (apply (proj2 (parseStd_Month_name initFields m _ Hm))).
  rewrite (proj1 (parseStd_Month_name _ m _ Hm)). cbn [String.eqb negb].
  rewrite skip_space_run by (apply cutspace_appendInt_4; lia).
  rewrite parseStd_LongYear_appendInt by lia. cbn [String.eqb negb].
  rewrite skip_space_run by (apply cutspace_appendInt_2; lia).
  rewrite parseStd_Hour_appendInt by lia. cbn [String.eqb negb].
  change (skip (String ":" ?r) ":") with (Some r). cbv beta iota.
  rewrite parseStd_ZeroMinute_appendInt by lia. cbn [String.eqb negb].
  rewrite skip_space_run by (apply (proj2 (parseNumTZ_plain initFields zm off rest Hz Hoff))).
  cbn [parseStd].
  rewrite (proj1 (parseNumTZ_plain _ zm off rest Hz Hoff)). cbn [String.eqb negb].
  change (skip rest "") with (Some rest). cbv beta iota.
  destruct (len rest =? 0); reflexivity.
Qed.

Lemma Parse_source_text (k1 k2 k3 k4 : nat) (d m y h mi zm off : Z) (rest : string) :
  0 <= d <= 99 → 1 <= m <= 12 → 0 <= y <= 9999 →
  0 <= h <= 23 → 0 <= mi <= 59 →
  0 <= zm < 1500 → off = zm * 60 ∨ off = - (zm * 60) →
  Parse sourceLayout (source_text k1 k2 k3 k4 d m y h mi off rest) =
  if negb (len rest =? 0)
  then inl (mkParseError "02 Jan 2006 15:04 -0700"
              (source_text k1 k2 k3 k4 d m y h mi off rest) "" rest
              (": extra text: " +:+ quote rest))
  else if (d <? 1) || (daysIn m y <? d)
  then inl (mkParseError "02 Jan 2006 15:04 -0700"
              (source_text k1 k2 k3 k4 d m y h mi off rest) "" "" ": day out of range")
  else inr (civilTime y m d h mi 0 off).
Proof.
  intros Hd Hm Hy Hh Hmi Hz Hoff. unfold Parse.
  rewrite (parseChunks_source_text _ k1 k2 k3 k4 d m y h mi zm off rest) by assumption.
  destruct (len rest =? 0); cbn [negb]; [|reflexivity].
  cbn [f_month f_day f_year f_hour f_min f_sec f_nsec f_zoneOffset].
  replace (m <? 0) with false by (symmetry; apply Z.ltb_ge; lia).
  replace (d <? 0) with false by (symmetry; apply Z.ltb_ge; lia).
  destruct ((d <? 1) || (daysIn m y <? d)); [reflexivity|].
  replace (off =? -1) with false by (symmetry; apply Z.eqb_neq; lia).
  cbn [negb]. rewrite Date_civil by lia. reflexivity.
Qed.

(** X12: a pubDate spelled as the source layout has it (two-digit day,
    month name, four-digit year, hour and minute, sign and four digits of
    offset below 25 hours, one or more spaces where the layout has one) and
    naming a day of the calendar parses to the time at which a clock at that
    offset reads that date and minute, and the loop rewrites it to the same
    date, minute and offset in the target layout, seconds 00. *)
Theorem source_text_is_rewritten (it : item) (k1 k2 k3 k4 : nat)
    (d m y h mi zm off : Z) :
  item_PubDate it = source_text k1 k2 k3 k4 d m y h mi off "" →
  0 <= y <= 9999 → 1 <= m <= 12 → 1 <= d <= daysIn m y →
  0 <= h <= 23 → 0 <= mi <= 59 →
  0 <= zm < 1500 → off = zm * 60 ∨ off = - (zm * 60) →
  Parse sourceLayout (item_PubDate it) = inr (civilTime y m d h mi 0 off)
  ∧ rewrite_item it = inr (set_PubDate it (target_string y m d h mi 0 off)).
Proof.
  intros Hp Hy Hm Hd Hh Hmi Hz Hoff.
  assert (Hd99 : d <= 99).
  { assert (daysIn m y <= 31); [|lia].
    assert (Hm' : m = 1 ∨ m = 2 ∨ m = 3 ∨ m = 4 ∨ m = 5 ∨ m = 6 ∨ m = 7 ∨ m = 8
                  ∨ m = 9 ∨ m = 10 ∨ m = 11 ∨ m = 12) by lia.
    unfold daysIn.
    destruct Hm' as [->|[->|[->|[->|[->|[->|[->|[->|[->|[->|[->| ->]]]]]]]]]]];
      destruct (isLeap y); vm_compute; discriminate. }
  assert (HP : Parse sourceLayout (item_PubDate it) = inr (civilTime y m d h mi 0 off)).
  { rewrite Hp, (Parse_source_text k1 k2 k3 k4 d m y h mi zm off "") by (assumption || lia).
    change (len "" =? 0) with true. cbn [negb].
    replace (d <? 1) with false by (symmetry; apply Z.ltb_ge; lia).
    replace (daysIn m y <? d) with false by (symmetry; apply Z.ltb_ge; lia).
    reflexivity. }
  split; [exact HP|].
  unfold rewrite_item. rewrite HP, Format_civil by lia. reflexivity.
Qed.

Lemma source_text_is_rewritten_witness :
  Parse sourceLayout (item_PubDate (Samples.post "15 Aug  2024 23:59   -0500"))
    = inr (civilTime 2024 8 15 23 59 0 (-18000))
  ∧ rewrite_item (Samples.post "15 Aug  2024 23:59   -0500")
    = inr (set_PubDate (Samples.post "15 Aug  2024 23:59   -0500")
             (target_string 2024 8 15 23 59 0 (-18000))).
Proof.
  apply (source_text_is_rewritten (Samples.post "15 Aug  2024 23:59   -0500")
           0 1 0 2 15 8 2024 23 59 300 (-18000)).
  - vm_compute. reflexivity.
  - lia.
  - lia.
  - vm_compute. split; discriminate.
  - lia.
  - lia.
  - lia.
  - right. reflexivity.
Defined.

(** X13: a pubDate that is spelled as the source layout has it but names a
    day the month does not have (day 0, 31 April, 29 February of a common
    year) is refused with the message that the day is out of range. *)
Theorem impossible_day_is_refused (k1 k2 k3 k4 : nat) (d m y h mi zm off : Z) :
  0 <= y <= 9999 → 1 <= m <= 12 → 0 <= d <= 99 →
  d < 1 ∨ daysIn m y < d →
  0 <= h <= 23 → 0 <= mi <= 59 →
  0 <= zm < 1500 → off = zm * 60 ∨ off = - (zm * 60) →
  Parse sourceLayout (source_text k1 k2 k3 k4 d m y h mi off "")
  = inl (mkParseError "02 Jan 2006 15:04 -0700"
           (source_text k1 k2 k3 k4 d m y h mi off "") "" "" ": day out of range").
Proof.
  intros Hy Hm Hd Hbad Hh Hmi Hz Hoff.
  rewrite (Parse_source_text k1 k2 k3 k4 d m y h mi zm off "") by assumption.
  change (len "" =? 0) with true. cbn [negb].
  replace ((d <? 1) || (daysIn m y <? d)) with true; [reflexivity|].
  symmetry. apply orb_true_iff. destruct Hbad; [left; apply Z.ltb_lt|right; apply Z.ltb_lt]; lia.
Qed.

Lemma impossible_day_is_refused_witness :
  Parse sourceLayout "29 Feb 2025 09:15 +0000"
  = inl (mkParseError "02 Jan 2006 15:04 -0700" "29 Feb 2025 09:15 +0000" "" ""
           ": day out of range").
Proof.
  apply (impossible_day_is_refused 0 0 0 0 29 2 2025 9 15 0 0).
  - lia.
  - lia.
  - lia.
  - right. vm_compute. reflexivity.
  - lia.
  - lia.
  - lia.
  - left. reflexivity.
Defined.

(** X14: text after the zone is refused: a pubDate spelled as the source
    layout has it and followed by anything at all (a zone name, seconds, a
    line end) does not parse, and the error names the extra text. *)
Theorem trailing_text_is_refused (k1 k2 k3 k4 : nat) (d m y h mi zm off : Z)
    (rest : string) :
  rest ≠ "" →
  0 <= y <= 9999 → 1 <= m <= 12 → 0 <= d <= 99 →
  0 <= h <= 23 → 0 <= mi <= 59 →
  0 <= zm < 1500 → off = zm * 60 ∨ off = - (zm * 60) →
  Parse sourceLayout (source_text k1 k2 k3 k4 d m y h mi off rest)
  = inl (mkParseError "02 Jan 2006 15:04 -0700"
           (source_text k1 k2 k3 k4 d m y h mi off rest) "" rest
           (": extra text: " +:+ quote rest)).
Proof.
  intros Hrest Hy Hm Hd Hh Hmi Hz Hoff.
  rewrite (Parse_source_text k1 k2 k3 k4 d m y h mi zm off rest) by assumption.
  replace (len rest =? 0) with false; [reflexivity|].
  symmetry. apply Z.eqb_neq. destruct rest; [congruence|]. unfold len. cbn. lia.
Qed.

Lemma trailing_text_is_refused_witness :
  Parse sourceLayout "02 Jan 2025 09:15 +0000 GMT"
  = inl (mkParseError "02 Jan 2006 15:04 -0700" "02 Jan 2025 09:15 +0000 GMT" "" " GMT"
           (": extra text: " +:+ quote " GMT")).
Proof.
  apply (trailing_text_is_refused 0 0 0 0 2 1 2025 9 15 0 0 " GMT").
  - discriminate.
  - lia.
  - lia.
  - lia.
  - lia.
  - lia.
  - lia.
  - left. reflexivity.
Defined.

Lemma len_append (a b : string) : len (a +:+ b) = len a + len b.
Proof. unfold len. rewrite length_append. lia. Qed.

Lemma len_appendInt_2 (n : Z) : 0 <= n < 100 → len (appendInt n 2) = 2.
Proof. intros H. rewrite appendInt_2 by exact H. reflexivity. Qed.

Lemma len_appendInt_4 (n : Z) : 0 <= n < 10000 → len (appendInt n 4) = 4.
Proof. intros H. rewrite appendInt_4 by exact H. reflexivity. Qed.

(** The zone with colon is six bytes for every offset below 100 hours. *)
Lemma len_formatNumTZ (off : Z) :
  -360000 < off < 360000 → len (formatNumTZ true off) = 6.
Proof.
  intros H. unfold formatNumTZ.
  set (zone := Z.quot off 60).
  assert (Hz : -6000 < zone < 6000).
  { subst zone. destruct (Z.le_gt_cases 0 off).
    - rewrite Z.quot_div_nonneg by lia. Z.div_mod_to_equations. lia.
    - rewrite <- (Z.opp_involutive off), Z.quot_opp_l, Z.quot_div_nonneg by lia.
      Z.div_mod_to_equations. lia. }
  destruct (Z.ltb_spec zone 0).
  - rewrite !len_append, !len_appendInt_2; [reflexivity| |].
    + pose proof (Z.rem_bound_pos (- zone) 60 ltac:(lia) ltac:(lia)). lia.
    + split; [apply Z.quot_pos; lia|]. apply Z.quot_lt_upper_bound; lia.
  - rewrite !len_append, !len_appendInt_2; [reflexivity| |].
    + pose proof (Z.rem_bound_pos zone 60 ltac:(lia) ltac:(lia)). lia.
    + split; [apply Z.quot_pos; lia|]. apply Z.quot_lt_upper_bound; lia.
Qed.

(** X15: every rewritten pubDate is exactly 25 bytes long: four digits of
    year, two each of month, day, hour, minute and second, the five
    separators, and a zone of sign, two digits, colon, two digits. *)
Theorem rewritten_pubDate_is_25_bytes (s : string) (t : Time) :
  Parse sourceLayout s = inr t → len (Format t targetLayout) = 25.
Proof.
  intros H.
  apply Parse_source_inv in H
    as (y & m & d & h & mi & hr & mm & off & Hy & Hm & Hd & Hh & Hmi & Hhr & Hmm & Hoff & ->).
  rewrite Format_civil by lia. unfold target_string.
  assert (Hd99 : d <= 99).
  { assert (daysIn m y <= 31); [|lia].
    assert (Hm' : m = 1 ∨ m = 2 ∨ m = 3 ∨ m = 4 ∨ m = 5 ∨ m = 6 ∨ m = 7 ∨ m = 8
                  ∨ m = 9 ∨ m = 10 ∨ m = 11 ∨ m = 12) by lia.
    unfold daysIn.
    destruct Hm' as [->|[->|[->|[->|[->|[->|[->|[->|[->|[->|[->| ->]]]]]]]]]]];
      destruct (isLeap y); vm_compute; discriminate. }
  assert (Hs : ∀ c r, len (String c r) = 1 + len r)
    by (intros; unfold len; cbn [String.length]; lia).
  repeat (rewrite len_append || rewrite Hs).
  rewrite len_appendInt_4, !len_appendInt_2, len_formatNumTZ by lia.
  reflexivity.
Qed.

Lemma rewritten_pubDate_is_25_bytes_witness :
  len (Format (mkTime 1735809300 0 0) targetLayout) = 25.
Proof.
  apply (rewritten_pubDate_is_25_bytes "02 Jan 2025 09:15 +0000" (mkTime 1735809300 0 0)).
  vm_compute. reflexivity.
Defined.

(** ** Further properties of the decoding *)

Lemma unmarshal_item_app (it : item) (a b : list Node) :
  unmarshal_item it (a ++ b) = unmarshal_item (unmarshal_item it a) b.
Proof. apply fold_left_app. Qed.

(** X16: an item's decoding ignores whatever is not one of its four
    elements: a child that is text, a comment, or an element of another
    name can be dropped from the item without changing the decoded item. *)
Theorem unknown_item_children_are_ignored (it : item) (before after : list Node)
    (n : Node) :
  named "link" n = false → named "description" n = false →
  named "pubDate" n = false → named "guid" n = false →
  unmarshal_item it (before ++ n :: after) = unmarshal_item it (before ++ after).
Proof.
  intros Hl Hd Hp Hg. rewrite !unmarshal_item_app.
  change (unmarshal_item ?i (n :: after))
    with (unmarshal_item (unmarshal_item_child i n) after).
  f_equal. destruct n as [name attr cs| | | |]; try reflexivity.
  cbn [named] in *. cbn [unmarshal_item_child]. rewrite Hl, Hd, Hp, Hg. reflexivity.
Qed.

Lemma unknown_item_children_are_ignored_witness :
  unmarshal_item zero_item
    ([Element (tag "link") [] [CharData "l"]]
       ++ Element (tag "category") [] [CharData "news"]
       :: [Element (tag "pubDate") [] [CharData "02 Jan 2025 09:15 +0000"]])
  = unmarshal_item zero_item
      ([Element (tag "link") [] [CharData "l"]]
         ++ [Element (tag "pubDate") [] [CharData "02 Jan 2025 09:15 +0000"]]).
Proof.
  apply (unknown_item_children_are_ignored zero_item
           [Element (tag "link") [] [CharData "l"]]
           [Element (tag "pubDate") [] [CharData "02 Jan 2025 09:15 +0000"]]
           (Element (tag "category") [] [CharData "news"])); reflexivity.
Defined.

(** X17: the items of a decoded channel are its [item] elements in
    document order, and as many: each is decoded on its own from a fresh
    item and appended, and no other child of the channel adds, removes or
    moves one. *)
Theorem items_decode_in_document_order (children : list Node) (c : channel) :
  channel_Items (unmarshal_channel c children)
  = channel_Items c ++ map (unmarshal_item zero_item) (item_elements children).
Proof.
  revert c; induction children as [|n children IH]; intros c.
  - cbn. rewrite app_nil_r. reflexivity.
  - change (unmarshal_channel c (n :: children))
      with (unmarshal_channel (unmarshal_channel_child c n) children).
    rewrite IH. destruct n as [name attr cs| | | |]; try reflexivity.
    cbn [unmarshal_channel_child item_elements omap list_omap].
    destruct (String.eqb (Local name) "description") eqn:E1.
    { apply String.eqb_eq in E1. rewrite E1. reflexivity. }
    destruct (String.eqb (Local name) "link") eqn:E2.
    { apply String.eqb_eq in E2. rewrite E2. reflexivity. }
    destruct (String.eqb (Local name) "title") eqn:E3.
    { apply String.eqb_eq in E3. rewrite E3. reflexivity. }
    destruct (String.eqb (Local name) "item") eqn:E4; [|reflexivity].
    cbn [channel_Items map]. rewrite <- app_assoc. reflexivity.
Qed.

Lemma unmarshal_item_keeps_PubDate (children : list Node) (it : item) :
  Forall (λ n, named "pubDate" n = false) children →
  item_PubDate (unmarshal_item it children) = item_PubDate it.
Proof.
  intros H. revert it; induction H as [|n children Hn _ IH]; intros it; [reflexivity|].
  change (unmarshal_item it (n :: children))
    with (unmarshal_item (unmarshal_item_child it n) children).
  rewrite IH. destruct n as [name attr cs| | | |]; try reflexivity.
  cbn [named] in Hn. cbn [unmarshal_item_child].
  destruct (String.eqb (Local name) "link"); [reflexivity|].
  destruct (String.eqb (Local name) "description"); [reflexivity|].
  rewrite Hn. destruct (String.eqb (Local name) "guid"); reflexivity.
Qed.

(** X18: when an item has several [pubDate] elements the last one stays,
    whatever its name space and attributes: the decoded pubDate is the
    character data of the last element of that local name. *)
Theorem last_pubDate_wins (it : item) (before after : list Node) (name : Name)
    (attr : list Attr) (cs : list Node) :
  Local name = "pubDate" →
  Forall (λ n, named "pubDate" n = false) after →
  item_PubDate (unmarshal_item it (before ++ Element name attr cs :: after))
  = chardata cs.
Proof.
  intros Hn Ha. rewrite unmarshal_item_app.
  change (unmarshal_item ?i (Element name attr cs :: after))
    with (unmarshal_item (unmarshal_item_child i (Element name attr cs)) after).
  rewrite unmarshal_item_keeps_PubDate by exact Ha.
  cbn [unmarshal_item_child]. rewrite Hn. reflexivity.
Qed.

Lemma last_pubDate_wins_witness :
  item_PubDate
    (unmarshal_item zero_item
       ([Element (tag "pubDate") [] [CharData "01 Jan 2025 00:00 +0000"]]
          ++ Element (mkName "urn:x" "pubDate") [] [CharData "02 Jan 2025 09:15 +0000"]
          :: [Element (tag "link") [] []]))
  = chardata [CharData "02 Jan 2025 09:15 +0000"].
Proof.
  apply (last_pubDate_wins zero_item
           [Element (tag "pubDate") [] [CharData "01 Jan 2025 00:00 +0000"]]
           [Element (tag "link") [] []] (mkName "urn:x" "pubDate") []
           [CharData "02 Jan 2025 09:15 +0000"]).
  - reflexivity.
  - repeat constructor.
Defined.

(** X19: decoding starts at the first element and ends with it.  What
    comes before the root (comments, text, directives, processing
    instructions) does not change the result, unless it holds an XML
    declaration the decoder refuses (a version other than 1.0, or an
    encoding other than UTF-8, for which main.go sets no reader): then the
    decoding fails with that error.  What follows the root is not read. *)
Theorem prolog_and_epilog_are_ignored (r : rss) (pre post : list Node) (name : Name)
    (attr : list Attr) (children : list Node) :
  first_element pre = None →
  Decode r (pre ++ Element name attr children :: post)
  = match first_refusal pre with
    | Some err => inl err
    | None => unmarshal_rss r name attr children
    end.
Proof.
  intros H. induction pre as [|n pre IH]; [reflexivity|].
  destruct n as [? ? ?| | |target inst|]; cbn [first_element] in H;
    try discriminate H; cbn [app Decode first_refusal]; try (apply IH; exact H).
  destruct (declaration_error target inst); [reflexivity|]. apply IH; exact H.
Qed.

Lemma prolog_and_epilog_are_ignored_witness :
  Decode zero_rss
    ([ProcInst "xml" "version='1.0' encoding='UTF-8'"; CharData " "]
       ++ Element (tag "rss") [mkAttr (tag "version") "2.0"] [] :: [Comment "end"])
  = match first_refusal [ProcInst "xml" "version='1.0' encoding='UTF-8'"; CharData " "] with
    | Some err => inl err
    | None => unmarshal_rss zero_rss (tag "rss") [mkAttr (tag "version") "2.0"] []
    end.
Proof.
  apply (prolog_and_epilog_are_ignored zero_rss
           [ProcInst "xml" "version='1.0' encoding='UTF-8'"; CharData " "]
           [Comment "end"]).
  reflexivity.
Defined.

(** X20: the encoder loses nothing but the root's name: two feeds with the
    same encoding have the same version and the same channel, items and all
    their fields included. *)
Theorem Encode_determines_feed (r r' : rss) :
  Encode r = Encode r' →
  rss_Version r = rss_Version r' ∧ rss_Channel r = rss_Channel r'.
Proof.
  intros H. pose proof (Decode_Encode r) as E. rewrite H, Decode_Encode in E.
  injection E as Hv Hc. split; congruence.
Qed.

Lemma Encode_determines_feed_witness :
  rss_Version (Samples.feed Samples.two_posts)
    = rss_Version (mkRss (mkName "urn:x" "rss") "2.0"
                     (rss_Channel (Samples.feed Samples.two_posts)))
  ∧ rss_Channel (Samples.feed Samples.two_posts)
    = rss_Channel (mkRss (mkName "urn:x" "rss") "2.0"
                     (rss_Channel (Samples.feed Samples.two_posts))).
Proof.
  apply (Encode_determines_feed (Samples.feed Samples.two_posts)
           (mkRss (mkName "urn:x" "rss") "2.0"
              (rss_Channel (Samples.feed Samples.two_posts)))).
  reflexivity.
Defined.

(** X21: markup inside a text field is dropped: the text decoded for a
    string field is the character data before a nested element followed by
    the character data after it, the element and all inside it left out. *)
Theorem nested_markup_is_dropped (before after : list Node) (name : Name)
    (attr : list Attr) (inner : list Node) :
  chardata (before ++ Element name attr inner :: after)
  = (chardata before +:+ chardata after).
Proof.
  induction before as [|n before IH]; [reflexivity|].
  destruct n; cbn [app chardata]; try exact IH.
  rewrite IH, append_assoc. reflexivity.
Qed.

(** ** End to end *)

(** X22: the file a successful run leaves at INPUT_PATH decodes to the feed
    that was downloaded with each item's pubDate rewritten: same version,
    same channel description, link and title, and item by item the same
    link, description and guid. *)
Theorem written_file_decodes_to_rewritten_feed (w : World)
    (fs fs' : gmap string (list Node)) (tr : list Event) :
  run w fs = (0, fs', tr) →
  ∃ path doc body r r',
    environ w !! "INPUT_PATH" = Some path
    ∧ fs' !! path = Some doc
    ∧ (∃ url, network w url = HttpResponse 200 body)
    ∧ Decode zero_rss body = inr r
    ∧ Decode zero_rss doc = inr r'
    ∧ rss_Version r' = rss_Version r
    ∧ channel_Description (rss_Channel r') = channel_Description (rss_Channel r)
    ∧ channel_Link (rss_Channel r') = channel_Link (rss_Channel r)
    ∧ channel_Title (rss_Channel r') = channel_Title (rss_Channel r)
    ∧ Forall2 rewritten (channel_Items (rss_Channel r)) (channel_Items (rss_Channel r')).
Proof.
  intros H.
  destruct (run_success _ _ _ _ H)
    as (url & path & body & r & items' & Hu & Hp & Hn & Hd & Hr & ->).
  eexists path, _, body, r, _. split; [exact Hp|].
  split; [apply lookup_insert_eq|]. split; [exists url; exact Hn|].
  split; [exact Hd|]. split; [apply Decode_Encode|].
  cbn. repeat (split; [reflexivity|]). apply rewrite_items_inr. exact Hr.
Qed.

Lemma written_file_decodes_to_rewritten_feed_witness :
  ∃ path doc body r r',
    environ Samples.good_world !! "INPUT_PATH" = Some path
    ∧ Samples.good_files !! path = Some doc
    ∧ (∃ url, network Samples.good_world url = HttpResponse 200 body)
    ∧ Decode zero_rss body = inr r
    ∧ Decode zero_rss doc = inr r'
    ∧ rss_Version r' = rss_Version r
    ∧ channel_Description (rss_Channel r') = channel_Description (rss_Channel r)
    ∧ channel_Link (rss_Channel r') = channel_Link (rss_Channel r)
    ∧ channel_Title (rss_Channel r') = channel_Title (rss_Channel r)
    ∧ Forall2 rewritten (channel_Items (rss_Channel r)) (channel_Items (rss_Channel r')).
Proof.
  apply (written_file_decodes_to_rewritten_feed Samples.good_world Samples.old_file
           Samples.good_files Samples.good_trace).
  vm_compute. reflexivity.
Defined.

(** X23: a pubDate that parses under the source layout gives a time on a
    whole minute: no nanoseconds, Unix seconds and offset both multiples of
    60, the offset at most 25 hours either way. *)
Theorem parsed_pubDate_is_on_the_minute (s : string) (t : Time) :
  Parse sourceLayout s = inr t →
  nsecOf t = 0 ∧ unixSec t mod 60 = 0 ∧ offsetOf t mod 60 = 0
  ∧ -90000 <= offsetOf t <= 90000.
Proof.
  intros H.
  apply Parse_source_inv in H
    as (y & m & d & h & mi & hr & mm & off & Hy & Hm & Hd & Hh & Hmi & Hhr & Hmm & Hoff & ->).
  unfold civilTime. cbn [nsecOf unixSec offsetOf].
  split; [reflexivity|].
  assert (Hoff60 : ∃ k, off = k * 60)
    by (destruct Hoff as [->| ->];
        [exists (hr * 60 + mm)|exists (- (hr * 60 + mm))]; lia).
  destruct Hoff60 as [k Hk].
  split; [|split; [rewrite Hk; apply Z.mod_mul; lia|lia]].
  set (days := daysSinceEpoch y + ydayOf (isLeap y) m d).
  assert (Hc : ∃ c, absoluteToInternal + internalToUnix = c * 60)
    by (exists ((absoluteToInternal + internalToUnix) / 60); vm_compute; reflexivity).
  destruct Hc as [c ->]. subst off.
  unfold secondsPerDay, secondsPerHour, secondsPerMinute.
  replace (days * (24 * (60 * 60)) + (h * (60 * 60) + mi * 60 + 0) + c * 60 - k * 60)
    with ((days * 1440 + h * 60 + mi + c - k) * 60) by lia.
  apply Z.mod_mul. lia.
Qed.

Lemma parsed_pubDate_is_on_the_minute_witness :
  nsecOf (mkTime 1723784340 0 (-18000)) = 0
  ∧ unixSec (mkTime 1723784340 0 (-18000)) mod 60 = 0
  ∧ offsetOf (mkTime 1723784340 0 (-18000)) mod 60 = 0
  ∧ -90000 <= offsetOf (mkTime 1723784340 0 (-18000)) <= 90000.
Proof.
  apply (parsed_pubDate_is_on_the_minute "15 Aug 2024 23:59 -0500"
           (mkTime 1723784340 0 (-18000))).
  vm_compute. reflexivity.
Defined.
